(** * youtube_api_parser: a shallow embedding of [main.py]

    The program walks the paginated playlist-items endpoint of the
    YouTube Data API, joins every page with the statistics endpoint and
    writes the aggregated list to a JSON document.  The embedding keeps
    the structure of the Python source: decoded JSON payloads are values
    of an inductive type accessed with Python's subscript, [in], [len]
    and iteration (each of which may raise), the process-wide flag
    [api_request_allow], the standard output and the written files are
    threaded through a state-and-exception monad, and the remote side is
    an oracle answering the n-th completed request.

    The file has the Python values and the program first, then the
    payloads of the API as typed records with their encoding and the
    sample runs, then the lemmas: the request gate, one page through
    the parser, the loop over the pages, and the statements C1 to C10
    about them. *)

From Stdlib Require Import ZArith List String Ascii Bool Lia DecimalString.
Import ListNotations.

Set Warnings "-register-all".

Local Open Scope string_scope.
Local Open Scope Z_scope.

(** ** Python values *)

(** A decoded JSON payload, as [json.loads] / [response.json()] builds
    it: [JNull] is Python's [None], a [JDict] keeps its items in
    insertion order and is looked up by key.  Numbers are integers: the
    program copies the numbers it receives and never computes with
    them. *)
Inductive json : Type :=
| JNull
| JBool (b : bool)
| JNum (z : Z)
| JStr (s : string)
| JList (l : list json)
| JDict (d : list (string * json)).

(** The exceptions the program can meet.  [SystemExit] is what
    [sys.exit(msg)] raises. *)
Inductive pyexn : Type :=
| KeyError (k : string)
| IndexError
| TypeError
| AttributeError
| ValueError
| JSONDecodeError
| OSError
| UnicodeEncodeError
| SystemExit (msg : string).

(** Result of a computation: a value, a raised exception, or no
    outcome at all: the fuel of a loop has run out, or a request is
    retried for ever (the model's stand-in for a run that does not
    end). *)
Inductive Outcome (A : Type) : Type :=
| Ok (a : A)
| Exc (e : pyexn)
| OutOfFuel.
Arguments Ok {A} a.
Arguments Exc {A} e.
Arguments OutOfFuel {A}.

Definition obind {A B} (o : Outcome A) (k : A -> Outcome B) : Outcome B :=
  match o with
  | Ok a => k a
  | Exc e => Exc e
  | OutOfFuel => OutOfFuel
  end.

Declare Scope outcome_scope.
Delimit Scope outcome_scope with outcome.
Notation "'let?' x ':=' c 'in' k" := (obind c (fun x => k))
  (at level 10, x name, c at level 100, k at level 200) : outcome_scope.
Local Open Scope outcome_scope.

Definition nl : string := String (ascii_of_nat 10) EmptyString.
Definition dquote : string := String (ascii_of_nat 34) EmptyString.

(** [str(n)] for a Python int. *)
Definition str_of_Z (z : Z) : string := NilZero.string_of_int (Z.to_int z).

Fixpoint assoc (k : string) (d : list (string * json)) : option json :=
  match d with
  | [] => None
  | (k', v) :: d' => if String.eqb k k' then Some v else assoc k d'
  end.

(** [sub in s] for two strings. *)
Fixpoint is_substring (sub s : string) : bool :=
  if String.prefix sub s then true
  else match s with
       | EmptyString => false
       | String _ s' => is_substring sub s'
       end.

Definition is_str (k : string) (v : json) : bool :=
  match v with
  | JStr s => String.eqb s k
  | _ => false
  end.

(** [v[k]] with a string key. *)
Definition py_getitem (v : json) (k : string) : Outcome json :=
  match v with
  | JDict d => match assoc k d with
               | Some x => Ok x
               | None => Exc (KeyError k)
               end
  | _ => Exc TypeError
  end.

(** [v[0]]. *)
Definition py_getitem0 (v : json) : Outcome json :=
  match v with
  | JList l => match l with
               | x :: _ => Ok x
               | [] => Exc IndexError
               end
  | JStr s => match s with
              | String c _ => Ok (JStr (String c EmptyString))
              | EmptyString => Exc IndexError
              end
  | JDict _ => Exc (KeyError "0")
  | _ => Exc TypeError
  end.

(** [k in v] with a string [k]. *)
Definition py_in (k : string) (v : json) : Outcome bool :=
  match v with
  | JDict d => Ok (match assoc k d with Some _ => true | None => false end)
  | JList l => Ok (existsb (is_str k) l)
  | JStr s => Ok (is_substring k s)
  | _ => Exc TypeError
  end.

(** [len(v)]. *)
Definition py_len (v : json) : Outcome Z :=
  match v with
  | JDict d => Ok (Z.of_nat (List.length d))
  | JList l => Ok (Z.of_nat (List.length l))
  | JStr s => Ok (Z.of_nat (String.length s))
  | _ => Exc TypeError
  end.

Fixpoint chars_of (s : string) : list json :=
  match s with
  | EmptyString => []
  | String c s' => JStr (String c EmptyString) :: chars_of s'
  end.

(** The elements [for x in v] runs over. *)
Definition py_iter (v : json) : Outcome (list json) :=
  match v with
  | JList l => Ok l
  | JDict d => Ok (map (fun kv => JStr (fst kv)) d)
  | JStr s => Ok (chars_of s)
  | _ => Exc TypeError
  end.

(** [sep.join(l)]: every element has to be a [str]. *)
Fixpoint py_join (sep : string) (l : list json) : Outcome string :=
  match l with
  | [] => Ok ""
  | x :: l' =>
      match x with
      | JStr s =>
          let? rest := py_join sep l' in
          Ok (match l' with [] => s | _ :: _ => s ++ sep ++ rest end)
      | _ => Exc TypeError
      end
  end.

(** [s.replace(c, by)] for a one-character pattern. *)
Fixpoint py_replace (c : ascii) (by_ : string) (s : string) : string :=
  match s with
  | EmptyString => EmptyString
  | String a s' =>
      if Ascii.eqb a c then by_ ++ py_replace c by_ s'
      else String a (py_replace c by_ s')
  end.

(** [s.split(c)[-1]]: what follows the last occurrence of [c]. *)
Fixpoint py_split_last (c : ascii) (s : string) (cur : string) : string :=
  match s with
  | EmptyString => cur
  | String a s' =>
      if Ascii.eqb a c then py_split_last c s' ""
      else py_split_last c s' (cur ++ String a EmptyString)
  end.

Fixpoint occurs (c : ascii) (s : string) : bool :=
  match s with
  | EmptyString => false
  | String a s' => Ascii.eqb a c || occurs c s'
  end.

Definition hex_digit (n : nat) : ascii :=
  match n with
  | 0 => "0" | 1 => "1" | 2 => "2" | 3 => "3" | 4 => "4" | 5 => "5" | 6 => "6"
  | 7 => "7" | 8 => "8" | 9 => "9" | 10 => "a" | 11 => "b" | 12 => "c"
  | 13 => "d" | 14 => "e" | _ => "f"
  end%nat%char.

(** One character of a string inside [repr]: the quote in use and the
    backslash are escaped, tab, newline and carriage return get their
    letters, the other control characters their two hex digits. *)
Definition repr_char (quote c : ascii) : string :=
  let n := nat_of_ascii c in
  if Ascii.eqb c quote || Ascii.eqb c "\"%char then String "\" (String c "")
  else if (n =? 9)%nat then "\t"
  else if (n =? 10)%nat then "\n"
  else if (n =? 13)%nat then "\r"
  else if (n <? 32)%nat || (n =? 127)%nat then
    String "\" (String "x" (String (hex_digit (n / 16)) (String (hex_digit (n mod 16)) "")))
  else String c "".

Fixpoint repr_chars (quote : ascii) (s : string) : string :=
  match s with
  | EmptyString => EmptyString
  | String c s' => repr_char quote c ++ repr_chars quote s'
  end.

(** [repr(s)] for a string: single quotes, unless the string holds a
    single quote and no double quote.  Bytes above 127, the UTF-8 of
    characters outside ASCII, are passed on as printable. *)
Definition repr_str (s : string) : string :=
  let quote := if occurs "'" s && negb (occurs (ascii_of_nat 34) s)
               then ascii_of_nat 34 else "'"%char in
  String quote (repr_chars quote s ++ String quote "").

(** [repr(v)]. *)
Fixpoint py_repr (v : json) : string :=
  match v with
  | JNull => "None"
  | JBool true => "True"
  | JBool false => "False"
  | JNum z => str_of_Z z
  | JStr s => repr_str s
  | JList l =>
      "[" ++ (fix go (l : list json) : string :=
                match l with
                | [] => ""
                | [x] => py_repr x
                | x :: l' => py_repr x ++ ", " ++ go l'
                end) l ++ "]"
  | JDict d =>
      "{" ++ (fix go (d : list (string * json)) : string :=
                match d with
                | [] => ""
                | [(k, x)] => repr_str k ++ ": " ++ py_repr x
                | (k, x) :: d' => repr_str k ++ ": " ++ py_repr x ++ ", " ++ go d'
                end) d ++ "}"
  end.

(** [str(v)], which is what an f-string field [{v}] inserts. *)
Definition py_str (v : json) : string :=
  match v with
  | JStr s => s
  | _ => py_repr v
  end.

(** ** The process state and the remote side *)

(** What [requests.get] can raise; [stubborn_request] catches all four
    and tries again. *)
Inductive TransportError : Type :=
| HTTPError
| ConnectionError
| Timeout
| RequestException.

(** A [requests.Response]: [json_body] is what [.json()] decodes, [None]
    when the body is not a JSON document. *)
Record Response : Type := mkResponse {
  status_code : Z;
  text : string;
  json_body : option json
}.

(** The value of [args.maxr]: the int default, or the command-line string. *)
Inductive pyval : Type :=
| PyInt (z : Z)
| PyStr (s : string).

(** What a call of [stubborn_request] meets: the failures it retries
    through and then the response it obtains, or failures at every
    attempt, when [requests.get] cannot fetch the url at all (no scheme,
    no route): the loop of the source then never ends. *)
Inductive Attempts : Type :=
| Answered (failures : list TransportError) (response : Response)
| Unanswered.

Definition failures_of (a : Attempts) : list TransportError :=
  match a with
  | Answered failures _ => failures
  | Unanswered => []
  end.

(** What [open] and [json.dump] make of a document: it is written, or
    [open] raises and there is no file, or [json.dump] raises after the
    file has been created. *)
Inductive DumpOutcome : Type :=
| Dumped
| OpenFails (e : pyexn)
| DumpFails (e : pyexn).

(** A file of the run: a whole document, or what an interrupted dump
    left. *)
Inductive FileContent : Type :=
| Whole (doc : json)
| Partial.

(** The environment of a run.  [net n url] is what the n-th call of
    [stubborn_request] meets when it asks for [url].  [int_of_str] is
    Python's [int] on a string ([None]: [ValueError]); [canonical_href]
    is the BeautifulSoup lookup [bs.find("link", {"rel":
    "canonical"})['href']] on a page text ([None]: some step raised);
    [dump name doc] is how opening [name] and dumping [doc] into it
    goes. *)
Record Env : Type := mkEnv {
  net : nat -> string -> Attempts;
  int_of_str : string -> option Z;
  canonical_href : string -> option string;
  dump : string -> json -> DumpOutcome
}.

(** The mutable state: the global [api_request_allow], the urls of the
    requests completed so far, the lines printed, the files written. *)
Record World : Type := mkWorld {
  api_request_allow : bool;
  requests : list string;
  stdout : list string;
  files : list (string * FileContent)
}.

Definition initial_world : World :=
  {| api_request_allow := true; requests := []; stdout := []; files := [] |}.

Definition M (A : Type) : Type := World -> Outcome A * World.

Definition ret {A} (a : A) : M A := fun w => (Ok a, w).

Definition raise {A} (e : pyexn) : M A := fun w => (Exc e, w).

Definition bind {A B} (m : M A) (k : A -> M B) : M B :=
  fun w =>
    match m w with
    | (Ok a, w') => k a w'
    | (Exc e, w') => (Exc e, w')
    | (OutOfFuel, w') => (OutOfFuel, w')
    end.

Definition lift {A} (o : Outcome A) : M A := fun w => (o, w).

Declare Scope py_scope.
Delimit Scope py_scope with py.
Notation "x <- c ;; k" := (bind c (fun x => k))
  (at level 61, c at next level, right associativity) : py_scope.
Notation "c ;;; k" := (bind c (fun _ => k))
  (at level 61, right associativity) : py_scope.
Local Open Scope py_scope.

Definition print (line : string) : M unit :=
  fun w => (Ok tt, {| api_request_allow := api_request_allow w;
                      requests := requests w;
                      stdout := stdout w ++ [line];
                      files := files w |}).

Definition get_allow : M bool := fun w => (Ok (api_request_allow w), w).

Definition set_allow (b : bool) : M unit :=
  fun w => (Ok tt, {| api_request_allow := b;
                      requests := requests w;
                      stdout := stdout w;
                      files := files w |}).

Definition add_file (name : string) (content : FileContent) (w : World) : World :=
  {| api_request_allow := api_request_allow w;
     requests := requests w;
     stdout := stdout w;
     files := files w ++ [(name, content)] |}.

(** The status the interpreter exits with: 0 when [main] returns, 1
    after an uncaught exception or [sys.exit] with a message; a run
    that does not end has none. *)
Definition exit_status {A} (o : Outcome A) : option Z :=
  match o with
  | Ok _ => Some 0
  | Exc _ => Some 1
  | OutOfFuel => None
  end.

Definition default_out_file_path : string := "ytb_channel_data".
Definition default_max_results : Z := 50.

Definition retry_message (e : TransportError) : string :=
  match e with
  | HTTPError => "Http error... Retry"
  | ConnectionError => "Connection error... Retry"
  | Timeout => "Timeout error... Retry"
  | RequestException => "Request error... Retry"
  end.

(** What [api_get_request] hands back: a response, [False], or the
    [None] of falling off the end of the function. *)
Inductive ApiResult : Type :=
| Resp (r : Response)
| PyFalse
| PyNone.

(** [response == False]. *)
Definition is_False (r : ApiResult) : bool :=
  match r with
  | PyFalse => true
  | _ => false
  end.

(** [response.json()]. *)
Definition response_json (r : ApiResult) : M json :=
  match r with
  | Resp r => match json_body r with
              | Some j => ret j
              | None => raise JSONDecodeError
              end
  | _ => raise AttributeError
  end.

(** One playlist entry's fields, appended to the four buffers. *)
Record Buffers : Type := mkBuffers {
  title_buffer : list json;
  description_buffer : list json;
  video_id_buffer : list json;
  publish_time_buffer : list json;
  total_counter : Z
}.

(** One element of [videos_list]: the dict literal of the source, [None]
    being [JNull]. *)
Record VideoRecord : Type := mkVideo {
  vr_title : json;
  vr_link : string;
  vr_publish_time : json;
  vr_views : json;
  vr_likes : json;
  vr_comments_number : json;
  vr_description : json
}.

Definition json_of_video (v : VideoRecord) : json :=
  JDict [("title", vr_title v);
         ("link", JStr (vr_link v));
         ("publish_time", vr_publish_time v);
         ("views", vr_views v);
         ("likes", vr_likes v);
         ("comments_number", vr_comments_number v);
         ("description", vr_description v)].

(** [d[k] if k in d else None]. *)
Definition get_or_None (d : json) (k : string) : Outcome json :=
  let? present := py_in k d in
  if (present : bool) then py_getitem d k else Ok JNull.

(** [item["snippet"]["publishedAt"].replace('T', ' ').replace('Z', '')]. *)
Definition normalize_publish_time (s : string) : string :=
  py_replace "Z"%char "" (py_replace "T"%char " " s).

Definition py_normalize (v : json) : Outcome json :=
  match v with
  | JStr s => Ok (JStr (normalize_publish_time s))
  | _ => Exc AttributeError
  end.

(** The body of [for item in json_response["items"]]. *)
Definition parse_item (item : json) (b : Buffers) : Outcome Buffers :=
  let? kind := py_getitem item "kind" in
  if is_str "youtube#playlistItem" kind then
    let? snippet := py_getitem item "snippet" in
    let? title := get_or_None snippet "title" in
    let? description := get_or_None snippet "description" in
    let? details := py_getitem item "contentDetails" in
    let? video_id := get_or_None details "videoId" in
    let? has_time := py_in "publishedAt" snippet in
    let? publish_time :=
      (if (has_time : bool) then
         let? published := py_getitem snippet "publishedAt" in
         py_normalize published
       else Ok JNull) in
    Ok {| title_buffer := title_buffer b ++ [title];
          description_buffer := description_buffer b ++ [description];
          video_id_buffer := video_id_buffer b ++ [video_id];
          publish_time_buffer := publish_time_buffer b ++ [publish_time];
          total_counter := total_counter b + 1 |}
  else Ok b.

Fixpoint parse_items (items : list json) (b : Buffers) : Outcome Buffers :=
  match items with
  | [] => Ok b
  | item :: items' =>
      let? b' := parse_item item b in
      parse_items items' b'
  end.

Definition py_index (l : list json) (i : nat) : Outcome json :=
  match nth_error l i with
  | Some x => Ok x
  | None => Exc IndexError
  end.

Definition youtube_link : string := "https://www.youtube.com/watch?v=".

(** The body of [for i, video in enumerate(videos_statistics_json["items"])]. *)
Definition zip_video (b : Buffers) (i : nat) (video : json) : Outcome VideoRecord :=
  let? statistics := py_getitem video "statistics" in
  let? views := get_or_None statistics "viewCount" in
  let? likes := get_or_None statistics "likeCount" in
  let? comments_number := get_or_None statistics "commentCount" in
  let? title := py_index (title_buffer b) i in
  let? video_id := py_index (video_id_buffer b) i in
  let? publish_time := py_index (publish_time_buffer b) i in
  let? description := py_index (description_buffer b) i in
  Ok {| vr_title := title;
        vr_link := youtube_link ++ py_str video_id;
        vr_publish_time := publish_time;
        vr_views := views;
        vr_likes := likes;
        vr_comments_number := comments_number;
        vr_description := description |}.

Fixpoint zip_statistics (b : Buffers) (i : nat) (videos : list json)
    (videos_list : list VideoRecord) : Outcome (list VideoRecord) :=
  match videos with
  | [] => Ok videos_list
  | video :: videos' =>
      let? record := zip_video b i video in
      zip_statistics b (S i) videos' (videos_list ++ [record])
  end.

(** [str + v]: concatenation needs a [str] on the right. *)
Definition py_concat (s : string) (v : json) : Outcome string :=
  match v with
  | JStr t => Ok (s ++ t)
  | _ => Exc TypeError
  end.

(** ** The program *)

Record Args : Type := mkArgs {
  url : string;
  key : string;
  out : string;
  maxr : pyval
}.

(** [int(args.maxr)]. *)
Definition py_int (E : Env) (v : pyval) : Outcome Z :=
  match v with
  | PyInt z => Ok z
  | PyStr s => match int_of_str E s with
               | Some z => Ok z
               | None => Exc ValueError
               end
  end.

(** The characters [os_can_save] looks for: backslash, slash, colon,
    star, question mark, double quote, angle brackets and bar. *)
Definition forbidden_chars : list ascii :=
  ["\"; "/"; ":"; "*"; "?"; ascii_of_nat 34; "<"; ">"; "|"]%char.

Fixpoint contains_char (c : ascii) (s : string) : bool :=
  match s with
  | EmptyString => false
  | String a s' => Ascii.eqb a c || contains_char c s'
  end.

(** [os_can_save]: no forbidden character occurs in the file name. *)
Definition os_can_save (file_name : string) : bool :=
  (List.length (filter (fun s => contains_char s file_name) forbidden_chars)
   =? 0)%nat.

Definition file_name_error : string :=
  "Error: file name can not contain \/:*?" ++ dquote ++ "<>| symbols!" ++ nl.

Definition api_error_message : string := nl ++ "Api response error!" ++ nl.

(** The url of the channel lookup. *)
Definition channels_url (channel_id : string) (max_results : Z)
    (api_key : string) : string :=
  "https://youtube.googleapis.com/youtube/v3/channels?part=contentDetails&id="
  ++ channel_id ++ "&maxResults=" ++ str_of_Z max_results ++ "&key=" ++ api_key.

Section Program.

Variable E : Env.

(** [stubborn_request]: the failed attempts print their retry line, the
    attempt that succeeds is logged and its response returned.  When no
    attempt succeeds the loop does not end: the call has no outcome,
    and the retry lines it goes on printing are left out.  The sleeps
    between attempts are not modelled. *)
Definition stubborn_request (url : string) : M Response :=
  fun w =>
    match net E (List.length (requests w)) url with
    | Answered failures response =>
        (Ok response,
         {| api_request_allow := api_request_allow w;
            requests := requests w ++ [url];
            stdout := stdout w ++ map retry_message failures;
            files := files w |})
    | Unanswered => (OutOfFuel, w)
    end.

(** [with open(name, "w") as file: json.dump(doc, file, ...)]. *)
Definition write_file (name : string) (doc : json) : M unit :=
  fun w =>
    match dump E name doc with
    | Dumped => (Ok tt, add_file name (Whole doc) w)
    | OpenFails e => (Exc e, w)
    | DumpFails e => (Exc e, add_file name Partial w)
    end.

Definition api_get_request (url : string) (exit_if_not : bool) : M ApiResult :=
  allow <- get_allow ;;
  early <- (if (allow : bool) then
              response <- stubborn_request url ;;
              if negb (status_code response =? 200) then
                set_allow false ;;; ret None
              else ret (Some response)
            else ret None) ;;
  match early with
  | Some response => ret (Resp response)
  | None =>
      allow' <- get_allow ;;
      if negb allow' then
        print api_error_message ;;;
        if exit_if_not then raise (SystemExit "exit") else ret PyFalse
      else ret PyNone
  end.

Definition get_channel_id (channel_url : string) : M string :=
  response <- stubborn_request channel_url ;;
  match canonical_href E (text response) with
  | Some href => ret (py_split_last "/"%char href "")
  | None => raise (SystemExit "error: can not parse html page to find channel id")
  end.

Definition fetch_channel_playlist_id (channel_url : string) (max_results : Z)
    (api_key : string) : M json :=
  channel_id <- get_channel_id channel_url ;;
  let url := channels_url channel_id max_results api_key in
  response <- api_get_request url true ;;
  channel_playlist_id_response_json <- response_json response ;;
  lift (let? items := py_getitem channel_playlist_id_response_json "items" in
        let? first := py_getitem0 items in
        let? details := py_getitem first "contentDetails" in
        let? related := py_getitem details "relatedPlaylists" in
        py_getitem related "uploads").

Definition fetch_channel_data (playlist_id : json) (max_results : Z)
    (api_key get_play_list_url : string) : M (json * json) :=
  let url := get_play_list_url ++ "key=" ++ api_key
             ++ "&playlistId=" ++ py_str playlist_id
             ++ "&part=snippet,id,contentDetails&maxResults="
             ++ str_of_Z max_results in
  response <- api_get_request url true ;;
  response_json <- response_json response ;;
  channel_title <-
    lift (let? items := py_getitem response_json "items" in
          let? n := py_len items in
          if negb (n =? 0) then
            let? items := py_getitem response_json "items" in
            let? first := py_getitem0 items in
            let? snippet := py_getitem first "snippet" in
            py_getitem snippet "channelTitle"
          else Ok JNull) ;;
  videos_number <-
    lift (let? info := py_getitem response_json "pageInfo" in
          py_getitem info "totalResults") ;;
  ret (channel_title, videos_number).

Section VideosList.

Variable playlist_id : json.
Variable max_results : Z.
Variables api_key get_play_list_url get_videos_url : string.

Definition next_token_url_part : string := "&pageToken=".

Definition playlist_url (page_token : string) : string :=
  get_play_list_url ++ "key=" ++ api_key
  ++ "&playlistId=" ++ py_str playlist_id
  ++ "&part=snippet,id,contentDetails&maxResults=" ++ str_of_Z max_results
  ++ page_token.

Definition statistics_url (videos_id_str : string) : string :=
  get_videos_url ++ "key=" ++ api_key
  ++ "&maxResults=" ++ str_of_Z max_results
  ++ "&part=statistics&id=" ++ videos_id_str.

(** One turn of [while run], [continue] standing for the next turn. *)
Definition videos_body
    (continue : string -> list VideoRecord -> Z -> M (list VideoRecord))
    (page_token : string) (videos_list : list VideoRecord)
    (total : Z) : M (list VideoRecord) :=
  response <- api_get_request (playlist_url page_token) false ;;
  if is_False response then ret videos_list else
  json_response <- response_json response ;;
  buffers <-
    lift (let? items := py_getitem json_response "items" in
          let? items := py_iter items in
          parse_items items {| title_buffer := [];
                               description_buffer := [];
                               video_id_buffer := [];
                               publish_time_buffer := [];
                               total_counter := total |}) ;;
  videos_id_str <- lift (py_join "," (video_id_buffer buffers)) ;;
  videos_statistics_response <-
    api_get_request (statistics_url videos_id_str) false ;;
  if is_False videos_statistics_response then ret videos_list else
  videos_statistics_json <- response_json videos_statistics_response ;;
  videos_list' <-
    lift (let? items := py_getitem videos_statistics_json "items" in
          let? items := py_iter items in
          zip_statistics buffers 0 items videos_list) ;;
  print ("Parsed " ++ str_of_Z (total_counter buffers) ++ " videos") ;;;
  has_next <- lift (py_in "nextPageToken" json_response) ;;
  if (has_next : bool) then
    page_token' <-
      lift (let? token := py_getitem json_response "nextPageToken" in
            py_concat next_token_url_part token) ;;
    continue page_token' videos_list' (total_counter buffers)
  else ret videos_list'.

(** [while run]: [fuel] bounds the number of turns. *)
Fixpoint videos_loop (fuel : nat) (page_token : string)
    (videos_list : list VideoRecord) (total : Z)
    : M (list VideoRecord) :=
  match fuel with
  | O => fun w => (OutOfFuel, w)
  | S fuel' => videos_body (videos_loop fuel') page_token videos_list total
  end.

Definition get_videos_list (fuel : nat) : M (list VideoRecord) :=
  videos_loop fuel "" [] 0.

End VideosList.

Definition warn_m (name value : string) : string :=
  "warning: " ++ name ++ " argument changed to default: " ++ value.

Definition correct_args (args : Args) : M Args :=
  n <- lift (py_int E (maxr args)) ;;
  if (n <=? 0) || (default_max_results <? n) then
    print (warn_m "-maxr" (str_of_Z default_max_results)) ;;;
    ret {| url := url args; key := key args; out := out args;
           maxr := PyInt default_max_results |}
  else ret args.

(** [get_args] after [argparse] has read the command line into [args]. *)
Definition get_args (args : Args) : M Args :=
  print (nl ++ "Arguments validation...") ;;;
  correct_args args.

Definition key_probe_url (api_key : string) : string :=
  "https://youtube.googleapis.com/youtube/v3/channels?part=contentDetails&id=UCK8sQmJBp8GCxrOtXWBpyEA&maxResults=50&key="
  ++ api_key.

Definition validate_args (args : Args) : M string :=
  let error_m := "" in
  url_resp <- stubborn_request (url args) ;;
  api_resp <- stubborn_request (key_probe_url (key args)) ;;
  let error_m :=
    if status_code url_resp =? 404 then
      error_m ++ "Error: youtube channel '" ++ url args ++ "' do not exists!" ++ nl
    else error_m in
  let error_m :=
    if status_code api_resp =? 400 then
      error_m ++ "Error: api key '" ++ key args ++ "' not valid!" ++ nl
    else error_m in
  let error_m :=
    if negb (status_code url_resp =? 404) && negb (status_code url_resp =? 200) then
      error_m ++ "Error: url response error!" ++ nl
    else error_m in
  let error_m :=
    if negb (status_code api_resp =? 400) && negb (status_code api_resp =? 200) then
      error_m ++ "Error: api response error!" ++ nl
    else error_m in
  let error_m :=
    if negb (os_can_save (out args)) then error_m ++ file_name_error
    else error_m in
  ret error_m.

Definition main (fuel : nat) (argv : Args) : M unit :=
  args <- get_args argv ;;
  validation_error <- validate_args args ;;
  if negb (String.eqb validation_error "") then
    print validation_error ;;; ret tt
  else
    let channel_url := url args in
    let json_file_name := out args in
    max_results <- lift (py_int E (maxr args)) ;;
    let api_key := key args in
    let get_playlist_url := "https://www.googleapis.com/youtube/v3/playlistItems?" in
    let get_videos_url := "https://www.googleapis.com/youtube/v3/videos?" in
    print (nl ++ "Fetching channel id & playlist id...") ;;;
    playlist_id <- fetch_channel_playlist_id channel_url max_results api_key ;;
    print "Fetching channel data..." ;;;
    data <- fetch_channel_data playlist_id max_results api_key get_playlist_url ;;
    videos_list <- get_videos_list playlist_id max_results api_key
                     get_playlist_url get_videos_url fuel ;;
    let channel_data_json :=
      JDict [("channel_title", fst data);
             ("videos_number", snd data);
             ("videos", JList (map json_of_video videos_list))] in
    print (nl ++ "Saving json file...") ;;;
    write_file (json_file_name ++ ".json") channel_data_json.

End Program.

(** ** The payloads of the remote API

    The shapes the API documents for the two endpoints of the loop, as
    typed records, their encoding as decoded JSON, and what the loop is
    expected to make of a page. *)

Record PlaylistItem : Type := mkItem {
  pi_kind : string;
  pi_title : option string;
  pi_description : option string;
  pi_publishedAt : option string;
  pi_videoId : option string
}.

Record Statistics : Type := mkStatistics {
  st_viewCount : option string;
  st_likeCount : option string;
  st_commentCount : option string
}.

(** A page of the playlist together with the answer of the statistics
    endpoint for it. *)
Record Page : Type := mkPage {
  pg_items : list PlaylistItem;
  pg_nextPageToken : option string;
  pg_statistics : list Statistics
}.

Definition opt_field (k : string) (o : option string) : list (string * json) :=
  match o with
  | Some s => [(k, JStr s)]
  | None => []
  end.

Definition opt_json (o : option string) : json :=
  match o with
  | Some s => JStr s
  | None => JNull
  end.

Definition json_of_item (it : PlaylistItem) : json :=
  JDict [("kind", JStr (pi_kind it));
         ("snippet", JDict (opt_field "title" (pi_title it)
                            ++ opt_field "description" (pi_description it)
                            ++ opt_field "publishedAt" (pi_publishedAt it)));
         ("contentDetails", JDict (opt_field "videoId" (pi_videoId it)))].

Definition json_of_playlist_page (p : Page) : json :=
  JDict (("items", JList (map json_of_item (pg_items p)))
         :: opt_field "nextPageToken" (pg_nextPageToken p)).

Definition json_of_statistics (s : Statistics) : json :=
  JDict [("statistics", JDict (opt_field "viewCount" (st_viewCount s)
                               ++ opt_field "likeCount" (st_likeCount s)
                               ++ opt_field "commentCount" (st_commentCount s)))].

Definition json_of_statistics_page (p : Page) : json :=
  JDict [("items", JList (map json_of_statistics (pg_statistics p)))].

Definition ok_response (j : json) : Response :=
  {| status_code := 200; text := ""; json_body := Some j |}.

Definition error_response (code : Z) : Response :=
  {| status_code := code; text := ""; json_body := None |}.

(** The items the loop keeps: those marked as playlist entries. *)
Definition is_entry (it : PlaylistItem) : bool :=
  String.eqb (pi_kind it) "youtube#playlistItem".

Definition entries (p : Page) : list PlaylistItem :=
  filter is_entry (pg_items p).

Definition has_videoId (it : PlaylistItem) : bool :=
  match pi_videoId it with
  | Some _ => true
  | None => false
  end.

Definition video_ids (p : Page) : list string :=
  flat_map (fun it => match pi_videoId it with
                      | Some v => [v]
                      | None => []
                      end) (entries p).

(** The record made of the i-th entry and the i-th statistics item. *)
Definition record_of (it : PlaylistItem) (st : Statistics) : VideoRecord :=
  {| vr_title := opt_json (pi_title it);
     vr_link := youtube_link ++ py_str (opt_json (pi_videoId it));
     vr_publish_time := opt_json (option_map normalize_publish_time (pi_publishedAt it));
     vr_views := opt_json (st_viewCount st);
     vr_likes := opt_json (st_likeCount st);
     vr_comments_number := opt_json (st_commentCount st);
     vr_description := opt_json (pi_description it) |}.

(** Entries and statistics items paired by position. *)
Definition page_records (p : Page) : list VideoRecord :=
  map (fun pair => record_of (fst pair) (snd pair))
      (combine (entries p) (pg_statistics p)).

(** A page the loop gets through: every entry has a video id, and the
    statistics endpoint answers with no more items than entries. *)
Definition page_ok (p : Page) : bool :=
  forallb has_videoId (entries p)
  && (List.length (pg_statistics p) <=? List.length (entries p))%nat.

Definition has_cursor (p : Page) : bool :=
  match pg_nextPageToken p with
  | Some _ => true
  | None => false
  end.

(** The request is answered, after some retries, by [r]. *)
Definition answered_by (a : Attempts) (r : Response) : Prop :=
  exists failures, a = Answered failures r.

(** The request is answered with status 200 and a body that decodes to
    [j]. *)
Definition answers (a : Attempts) (j : json) : Prop :=
  exists r, answered_by a r /\ status_code r = 200 /\ json_body r = Some j.

(** The request is answered with a status other than 200. *)
Definition rejects (a : Attempts) : Prop :=
  exists r, answered_by a r /\ status_code r <> 200.

(** The request is answered with status 200, whatever the body. *)
Definition accepts (a : Attempts) : Prop :=
  exists r, answered_by a r /\ status_code r = 200.

(** The remote side answers request [n0 + 2i] with the i-th page and
    request [n0 + 2i + 1] with its statistics, both with status 200. *)
Definition serves (E : Env) (n0 : nat) (ps : list Page) : Prop :=
  forall i p, nth_error ps i = Some p ->
    forall u, answers (net E (n0 + 2 * i) u) (json_of_playlist_page p)
              /\ answers (net E (n0 + 2 * i + 1) u) (json_of_statistics_page p).

(** A remote side that plays a fixed list of responses, then keeps
    answering [last]. *)
Definition script_net (rs : list Response) (last : Response)
    : nat -> string -> Attempts :=
  fun n _ => Answered [] (nth n rs last).

Definition responses_of_pages (ps : list Page) : list Response :=
  flat_map (fun p => [ok_response (json_of_playlist_page p);
                      ok_response (json_of_statistics_page p)]) ps.

Definition decimal_digit (c : ascii) : option Z :=
  let n := Z.of_nat (nat_of_ascii c) in
  if (48 <=? n) && (n <=? 57) then Some (n - 48) else None.

Fixpoint decimal_value (s : string) (acc : Z) : option Z :=
  match s with
  | EmptyString => Some acc
  | String c s' =>
      match decimal_digit c with
      | Some d => decimal_value s' (10 * acc + d)
      | None => None
      end
  end.

(** [int] on plain decimal literals with an optional sign, enough for
    sample runs. *)
Definition sample_int_of_str (s : string) : option Z :=
  match s with
  | EmptyString => None
  | String "-"%char (String c s') => option_map Z.opp (decimal_value (String c s') 0)
  | String "+"%char (String c s') => decimal_value (String c s') 0
  | _ => decimal_value s 0
  end.

Definition script_env (rs : list Response) (last : Response) : Env :=
  {| net := script_net rs last;
     int_of_str := sample_int_of_str;
     canonical_href := fun html => Some html;
     dump := fun _ _ => Dumped |}.

(** ** Worlds and payloads the statements talk about *)

Definition is_2xx (code : Z) : bool := (200 <=? code) && (code <? 300).

(** The world after a request for [u] has been answered. *)
Definition after_request (E : Env) (u : string) (w : World) : World :=
  {| api_request_allow := api_request_allow w;
     requests := requests w ++ [u];
     stdout := stdout w
               ++ map retry_message (failures_of (net E (List.length (requests w)) u));
     files := files w |}.

(** The world after the gate has closed on the answer to [u]. *)
Definition after_rejection (E : Env) (u : string) (w : World) : World :=
  {| api_request_allow := false;
     requests := requests w ++ [u];
     stdout := (stdout w
                ++ map retry_message
                     (failures_of (net E (List.length (requests w)) u)))
               ++ [api_error_message];
     files := files w |}.

Definition after_print (line : string) (w : World) : World :=
  {| api_request_allow := api_request_allow w;
     requests := requests w;
     stdout := stdout w ++ [line];
     files := files w |}.

(** The gate as the specification words it: any 2xx status counts as a
    success. *)
Definition gate_accepts_2xx (E : Env) (u : string) (exit_if_not : bool)
    (w : World) : Prop :=
  api_request_allow w = true ->
  forall response,
    answered_by (net E (List.length (requests w)) u) response ->
    is_2xx (status_code response) = true ->
    fst (api_get_request E u exit_if_not w) = Ok (Resp response)
    /\ api_request_allow (snd (api_get_request E u exit_if_not w)) = true.

Definition push_entry (b : Buffers) (it : PlaylistItem) : Buffers :=
  {| title_buffer := title_buffer b ++ [opt_json (pi_title it)];
     description_buffer := description_buffer b ++ [opt_json (pi_description it)];
     video_id_buffer := video_id_buffer b ++ [opt_json (pi_videoId it)];
     publish_time_buffer :=
       publish_time_buffer b
       ++ [opt_json (option_map normalize_publish_time (pi_publishedAt it))];
     total_counter := total_counter b + 1 |}.

Definition empty_buffers (total : Z) : Buffers :=
  {| title_buffer := []; description_buffer := []; video_id_buffer := [];
     publish_time_buffer := []; total_counter := total |}.

(** The buffers hold, position by position, the fields of [ents]. *)
Definition holds (b : Buffers) (ents : list PlaylistItem) : Prop :=
  title_buffer b = map (fun it => opt_json (pi_title it)) ents
  /\ description_buffer b = map (fun it => opt_json (pi_description it)) ents
  /\ video_id_buffer b = map (fun it => opt_json (pi_videoId it)) ents
  /\ publish_time_buffer b
     = map (fun it => opt_json (option_map normalize_publish_time (pi_publishedAt it))) ents.

(** What a record carries as [publish_time] for an entry. *)
Definition publish_time_of (it : PlaylistItem) : json :=
  match pi_publishedAt it with
  | Some s => JStr (normalize_publish_time s)
  | None => JNull
  end.

Definition with_default_maxr (args : Args) : Args :=
  {| url := url args; key := key args; out := out args;
     maxr := PyInt default_max_results |}.

Definition maxr_warning : string :=
  "warning: -maxr argument changed to default: 50".

(** [item["contentDetails"]["relatedPlaylists"]["uploads"]]. *)
Definition uploads_of (item : json) : Outcome json :=
  let? details := py_getitem item "contentDetails" in
  let? related := py_getitem details "relatedPlaylists" in
  py_getitem related "uploads".


(** ** The walk over the pages

    The requests a run over a list of pages makes and the worlds it
    goes through, for the statements about [get_videos_list]. *)

Section Walk.

Variable E : Env.
Variable playlist_id : json.
Variable max_results : Z.
Variables api_key get_play_list_url get_videos_url : string.

(** The statistics request made for a page. *)
Definition page_statistics_url (p : Page) : string :=
  statistics_url max_results api_key get_videos_url
    (String.concat "," (video_ids p)).

(** The world once a page has been fetched, joined and reported. *)
Definition after_page (page_token : string) (p : Page) (total : Z) (w : World)
    : World :=
  let w2 := after_request E (page_statistics_url p)
              (after_request E
                 (playlist_url playlist_id max_results api_key get_play_list_url
                    page_token) w) in
  {| api_request_allow := api_request_allow w2;
     requests := requests w2;
     stdout := stdout w2
               ++ ["Parsed "
                   ++ str_of_Z (total + Z.of_nat (List.length (entries p)))
                   ++ " videos"];
     files := files w2 |}.

(** The [page_token] the loop carries after a page. *)
Definition next_page_token (p : Page) : string :=
  match pg_nextPageToken p with
  | Some c => next_token_url_part ++ c
  | None => ""
  end.

Fixpoint token_after (page_token : string) (ps : list Page) : string :=
  match ps with
  | [] => page_token
  | p :: ps' => token_after (next_page_token p) ps'
  end.

Fixpoint total_after (total : Z) (ps : list Page) : Z :=
  match ps with
  | [] => total
  | p :: ps' => total_after (total + Z.of_nat (List.length (entries p))) ps'
  end.

(** The requests a walk over [ps] makes: for each page the listing
    request with the current token, then the statistics request with
    the page's comma-joined ids. *)
Fixpoint requests_of_pages (page_token : string) (ps : list Page) : list string :=
  match ps with
  | [] => []
  | p :: ps' =>
      playlist_url playlist_id max_results api_key get_play_list_url page_token
      :: page_statistics_url p
      :: requests_of_pages (next_page_token p) ps'
  end.

Fixpoint after_pages (page_token : string) (total : Z) (ps : list Page)
    (w : World) : World :=
  match ps with
  | [] => w
  | p :: ps' =>
      after_pages (next_page_token p)
        (total + Z.of_nat (List.length (entries p))) ps'
        (after_page page_token p total w)
  end.

End Walk.

(** ** The requests the API expects

    The two requests of a page as the API documents them, written
    without the url strings the program puts together: a base and a
    query of parameters separated by [&].  The listing request of a
    page carries the cursor that the page before it handed out, and the
    first one carries none. *)

Definition listing_query (api_key : string) (playlist_id : json)
    (max_results : Z) (cursor : option string) : list string :=
  ([("key=" ++ api_key)%string;
    ("playlistId=" ++ py_str playlist_id)%string;
    "part=snippet,id,contentDetails";
    ("maxResults=" ++ str_of_Z max_results)%string]
   ++ match cursor with
      | Some c => [("pageToken=" ++ c)%string]
      | None => []
      end)%list.

Definition statistics_query (api_key : string) (max_results : Z)
    (ids : list string) : list string :=
  [("key=" ++ api_key)%string;
   ("maxResults=" ++ str_of_Z max_results)%string;
   "part=statistics";
   ("id=" ++ String.concat "," ids)%string].

(** The [page_token] the loop carries when [cursor] is in hand. *)
Definition page_token_of (cursor : option string) : string :=
  match cursor with
  | Some c => next_token_url_part ++ c
  | None => ""
  end.

(** The cursor in hand after the pages [ps]. *)
Fixpoint cursor_after (cursor : option string) (ps : list Page) : option string :=
  match ps with
  | [] => cursor
  | p :: ps' => cursor_after (pg_nextPageToken p) ps'
  end.

Section Expected.

Variable E : Env.
Variable playlist_id : json.
Variable max_results : Z.
Variables api_key get_play_list_url get_videos_url : string.

Definition expected_listing (cursor : option string) : string :=
  get_play_list_url
  ++ String.concat "&" (listing_query api_key playlist_id max_results cursor).

Definition expected_statistics (p : Page) : string :=
  get_videos_url
  ++ String.concat "&" (statistics_query api_key max_results (video_ids p)).

(** What a walk over [ps] is expected to ask, the cursor [cursor] in
    hand: for each page the listing request with the cursor of the page
    before, then the statistics request for the ids of the page. *)
Fixpoint expected_requests (cursor : option string) (ps : list Page)
    : list string :=
  match ps with
  | [] => []
  | p :: ps' =>
      expected_listing cursor
      :: expected_statistics p
      :: expected_requests (pg_nextPageToken p) ps'
  end.

(** The remote side hands out the pages [ps] to a client that follows
    the cursors: request [n0 + 2i] is answered with page i when it is
    the listing request carrying the cursor of page i-1, and request
    [n0 + 2i + 1] with the statistics of page i when it asks for the ids
    of that page.  Nothing is said of the answer to any other url. *)
Fixpoint follows_cursors (n0 : nat) (cursor : option string) (ps : list Page)
    : Prop :=
  match ps with
  | [] => True
  | p :: ps' =>
      answers (net E n0 (expected_listing cursor)) (json_of_playlist_page p)
      /\ answers (net E (S n0) (expected_statistics p))
                 (json_of_statistics_page p)
      /\ follows_cursors (S (S n0)) (pg_nextPageToken p) ps'
  end.

End Expected.

(** ** Sample runs *)

Definition sample_item (title video : string) : PlaylistItem :=
  {| pi_kind := "youtube#playlistItem";
     pi_title := Some title;
     pi_description := Some "about";
     pi_publishedAt := Some "2021-05-01T12:00:00Z";
     pi_videoId := Some video |}.

Definition sample_statistics (views : string) : Statistics :=
  {| st_viewCount := Some views; st_likeCount := Some "1"; st_commentCount := None |}.

Definition page_one : Page :=
  {| pg_items := [sample_item "a" "v1"; sample_item "b" "v2"];
     pg_nextPageToken := Some "CAUQAA";
     pg_statistics := [sample_statistics "10"; sample_statistics "20"] |}.

Definition page_two : Page :=
  {| pg_items := [sample_item "c" "v3"];
     pg_nextPageToken := None;
     pg_statistics := [sample_statistics "30"] |}.

(** An entry of page three has no video id. *)
Definition page_three : Page :=
  {| pg_items := [sample_item "d" "v4";
                  {| pi_kind := "youtube#playlistItem";
                     pi_title := Some "e";
                     pi_description := None;
                     pi_publishedAt := None;
                     pi_videoId := None |}];
     pg_nextPageToken := None;
     pg_statistics := [] |}.

(** Page four gets one statistics item for two entries, page five two
    for one. *)
Definition page_four : Page :=
  {| pg_items := [sample_item "f" "v6"; sample_item "g" "v7"];
     pg_nextPageToken := None;
     pg_statistics := [sample_statistics "60"] |}.

Definition page_five : Page :=
  {| pg_items := [sample_item "h" "v8"];
     pg_nextPageToken := None;
     pg_statistics := [sample_statistics "80"; sample_statistics "90"] |}.

Definition two_pages_env : Env :=
  script_env (responses_of_pages [page_one; page_two]) (error_response 403).

Definition rejected_statistics_env : Env :=
  script_env (responses_of_pages [page_one]
              ++ [ok_response (json_of_playlist_page page_two)])
             (error_response 403).

Definition missing_id_env : Env :=
  script_env (responses_of_pages [page_one]
              ++ [ok_response (json_of_playlist_page page_three)])
             (error_response 403).

Definition sample_playlist_url : string :=
  "https://www.googleapis.com/youtube/v3/playlistItems?".

Definition sample_videos_url : string :=
  "https://www.googleapis.com/youtube/v3/videos?".

(** A remote side that answers by url, whatever the count of the
    request: the response listed for the url, or [fallback]. *)
Definition keyed_net (table : list (string * Response)) (fallback : Response)
    : nat -> string -> Attempts :=
  fun _ u =>
    Answered []
      (match find (fun entry => String.eqb (fst entry) u) table with
       | Some entry => snd entry
       | None => fallback
       end).

Definition keyed_env (table : list (string * Response)) (fallback : Response)
    : Env :=
  {| net := keyed_net table fallback;
     int_of_str := sample_int_of_str;
     canonical_href := fun html => Some html;
     dump := fun _ _ => Dumped |}.

(** Page one for the listing request without a cursor, [second] for the
    one that carries the cursor of page one, their statistics for the
    requests that name their ids, and 404 for anything else. *)
Definition cursor_env (second : Page) : Env :=
  keyed_env
    [(expected_listing (JStr "UU") 50 "k" sample_playlist_url None,
      ok_response (json_of_playlist_page page_one));
     (expected_statistics 50 "k" sample_videos_url page_one,
      ok_response (json_of_statistics_page page_one));
     (expected_listing (JStr "UU") 50 "k" sample_playlist_url
        (pg_nextPageToken page_one),
      ok_response (json_of_playlist_page second));
     (expected_statistics 50 "k" sample_videos_url second,
      ok_response (json_of_statistics_page second))]
    (error_response 404).

Definition empty_channel_env : Env :=
  script_env [ok_response JNull; ok_response (JDict [("items", JList [])])]
             (error_response 403).

Definition slash_args : Args :=
  {| url := "https://www.youtube.com/c/x"; key := "k"; out := "a/b";
     maxr := PyInt 50 |}.

(** A whole run: the two validation probes, the channel page, the
    channel lookup, the channel summary, then two pages of videos. *)
Definition channel_page_response : Response :=
  {| status_code := 200;
     text := "https://www.youtube.com/channel/UCabc";
     json_body := None |}.

Definition channels_response : Response :=
  ok_response
    (JDict [("items",
             JList [JDict [("contentDetails",
                            JDict [("relatedPlaylists",
                                    JDict [("uploads", JStr "UUabc")])])]])]).

Definition summary_response : Response :=
  ok_response
    (JDict [("items",
             JList [JDict [("snippet", JDict [("channelTitle", JStr "Channel")])]]);
            ("pageInfo", JDict [("totalResults", JNum 3)])]).

Definition whole_run_env : Env :=
  script_env ([channel_page_response; ok_response JNull; channel_page_response;
               channels_response; summary_response]
              ++ responses_of_pages [page_one; page_two])
             (error_response 403).

Definition whole_run_args : Args :=
  {| url := "https://www.youtube.com/c/x"; key := "k"; out := "out";
     maxr := PyStr "50" |}.

(** The same remote side, with a disk on which the dump goes as
    [outcome] says. *)
Definition whole_run_env_with_dump (outcome : DumpOutcome) : Env :=
  {| net := net whole_run_env;
     int_of_str := int_of_str whole_run_env;
     canonical_href := canonical_href whole_run_env;
     dump := fun _ _ => outcome |}.

(** ** What a computation leaves alone

    [frame n w w'] relates the world before and after a computation
    that sends at most [n] requests: the request log and the output only
    grow, no file is written, and a closed gate stays closed. *)

Definition frame (n : nat) (w w' : World) : Prop :=
  (exists more, requests w' = (requests w ++ more)%list
                /\ (List.length more <= n)%nat)
  /\ (exists lines, stdout w' = (stdout w ++ lines)%list)
  /\ files w' = files w
  /\ (api_request_allow w = false -> api_request_allow w' = false).

Definition costs {A} (n : nat) (m : M A) : Prop :=
  forall w, frame n w (snd (m w)).

(** The four buffers have [n] elements each. *)
Definition aligned (b : Buffers) (n : nat) : Prop :=
  List.length (title_buffer b) = n
  /\ List.length (description_buffer b) = n
  /\ List.length (video_id_buffer b) = n
  /\ List.length (publish_time_buffer b) = n.

(** The page size [main] works with once [correct_args] has run. *)
Definition effective_max_results (z : Z) : Z :=
  if (z <=? 0) || (default_max_results <? z) then default_max_results else z.

(** The arguments [correct_args] hands back when [int(args.maxr)] is [z]. *)
Definition corrected_args (args : Args) (z : Z) : Args :=
  if (z <=? 0) || (default_max_results <? z) then with_default_maxr args else args.

(** The document [main] dumps. *)
Definition channel_document (channel_title videos_number : json)
    (videos_list : list VideoRecord) : json :=
  JDict [("channel_title", channel_title);
         ("videos_number", videos_number);
         ("videos", JList (map json_of_video videos_list))].

(** What [fetch_channel_data] reads off a decoded summary. *)
Definition summary_title (j : json) : Outcome json :=
  let? items := py_getitem j "items" in
  let? n := py_len items in
  if negb (n =? 0) then
    let? items := py_getitem j "items" in
    let? first := py_getitem0 items in
    let? snippet := py_getitem first "snippet" in
    py_getitem snippet "channelTitle"
  else Ok JNull.

Definition summary_count (j : json) : Outcome json :=
  let? info := py_getitem j "pageInfo" in
  py_getitem info "totalResults".

Definition playlist_items_url : string :=
  "https://www.googleapis.com/youtube/v3/playlistItems?".

Definition videos_url : string :=
  "https://www.googleapis.com/youtube/v3/videos?".

(** The url of the channel summary request. *)
Definition summary_url (playlist_id : json) (max_results : Z)
    (api_key get_play_list_url : string) : string :=
  get_play_list_url ++ "key=" ++ api_key
  ++ "&playlistId=" ++ py_str playlist_id
  ++ "&part=snippet,id,contentDetails&maxResults=" ++ str_of_Z max_results.

Definition parse_failure : string :=
  "error: can not parse html page to find channel id".

(** Sample remote sides for the statements below. *)
Definition rejected_listing_env : Env :=
  script_env (responses_of_pages [page_one]) (error_response 403).

Definition rejected_lookup_env : Env :=
  script_env [channel_page_response] (error_response 403).


Definition empty_summary_response : Response :=
  ok_response (JDict [("items", JList []);
                      ("pageInfo", JDict [("totalResults", JNum 0)])]).

Definition no_canonical_env : Env :=
  {| net := script_net [channel_page_response] (error_response 403);
     int_of_str := sample_int_of_str;
     canonical_href := fun _ => None;
     dump := fun _ _ => Dumped |}.

Definition arguments_header : string := nl ++ "Arguments validation...".

(** The world [get_args] leaves when [int(args.maxr)] is [z]. *)
Definition args_world (z : Z) (w : World) : World :=
  if (z <=? 0) || (default_max_results <? z)
  then after_print maxr_warning (after_print arguments_header w)
  else after_print arguments_header w.

(** The world [validate_args] leaves: the two probes have been sent. *)
Definition after_probes (E : Env) (args : Args) (w : World) : World :=
  after_request E (key_probe_url (key args)) (after_request E (url args) w).

(** A computation that sends at most [n] requests and touches at most
    the file [name]: it leaves the files alone, or it returns having
    dumped a whole document into [name], or it ends with the exception
    of a dump that failed half-way, which leaves [name] partial. *)
Definition runs_within (E : Env) (n : nat) (name : string) (m : M unit) : Prop :=
  forall w,
    (exists more, requests (snd (m w)) = (requests w ++ more)%list
                  /\ (List.length more <= n)%nat)
    /\ (files (snd (m w)) = files w
        \/ (exists doc,
              fst (m w) = Ok tt
              /\ dump E name doc = Dumped
              /\ files (snd (m w)) = (files w ++ [(name, Whole doc)])%list)
        \/ (exists doc e,
              fst (m w) = Exc e
              /\ dump E name doc = DumpFails e
              /\ files (snd (m w)) = (files w ++ [(name, Partial)])%list)).

Definition fetching_ids_line : string := nl ++ "Fetching channel id & playlist id...".
Definition fetching_data_line : string := "Fetching channel data...".
Definition saving_line : string := nl ++ "Saving json file...".

(** The world in which [main] enters the loop: arguments read, probes
    sent, channel page and lookup answered, summary fetched. *)
Definition setup_world (E : Env) (argv : Args) (z : Z) (href : string)
    (playlist : json) (w : World) : World :=
  after_request E
    (summary_url playlist (effective_max_results z) (key argv) playlist_items_url)
    (after_print fetching_data_line
       (after_request E
          (channels_url (py_split_last "/" href "") (effective_max_results z)
             (key argv))
          (after_request E (url argv)
             (after_print fetching_ids_line
                (after_probes E argv (args_world z w)))))).

Definition overflow_env : Env :=
  script_env (responses_of_pages [page_one; page_five]) (error_response 403).

(** The line the loop prints after a page. *)
Definition parsed_line (total : Z) : string :=
  "Parsed " ++ str_of_Z total ++ " videos".

(** ** The request gate *)

Lemma stubborn_request_answered (E : Env) (u : string) (w : World) (r : Response) :
  answered_by (net E (List.length (requests w)) u) r ->
  stubborn_request E u w = (Ok r, after_request E u w).
Proof.
  intros (failures & Hnet). unfold stubborn_request, after_request.
  rewrite Hnet. reflexivity.
Qed.

Lemma stubborn_request_unanswered (E : Env) (u : string) (w : World) :
  net E (List.length (requests w)) u = Unanswered ->
  stubborn_request E u w = (OutOfFuel, w).
Proof. intros Hnet. unfold stubborn_request. rewrite Hnet. reflexivity. Qed.

Lemma api_get_request_open_200 (E : Env) (u : string) (exit_if_not : bool)
    (w : World) (r : Response) :
  api_request_allow w = true ->
  answered_by (net E (List.length (requests w)) u) r ->
  status_code r = 200 ->
  api_get_request E u exit_if_not w = (Ok (Resp r), after_request E u w).
Proof.
  intros Hopen Hby Hcode.
  unfold api_get_request, bind, get_allow.
  rewrite Hopen, (stubborn_request_answered E u w r Hby), Hcode. cbn.
  unfold ret, after_request. cbn. rewrite Hopen. reflexivity.
Qed.

Lemma api_get_request_open_rejected (E : Env) (u : string) (exit_if_not : bool) (w : World) :
  api_request_allow w = true ->
  rejects (net E (List.length (requests w)) u) ->
  api_get_request E u exit_if_not w
    = (if exit_if_not then Exc (SystemExit "exit") else Ok PyFalse,
       after_rejection E u w).
Proof.
  intros Hopen (r & Hby & Hcode).
  unfold api_get_request, bind, get_allow.
  rewrite Hopen, (stubborn_request_answered E u w r Hby).
  apply Z.eqb_neq in Hcode. rewrite Hcode. cbn.
  destruct exit_if_not; reflexivity.
Qed.

Lemma api_get_request_unanswered (E : Env) (u : string) (exit_if_not : bool)
    (w : World) :
  api_request_allow w = true ->
  net E (List.length (requests w)) u = Unanswered ->
  api_get_request E u exit_if_not w = (OutOfFuel, w).
Proof.
  intros Hopen Hnet. unfold api_get_request, bind, get_allow.
  rewrite Hopen, (stubborn_request_unanswered E u w Hnet). reflexivity.
Qed.

Lemma api_get_request_closed (E : Env) (u : string) (exit_if_not : bool) (w : World) :
  api_request_allow w = false ->
  api_get_request E u exit_if_not w
    = (if exit_if_not then Exc (SystemExit "exit") else Ok PyFalse,
       {| api_request_allow := false;
          requests := requests w;
          stdout := stdout w ++ [api_error_message];
          files := files w |}).
Proof.
  intros Hclosed.
  unfold api_get_request, bind, get_allow.
  rewrite Hclosed. cbn. rewrite Hclosed. cbn.
  destruct exit_if_not; cbn; rewrite Hclosed; reflexivity.
Qed.

(** C3, as stated, fails: a 204 answer is a success status, yet the
    gate closes and [False] comes back. *)
Lemma gate_rejects_204 :
  ~ gate_accepts_2xx (script_env [error_response 204] (error_response 204))
      "u" false initial_world.
Proof.
  unfold gate_accepts_2xx. intros H.
  destruct (H eq_refl (error_response 204) (ex_intro _ [] eq_refl) eq_refl)
    as [Hres _].
  vm_compute in Hres. discriminate Hres.
Qed.

(** C3 (amended): while the gate is open, a response with status 200 is
    returned and the gate stays open; any other status closes the gate
    and prints the "Api response error!" line, after which a fail-fast
    call raises [SystemExit] (a non-zero exit) and a soft call returns
    [False], which is not a response. *)
Theorem api_get_request_gate (E : Env) (u : string) (exit_if_not : bool)
    (w : World) (response : Response) :
  api_request_allow w = true ->
  answered_by (net E (List.length (requests w)) u) response ->
  let result := api_get_request E u exit_if_not w in
  (status_code response = 200 ->
     fst result = Ok (Resp response)
     /\ snd result = after_request E u w
     /\ api_request_allow (snd result) = true)
  /\ (status_code response <> 200 ->
        api_request_allow (snd result) = false
        /\ snd result = after_rejection E u w
        /\ In api_error_message (stdout (snd result))
        /\ (exit_if_not = true ->
              fst result = Exc (SystemExit "exit")
              /\ exit_status (fst result) = Some 1)
        /\ (exit_if_not = false ->
              fst result = Ok PyFalse /\ is_False PyFalse = true)).
Proof.
  intros Hopen Hby result. subst result. split; intros Hcode.
  - rewrite (api_get_request_open_200 E u exit_if_not w response Hopen Hby Hcode).
    cbn [fst snd]. repeat split. exact Hopen.
  - rewrite (api_get_request_open_rejected E u exit_if_not w Hopen
               (ex_intro _ response (conj Hby Hcode))).
    cbn [fst snd]. repeat split.
    + unfold after_rejection. cbn [stdout]. apply in_or_app. right. left. reflexivity.
    + subst exit_if_not. reflexivity.
    + subst exit_if_not. reflexivity.
    + subst exit_if_not. reflexivity.
Qed.

(** A 403 answer to a soft call. *)
Lemma api_get_request_gate_witness :
  api_request_allow initial_world = true
  /\ fst (api_get_request (script_env [error_response 403] (error_response 403))
            "u" false initial_world) = Ok PyFalse.
Proof.
  split; [reflexivity |].
  apply (api_get_request_gate (script_env [error_response 403] (error_response 403))
           "u" false initial_world (error_response 403) eq_refl
           (ex_intro _ [] eq_refl)).
  - cbn. discriminate.
  - reflexivity.
Defined.

(** ** One page through the parser *)

Lemma parse_item_encoded (it : PlaylistItem) (b : Buffers) :
  parse_item (json_of_item it) b
  = Ok (if is_entry it then push_entry b it else b).
Proof.
  destruct it as [kind title description published video].
  unfold parse_item, json_of_item, is_entry, push_entry.
  cbn [pi_kind pi_title pi_description pi_publishedAt pi_videoId].
  cbn [py_getitem assoc String.eqb Ascii.eqb Bool.eqb obind is_str].
  destruct (String.eqb kind "youtube#playlistItem"); [| reflexivity].
  destruct title, description, published, video; reflexivity.
Qed.

Lemma parse_items_encoded (its : list PlaylistItem) (b : Buffers) :
  parse_items (map json_of_item its) b
  = Ok (fold_left push_entry (filter is_entry its) b).
Proof.
  revert b. induction its as [| it its IH]; intros b; [reflexivity |].
  cbn [map parse_items filter]. rewrite parse_item_encoded. cbn [obind].
  rewrite IH. destruct (is_entry it); reflexivity.
Qed.

Lemma holds_push (b : Buffers) (ents : list PlaylistItem) (it : PlaylistItem) :
  holds b ents -> holds (push_entry b it) (ents ++ [it]).
Proof.
  intros (Ht & Hd & Hv & Hp). unfold holds, push_entry.
  cbn [title_buffer description_buffer video_id_buffer publish_time_buffer].
  rewrite !map_app, Ht, Hd, Hv, Hp. repeat split; reflexivity.
Qed.

Lemma holds_fold (more ents : list PlaylistItem) (b : Buffers) :
  holds b ents -> holds (fold_left push_entry more b) (ents ++ more).
Proof.
  revert ents b. induction more as [| it more IH]; intros ents b H.
  - rewrite app_nil_r. exact H.
  - cbn [fold_left].
    replace (ents ++ it :: more)%list with ((ents ++ [it]) ++ more)%list
      by (rewrite <- app_assoc; reflexivity).
    apply IH. apply holds_push. exact H.
Qed.

Lemma total_counter_fold (more : list PlaylistItem) (b : Buffers) :
  total_counter (fold_left push_entry more b)
  = total_counter b + Z.of_nat (List.length more).
Proof.
  revert b. induction more as [| it more IH]; intros b.
  - cbn. lia.
  - cbn [fold_left List.length]. rewrite IH. cbn [push_entry total_counter]. lia.
Qed.

Lemma holds_parsed (p : Page) (total : Z) :
  holds (fold_left push_entry (entries p) (empty_buffers total)) (entries p).
Proof.
  apply (holds_fold (entries p) [] (empty_buffers total)).
  repeat split; reflexivity.
Qed.

(** The comma-joined ids exist exactly when every entry has one. *)
Lemma py_join_ids (ents : list PlaylistItem) :
  forallb has_videoId ents = true ->
  py_join "," (map (fun it => opt_json (pi_videoId it)) ents)
  = Ok (String.concat ","
          (flat_map (fun it => match pi_videoId it with
                               | Some v => [v]
                               | None => []
                               end) ents)).
Proof.
  induction ents as [| it ents IH]; intros Hall; [reflexivity |].
  cbn [forallb] in Hall. apply andb_prop in Hall. destruct Hall as [Hit Hrest].
  unfold has_videoId in Hit. cbn [map flat_map py_join].
  destruct (pi_videoId it) as [v |]; [| discriminate Hit].
  cbn [opt_json app]. rewrite (IH Hrest). cbn [obind].
  destruct ents as [| it' ents]; [reflexivity |].
  cbn [forallb] in Hrest. apply andb_prop in Hrest. destruct Hrest as [Hit' _].
  unfold has_videoId in Hit'. cbn [map flat_map].
  destruct (pi_videoId it') as [v' |]; [| discriminate Hit'].
  reflexivity.
Qed.

Lemma py_join_missing_id (ents : list PlaylistItem) :
  forallb has_videoId ents = false ->
  py_join "," (map (fun it => opt_json (pi_videoId it)) ents) = Exc TypeError.
Proof.
  induction ents as [| it ents IH]; intros Hsome; [discriminate Hsome |].
  cbn [forallb] in Hsome. cbn [map py_join]. unfold has_videoId in Hsome.
  destruct (pi_videoId it) as [v |]; [| reflexivity].
  cbn [opt_json]. cbn [andb] in Hsome. rewrite (IH Hsome). reflexivity.
Qed.

Lemma py_index_map {A} (f : A -> json) (l : list A) (i : nat) :
  py_index (map f l) i
  = match nth_error l i with
    | Some x => Ok (f x)
    | None => Exc IndexError
    end.
Proof.
  unfold py_index. rewrite nth_error_map. destruct (nth_error l i); reflexivity.
Qed.

Lemma zip_video_encoded (b : Buffers) (ents : list PlaylistItem) (i : nat)
    (st : Statistics) :
  holds b ents ->
  zip_video b i (json_of_statistics st)
  = match nth_error ents i with
    | Some it => Ok (record_of it st)
    | None => Exc IndexError
    end.
Proof.
  intros (Ht & Hd & Hv & Hp).
  unfold zip_video. rewrite Ht, Hd, Hv, Hp, !py_index_map.
  destruct st as [views likes comments].
  unfold json_of_statistics.
  cbn [st_viewCount st_likeCount st_commentCount].
  destruct (nth_error ents i) as [it |];
    destruct views, likes, comments; reflexivity.
Qed.

Lemma skipn_nth_error {A} (l : list A) (i : nat) (x : A) :
  nth_error l i = Some x -> skipn i l = x :: skipn (S i) l.
Proof.
  revert i. induction l as [| a l IH]; intros [| i] H; try discriminate H.
  - injection H as ->. reflexivity.
  - cbn [nth_error] in H. cbn [skipn]. rewrite (IH i H). reflexivity.
Qed.

(** The statistics loop pairs item [i + j] of the buffers with the j-th
    statistics item, as long as the buffers reach that far. *)
Lemma zip_statistics_encoded (b : Buffers) (ents : list PlaylistItem) :
  holds b ents ->
  forall (stats : list Statistics) (i : nat) (acc : list VideoRecord),
    (i + List.length stats <= List.length ents)%nat ->
    zip_statistics b i (map json_of_statistics stats) acc
    = Ok (acc ++ map (fun pair => record_of (fst pair) (snd pair))
                     (combine (skipn i ents) stats))%list.
Proof.
  intros Hb. induction stats as [| st stats IH]; intros i acc Hlen.
  - cbn [map zip_statistics]. rewrite combine_nil, app_nil_r. reflexivity.
  - cbn [map zip_statistics List.length] in *.
    rewrite (zip_video_encoded b ents i st Hb).
    destruct (nth_error ents i) as [it |] eqn:Hnth.
    + cbn [obind]. rewrite IH by lia.
      rewrite (skipn_nth_error ents i it Hnth). cbn [combine map fst snd].
      rewrite <- app_assoc. reflexivity.
    + apply nth_error_None in Hnth. lia.
Qed.

(** With more statistics items than entries the loop runs off the end
    of [title_buffer]. *)
Lemma zip_statistics_overflow (b : Buffers) (ents : list PlaylistItem) :
  holds b ents ->
  forall (stats : list Statistics) (i : nat) (acc : list VideoRecord),
    (i <= List.length ents < i + List.length stats)%nat ->
    zip_statistics b i (map json_of_statistics stats) acc = Exc IndexError.
Proof.
  intros Hb. induction stats as [| st stats IH]; intros i acc Hlen.
  - cbn [List.length] in Hlen. lia.
  - cbn [map zip_statistics List.length] in *.
    rewrite (zip_video_encoded b ents i st Hb).
    destruct (nth_error ents i) as [it |] eqn:Hnth; [| reflexivity].
    cbn [obind]. apply IH.
    assert (i < List.length ents)%nat
      by (apply nth_error_Some; rewrite Hnth; discriminate).
    lia.
Qed.

(** ** Strings *)

Lemma append_empty_r (s : string) : s ++ "" = s.
Proof. induction s as [| a s IH]; cbn; [| rewrite IH]; reflexivity. Qed.

Lemma append_assoc (a b c : string) : (a ++ b) ++ c = a ++ (b ++ c).
Proof. induction a as [| x a IH]; cbn; [| rewrite IH]; reflexivity. Qed.

(** ** Stepping the monad *)

Lemma bind_ok {A B} (m : M A) (k : A -> M B) (w w' : World) (a : A) :
  m w = (Ok a, w') -> bind m k w = k a w'.
Proof. intros H. unfold bind. rewrite H. reflexivity. Qed.

Lemma bind_exc {A B} (m : M A) (k : A -> M B) (w w' : World) (e : pyexn) :
  m w = (Exc e, w') -> bind m k w = (Exc e, w').
Proof. intros H. unfold bind. rewrite H. reflexivity. Qed.

Lemma bind_stuck {A B} (m : M A) (k : A -> M B) (w w' : World) :
  m w = (OutOfFuel, w') -> bind m k w = (OutOfFuel, w').
Proof. intros H. unfold bind. rewrite H. reflexivity. Qed.

Lemma bind_lift_ok {A B} (o : Outcome A) (k : A -> M B) (w : World) (a : A) :
  o = Ok a -> bind (lift o) k w = k a w.
Proof. intros ->. reflexivity. Qed.

Lemma bind_lift_exc {A B} (o : Outcome A) (k : A -> M B) (w : World) (e : pyexn) :
  o = Exc e -> bind (lift o) k w = (Exc e, w).
Proof. intros ->. reflexivity. Qed.

Lemma response_json_answers {B} (r : Response) (j : json) (k : json -> M B) (w : World) :
  json_body r = Some j -> bind (response_json (Resp r)) k w = k j w.
Proof. intros H. unfold response_json. rewrite H. reflexivity. Qed.

Lemma requests_after_request (E : Env) (u : string) (w : World) :
  List.length (requests (after_request E u w)) = S (List.length (requests w)).
Proof. unfold after_request. cbn [requests]. rewrite length_app. cbn. lia. Qed.

Lemma parse_playlist_page (p : Page) (total : Z) :
  (let? items := py_getitem (json_of_playlist_page p) "items" in
   let? items := py_iter items in
   parse_items items (empty_buffers total))
  = Ok (fold_left push_entry (entries p) (empty_buffers total)).
Proof.
  unfold json_of_playlist_page.
  cbn [py_getitem assoc String.eqb Ascii.eqb Bool.eqb obind py_iter].
  apply parse_items_encoded.
Qed.

Lemma cursor_of_playlist_page (p : Page) :
  py_in "nextPageToken" (json_of_playlist_page p) = Ok (has_cursor p)
  /\ forall c, pg_nextPageToken p = Some c ->
       (let? token := py_getitem (json_of_playlist_page p) "nextPageToken" in
        py_concat next_token_url_part token)
       = Ok (next_token_url_part ++ c).
Proof.
  unfold json_of_playlist_page, has_cursor.
  destruct (pg_nextPageToken p) as [c |]; split; try reflexivity.
  - intros c' H. injection H as <-. reflexivity.
  - intros c' H. discriminate H.
Qed.

Lemma zip_statistics_page (p : Page) (total : Z) (acc : list VideoRecord) :
  (let? items := py_getitem (json_of_statistics_page p) "items" in
   let? items := py_iter items in
   zip_statistics (fold_left push_entry (entries p) (empty_buffers total)) 0 items acc)
  = if (List.length (pg_statistics p) <=? List.length (entries p))%nat
    then Ok (acc ++ page_records p)%list
    else Exc IndexError.
Proof.
  unfold json_of_statistics_page.
  cbn [py_getitem assoc String.eqb Ascii.eqb Bool.eqb obind py_iter].
  destruct (Nat.leb_spec (List.length (pg_statistics p)) (List.length (entries p)))
    as [Hle | Hgt].
  - rewrite (zip_statistics_encoded _ (entries p) (holds_parsed p total)) by (cbn; lia).
    reflexivity.
  - apply (zip_statistics_overflow _ (entries p) (holds_parsed p total)). lia.
Qed.

Section Loop.

Variable E : Env.
Variable playlist_id : json.
Variable max_results : Z.
Variables api_key get_play_list_url get_videos_url : string.

(** The definitions above at the parameters of the run. *)
Let list_url :=
  playlist_url playlist_id max_results api_key get_play_list_url.
Let stats_url :=
  statistics_url max_results api_key get_videos_url.
Let body :=
  videos_body E playlist_id max_results api_key get_play_list_url get_videos_url.
Let loop :=
  videos_loop E playlist_id max_results api_key get_play_list_url get_videos_url.
Let statistics_request :=
  page_statistics_url max_results api_key get_videos_url.
Let page_world :=
  after_page E playlist_id max_results api_key get_play_list_url get_videos_url.
Let walk_requests :=
  requests_of_pages playlist_id max_results api_key get_play_list_url get_videos_url.
Let walk_world :=
  after_pages E playlist_id max_results api_key get_play_list_url get_videos_url.

Lemma after_page_requests (page_token : string) (p : Page) (total : Z) (w : World) :
  requests (page_world page_token p total w)
  = (requests w ++ [list_url page_token; statistics_request p])%list.
Proof.
  unfold page_world, after_page, after_request. cbn [requests].
  rewrite <- app_assoc. reflexivity.
Qed.

Lemma after_page_allow (page_token : string) (p : Page) (total : Z) (w : World) :
  api_request_allow (page_world page_token p total w) = api_request_allow w.
Proof. reflexivity. Qed.

(** The first half of a turn on a well-formed page: the page is
    fetched and parsed, and the statistics request is about to go. *)
Lemma body_until_statistics
    (continue : string -> list VideoRecord -> Z -> M (list VideoRecord))
    (page_token : string) (acc : list VideoRecord) (total : Z) (w : World)
    (p : Page) :
  api_request_allow w = true ->
  answers (net E (List.length (requests w)) (list_url page_token))
          (json_of_playlist_page p) ->
  body continue page_token acc total w
  = match py_join "," (video_id_buffer
                         (fold_left push_entry (entries p) (empty_buffers total))) with
    | Ok videos_id_str =>
        bind (api_get_request E (stats_url videos_id_str) false)
          (fun videos_statistics_response =>
             if is_False videos_statistics_response then ret acc else
             videos_statistics_json <- response_json videos_statistics_response ;;
             videos_list' <-
               lift (let? items := py_getitem videos_statistics_json "items" in
                     let? items := py_iter items in
                     zip_statistics
                       (fold_left push_entry (entries p) (empty_buffers total))
                       0 items acc) ;;
             print ("Parsed "
                    ++ str_of_Z (total_counter
                                   (fold_left push_entry (entries p)
                                      (empty_buffers total)))
                    ++ " videos") ;;;
             has_next <- lift (py_in "nextPageToken" (json_of_playlist_page p)) ;;
             if (has_next : bool) then
               page_token' <-
                 lift (let? token := py_getitem (json_of_playlist_page p)
                                       "nextPageToken" in
                       py_concat next_token_url_part token) ;;
               continue page_token' videos_list'
                 (total_counter
                    (fold_left push_entry (entries p) (empty_buffers total)))
             else ret videos_list')
          (after_request E (list_url page_token) w)
    | Exc e => (Exc e, after_request E (list_url page_token) w)
    | OutOfFuel => (OutOfFuel, after_request E (list_url page_token) w)
    end.
Proof.
  intros Hopen (r & Hby & Hcode & Hjson).
  unfold body, videos_body.
  rewrite (bind_ok _ _ _ _ _ (api_get_request_open_200 E _ false w r Hopen Hby Hcode)).
  cbn [is_False].
  rewrite (response_json_answers _ _ _ _ Hjson).
  rewrite (bind_lift_ok _ _ _ _ (parse_playlist_page p total)).
  unfold bind at 1. unfold lift at 1.
  destruct (py_join "," _); reflexivity.
Qed.

Lemma video_id_buffer_parsed (p : Page) (total : Z) :
  video_id_buffer (fold_left push_entry (entries p) (empty_buffers total))
  = map (fun it => opt_json (pi_videoId it)) (entries p).
Proof. destruct (holds_parsed p total) as (_ & _ & Hv & _). exact Hv. Qed.

Lemma join_page_ids (p : Page) (total : Z) :
  forallb has_videoId (entries p) = true ->
  py_join "," (video_id_buffer
                 (fold_left push_entry (entries p) (empty_buffers total)))
  = Ok (String.concat "," (video_ids p)).
Proof.
  intros Hids. rewrite video_id_buffer_parsed. apply py_join_ids. exact Hids.
Qed.

(** A turn on a page the loop gets through: its records are appended
    and the loop goes on exactly when the page carries a cursor. *)
Lemma body_page_ok
    (continue : string -> list VideoRecord -> Z -> M (list VideoRecord))
    (page_token : string) (acc : list VideoRecord) (total : Z) (w : World)
    (p : Page) :
  api_request_allow w = true ->
  answers (net E (List.length (requests w)) (list_url page_token))
          (json_of_playlist_page p) ->
  answers (net E (S (List.length (requests w))) (statistics_request p))
          (json_of_statistics_page p) ->
  page_ok p = true ->
  body continue page_token acc total w
  = match pg_nextPageToken p with
    | Some c =>
        continue (next_token_url_part ++ c) (acc ++ page_records p)%list
          (total + Z.of_nat (List.length (entries p)))
          (page_world page_token p total w)
    | None => (Ok (acc ++ page_records p)%list, page_world page_token p total w)
    end.
Proof.
  intros Hopen Hlist (r & Hby & Hcode & Hjson) Hok.
  unfold page_ok in Hok. apply andb_prop in Hok. destruct Hok as [Hids Hlen].
  rewrite (body_until_statistics continue page_token acc total w p Hopen Hlist).
  rewrite (join_page_ids p total Hids).
  rewrite <- (requests_after_request E (list_url page_token) w) in Hby.
  rewrite (bind_ok _ _ _ _ _
             (api_get_request_open_200 E _ false
                (after_request E (list_url page_token) w) r Hopen Hby Hcode)).
  cbn [is_False].
  rewrite (response_json_answers _ _ _ _ Hjson).
  rewrite (bind_lift_ok _ _ _ _
             (eq_trans (zip_statistics_page p total acc)
                       (f_equal (fun b : bool =>
                                   if b then Ok (acc ++ page_records p)%list
                                   else Exc IndexError) Hlen))).
  rewrite total_counter_fold. cbn [empty_buffers total_counter].
  unfold bind at 1. cbn [print].
  destruct (cursor_of_playlist_page p) as [Hin Htoken].
  rewrite (bind_lift_ok _ _ _ _ Hin).
  unfold has_cursor.
  destruct (pg_nextPageToken p) as [c |] eqn:Hnext.
  - rewrite (bind_lift_ok _ _ _ _ (Htoken c eq_refl)). reflexivity.
  - reflexivity.
Qed.

(** The statistics request is rejected: the turn returns what was
    accumulated before it. *)
Lemma body_statistics_rejected
    (continue : string -> list VideoRecord -> Z -> M (list VideoRecord))
    (page_token : string) (acc : list VideoRecord) (total : Z) (w : World)
    (p : Page) :
  api_request_allow w = true ->
  answers (net E (List.length (requests w)) (list_url page_token))
          (json_of_playlist_page p) ->
  forallb has_videoId (entries p) = true ->
  rejects (net E (S (List.length (requests w))) (statistics_request p)) ->
  body continue page_token acc total w
  = (Ok acc,
     after_rejection E (statistics_request p)
       (after_request E (list_url page_token) w)).
Proof.
  intros Hopen Hlist Hids Hcode.
  rewrite (body_until_statistics continue page_token acc total w p Hopen Hlist).
  rewrite (join_page_ids p total Hids).
  rewrite <- (requests_after_request E (list_url page_token) w) in Hcode.
  rewrite (bind_ok _ _ _ _ _
             (api_get_request_open_rejected E _ false
                (after_request E (list_url page_token) w) Hopen Hcode)).
  reflexivity.
Qed.

(** An entry without a video id: the join raises before the
    statistics request is made. *)
Lemma body_missing_id
    (continue : string -> list VideoRecord -> Z -> M (list VideoRecord))
    (page_token : string) (acc : list VideoRecord) (total : Z) (w : World)
    (p : Page) :
  api_request_allow w = true ->
  answers (net E (List.length (requests w)) (list_url page_token))
          (json_of_playlist_page p) ->
  forallb has_videoId (entries p) = false ->
  body continue page_token acc total w
  = (Exc TypeError, after_request E (list_url page_token) w).
Proof.
  intros Hopen Hlist Hids.
  rewrite (body_until_statistics continue page_token acc total w p Hopen Hlist).
  rewrite video_id_buffer_parsed, (py_join_missing_id _ Hids). reflexivity.
Qed.

(** More statistics items than entries: the turn raises [IndexError]. *)
Lemma body_overflow
    (continue : string -> list VideoRecord -> Z -> M (list VideoRecord))
    (page_token : string) (acc : list VideoRecord) (total : Z) (w : World)
    (p : Page) :
  api_request_allow w = true ->
  answers (net E (List.length (requests w)) (list_url page_token))
          (json_of_playlist_page p) ->
  answers (net E (S (List.length (requests w))) (statistics_request p))
          (json_of_statistics_page p) ->
  forallb has_videoId (entries p) = true ->
  (List.length (entries p) < List.length (pg_statistics p))%nat ->
  body continue page_token acc total w
  = (Exc IndexError,
     after_request E (statistics_request p)
       (after_request E (list_url page_token) w)).
Proof.
  intros Hopen Hlist (r & Hby & Hcode & Hjson) Hids Hlen.
  rewrite (body_until_statistics continue page_token acc total w p Hopen Hlist).
  rewrite (join_page_ids p total Hids).
  rewrite <- (requests_after_request E (list_url page_token) w) in Hby.
  rewrite (bind_ok _ _ _ _ _
             (api_get_request_open_200 E _ false
                (after_request E (list_url page_token) w) r Hopen Hby Hcode)).
  cbn [is_False].
  rewrite (response_json_answers _ _ _ _ Hjson).
  apply Nat.leb_gt in Hlen.
  rewrite (bind_lift_exc _ _ _ _
             (eq_trans (zip_statistics_page p total acc)
                       (f_equal (fun b : bool =>
                                   if b then Ok (acc ++ page_records p)%list
                                   else Exc IndexError) Hlen))).
  reflexivity.
Qed.

Lemma requests_of_pages_length (page_token : string) (ps : list Page) :
  List.length (walk_requests page_token ps) = (2 * List.length ps)%nat.
Proof.
  revert page_token. induction ps as [| p ps IH]; intros page_token; [reflexivity |].
  unfold walk_requests. cbn [requests_of_pages List.length]. rewrite IH. lia.
Qed.

Lemma after_pages_requests (ps : list Page) (page_token : string) (total : Z)
    (w : World) :
  requests (walk_world page_token total ps w)
  = (requests w ++ walk_requests page_token ps)%list.
Proof.
  revert page_token total w.
  induction ps as [| p ps IH]; intros page_token total w.
  - cbn. rewrite app_nil_r. reflexivity.
  - unfold walk_requests, walk_world. cbn [after_pages requests_of_pages].
    fold walk_requests walk_world page_world.
    rewrite IH, after_page_requests, <- app_assoc. reflexivity.
Qed.

Lemma after_pages_allow (ps : list Page) (page_token : string) (total : Z)
    (w : World) :
  api_request_allow (walk_world page_token total ps w) = api_request_allow w.
Proof.
  revert page_token total w.
  induction ps as [| p ps IH]; intros page_token total w; [reflexivity |].
  unfold walk_world. cbn [after_pages]. rewrite IH. reflexivity.
Qed.

Lemma after_pages_files (ps : list Page) (page_token : string) (total : Z)
    (w : World) :
  files (walk_world page_token total ps w) = files w.
Proof.
  revert page_token total w.
  induction ps as [| p ps IH]; intros page_token total w; [reflexivity |].
  unfold walk_world. cbn [after_pages]. rewrite IH. reflexivity.
Qed.

Lemma serves_head (n0 : nat) (p : Page) (ps : list Page) :
  serves E n0 (p :: ps) ->
  forall u, answers (net E n0 u) (json_of_playlist_page p)
            /\ answers (net E (S n0) u) (json_of_statistics_page p).
Proof.
  intros H u. specialize (H 0%nat p eq_refl u).
  replace (n0 + 2 * 0)%nat with n0 in H by lia.
  replace (n0 + 1)%nat with (S n0) in H by lia. exact H.
Qed.

Lemma serves_tail (n0 : nat) (p : Page) (ps : list Page) :
  serves E n0 (p :: ps) -> serves E (S (S n0)) ps.
Proof.
  intros H i q Hq u. specialize (H (S i) q Hq u).
  replace (n0 + 2 * S i)%nat with (S (S n0) + 2 * i)%nat in H by lia.
  exact H.
Qed.

Lemma serves_app (n0 : nat) (ps qs : list Page) :
  serves E n0 (ps ++ qs) ->
  serves E n0 ps /\ serves E (n0 + 2 * List.length ps) qs.
Proof.
  intros H. split.
  - intros i p Hp u. apply H. rewrite nth_error_app1; [exact Hp |].
    apply nth_error_Some. rewrite Hp. discriminate.
  - intros i q Hq u. specialize (H (List.length ps + i)%nat q).
    rewrite nth_error_app2 in H by lia.
    replace (List.length ps + i - List.length ps)%nat with i in H by lia.
    specialize (H Hq u).
    replace (n0 + 2 * (List.length ps + i))%nat
      with (n0 + 2 * List.length ps + 2 * i)%nat in H by lia.
    exact H.
Qed.

Lemma requests_after_page (page_token : string) (p : Page) (total : Z) (w : World) :
  List.length (requests (page_world page_token p total w))
  = S (S (List.length (requests w))).
Proof. rewrite after_page_requests, length_app. cbn. lia. Qed.

(** Pages that all carry a cursor are walked one turn each. *)
Lemma loop_through_pages (ps : list Page) :
  forall (fuel : nat) (page_token : string) (acc : list VideoRecord)
         (total : Z) (w : World),
    api_request_allow w = true ->
    serves E (List.length (requests w)) ps ->
    forallb page_ok ps = true ->
    forallb has_cursor ps = true ->
    loop (List.length ps + fuel) page_token acc total w
    = loop fuel (token_after page_token ps)
        (acc ++ flat_map page_records ps)%list
        (total_after total ps)
        (walk_world page_token total ps w).
Proof.
  induction ps as [| p ps IH]; intros fuel page_token acc total w Hopen Hnet Hok Hcur.
  - cbn. rewrite app_nil_r. reflexivity.
  - cbn [forallb] in Hok, Hcur.
    apply andb_prop in Hok. destruct Hok as [Hp Hps].
    apply andb_prop in Hcur. destruct Hcur as [Hc Hcs].
    cbn [List.length Nat.add]. unfold loop. cbn [videos_loop].
    destruct (serves_head _ _ _ Hnet
                (playlist_url playlist_id max_results api_key get_play_list_url
                   page_token)) as [Hlist _].
    destruct (serves_head _ _ _ Hnet (statistics_request p)) as [_ Hstats].
    fold body.
    rewrite (body_page_ok _ page_token acc total w p Hopen Hlist Hstats Hp).
    unfold has_cursor in Hc.
    unfold walk_world. cbn [token_after total_after after_pages flat_map].
    unfold next_page_token.
    destruct (pg_nextPageToken p) as [c |]; [| discriminate Hc].
    fold loop. rewrite IH; try assumption.
    + rewrite <- app_assoc. reflexivity.
    + rewrite requests_after_page. apply (serves_tail _ p). exact Hnet.
Qed.

Lemma after_pages_app (ps qs : list Page) (page_token : string) (total : Z)
    (w : World) :
  walk_world page_token total (ps ++ qs) w
  = walk_world (token_after page_token ps) (total_after total ps) qs
      (walk_world page_token total ps w).
Proof.
  revert page_token total w.
  induction ps as [| p ps IH]; intros page_token total w; [reflexivity |].
  unfold walk_world. cbn [app after_pages token_after total_after]. apply IH.
Qed.

Lemma requests_of_pages_app (ps qs : list Page) (page_token : string) :
  walk_requests page_token (ps ++ qs)
  = (walk_requests page_token ps
     ++ walk_requests (token_after page_token ps) qs)%list.
Proof.
  revert page_token. induction ps as [| p ps IH]; intros page_token; [reflexivity |].
  unfold walk_requests. cbn [app requests_of_pages token_after]. rewrite IH. reflexivity.
Qed.

(** A walk over pages whose last one is the first without a cursor. *)
Lemma loop_finishes (pre : list Page) (final : Page) (extra : nat)
    (page_token : string) (acc : list VideoRecord) (total : Z) (w : World) :
  api_request_allow w = true ->
  serves E (List.length (requests w)) (pre ++ [final]) ->
  forallb page_ok (pre ++ [final]) = true ->
  forallb has_cursor pre = true ->
  has_cursor final = false ->
  loop (List.length pre + S extra) page_token acc total w
  = (Ok (acc ++ flat_map page_records (pre ++ [final]))%list,
     walk_world page_token total (pre ++ [final]) w).
Proof.
  intros Hopen Hnet Hok Hcur Hlast.
  rewrite forallb_app in Hok. apply andb_prop in Hok. destruct Hok as [Hpre Hfin].
  cbn [forallb] in Hfin. rewrite andb_true_r in Hfin.
  destruct (serves_app _ _ _ Hnet) as [Hnet_pre Hnet_fin].
  rewrite (loop_through_pages pre (S extra) page_token acc total w
             Hopen Hnet_pre Hpre Hcur).
  unfold loop. cbn [videos_loop]. fold body.
  assert (Hlen : List.length (requests (walk_world page_token total pre w))
                 = (List.length (requests w) + 2 * List.length pre)%nat).
  { rewrite after_pages_requests, length_app, requests_of_pages_length. reflexivity. }
  rewrite <- Hlen in Hnet_fin.
  destruct (serves_head _ _ _ Hnet_fin
              (playlist_url playlist_id max_results api_key get_play_list_url
                 (token_after page_token pre))) as [Hlist _].
  destruct (serves_head _ _ _ Hnet_fin (statistics_request final)) as [_ Hstats].
  rewrite (body_page_ok _ _ _ _ _ final
             (eq_trans (after_pages_allow pre page_token total w) Hopen)
             Hlist Hstats Hfin).
  unfold has_cursor in Hlast.
  destruct (pg_nextPageToken final) as [c |]; [discriminate Hlast |].
  rewrite after_pages_app, flat_map_app. unfold walk_world. cbn [flat_map after_pages].
  rewrite app_nil_r, app_assoc. reflexivity.
Qed.

(** The urls the program puts together are the requests the API
    expects, cursor included. *)
Lemma playlist_url_expected (cursor : option string) :
  playlist_url playlist_id max_results api_key get_play_list_url
    (page_token_of cursor)
  = expected_listing playlist_id max_results api_key get_play_list_url cursor.
Proof.
  unfold playlist_url, expected_listing, listing_query, page_token_of,
    next_token_url_part.
  destruct cursor as [c |]; cbn [List.app String.concat].
  - rewrite !append_assoc. reflexivity.
  - rewrite !append_assoc, append_empty_r. reflexivity.
Qed.

Lemma statistics_url_expected (p : Page) :
  page_statistics_url max_results api_key get_videos_url p
  = expected_statistics max_results api_key get_videos_url p.
Proof.
  unfold page_statistics_url, statistics_url, expected_statistics, statistics_query.
  cbn [String.concat]. rewrite !append_assoc. reflexivity.
Qed.

Lemma token_after_cursor (ps : list Page) (cursor : option string) :
  token_after (page_token_of cursor) ps = page_token_of (cursor_after cursor ps).
Proof.
  revert cursor. induction ps as [| p ps IH]; intros cursor; [reflexivity |].
  cbn [token_after cursor_after]. exact (IH (pg_nextPageToken p)).
Qed.

Lemma walk_requests_expected (ps : list Page) (cursor : option string) :
  walk_requests (page_token_of cursor) ps
  = expected_requests playlist_id max_results api_key get_play_list_url
      get_videos_url cursor ps.
Proof.
  revert cursor. induction ps as [| p ps IH]; intros cursor; [reflexivity |].
  unfold walk_requests in *. cbn [requests_of_pages expected_requests].
  rewrite playlist_url_expected, statistics_url_expected.
  f_equal. f_equal. exact (IH (pg_nextPageToken p)).
Qed.

(** Pages that all carry a cursor are walked one turn each by a client
    whose listing requests carry the cursor of the page before. *)
Lemma loop_follows_cursors (ps : list Page) :
  forall (fuel : nat) (cursor : option string) (acc : list VideoRecord)
         (total : Z) (w : World),
    api_request_allow w = true ->
    follows_cursors E playlist_id max_results api_key get_play_list_url
      get_videos_url (List.length (requests w)) cursor ps ->
    forallb page_ok ps = true ->
    forallb has_cursor ps = true ->
    loop (List.length ps + fuel) (page_token_of cursor) acc total w
    = loop fuel (page_token_of (cursor_after cursor ps))
        (acc ++ flat_map page_records ps)%list
        (total_after total ps)
        (walk_world (page_token_of cursor) total ps w).
Proof.
  induction ps as [| p ps IH]; intros fuel cursor acc total w Hopen Hnet Hok Hcur.
  - cbn. rewrite app_nil_r. reflexivity.
  - cbn [forallb] in Hok, Hcur.
    apply andb_prop in Hok. destruct Hok as [Hp Hps].
    apply andb_prop in Hcur. destruct Hcur as [Hc Hcs].
    cbn [follows_cursors] in Hnet. destruct Hnet as (Hlist & Hstats & Hrest).
    rewrite <- (playlist_url_expected cursor) in Hlist.
    rewrite <- (statistics_url_expected p) in Hstats.
    cbn [List.length Nat.add]. unfold loop. cbn [videos_loop]. fold body.
    rewrite (body_page_ok _ (page_token_of cursor) acc total w p
               Hopen Hlist Hstats Hp).
    unfold has_cursor in Hc.
    unfold walk_world. cbn [cursor_after total_after after_pages flat_map].
    unfold next_page_token.
    destruct (pg_nextPageToken p) as [c |]; [| discriminate Hc].
    fold loop. change (next_token_url_part ++ c) with (page_token_of (Some c)).
    rewrite IH; try assumption.
    + rewrite <- app_assoc. reflexivity.
    + rewrite requests_after_page. exact Hrest.
Qed.

Lemma combine_fst_firstn {A B} (l : list A) (l' : list B) :
  map fst (combine l l') = firstn (List.length l') l.
Proof.
  revert l'. induction l as [| a l IH]; intros [| b l']; cbn; try reflexivity.
  - rewrite IH. reflexivity.
Qed.

(** A field of the records that is read off the entry alone lists the
    entries' fields in entry order, cut at the number of statistics
    items. *)
Lemma page_records_field {B} (f : VideoRecord -> B) (g : PlaylistItem -> B) (p : Page) :
  (forall it st, f (record_of it st) = g it) ->
  map f (page_records p)
  = firstn (List.length (pg_statistics p)) (map g (entries p)).
Proof.
  intros Hfg. unfold page_records. rewrite map_map.
  rewrite (map_ext _ (fun pair => g (fst pair)) (fun pair => Hfg (fst pair) (snd pair))).
  rewrite <- (map_map fst g), combine_fst_firstn, firstn_map. reflexivity.
Qed.

Lemma flat_map_field {B} (f : VideoRecord -> B) (g : PlaylistItem -> B)
    (ps : list Page) :
  (forall it st, f (record_of it st) = g it) ->
  map f (flat_map page_records ps)
  = flat_map (fun p => firstn (List.length (pg_statistics p)) (map g (entries p))) ps.
Proof.
  intros Hfg. induction ps as [| p ps IH]; [reflexivity |].
  cbn [flat_map]. rewrite map_app, IH, (page_records_field f g p Hfg). reflexivity.
Qed.

(** C1: when the statistics request of page k is answered with a
    rejection, [get_videos_list] returns normally, and what it returns
    is exactly the records of pages 1..k-1; the entries already parsed
    from page k are not in it. *)
Theorem statistics_rejection_truncates (pre : list Page) (p : Page) (extra : nat)
    (w : World) :
  api_request_allow w = true ->
  serves E (List.length (requests w)) pre ->
  forallb page_ok pre = true ->
  forallb has_cursor pre = true ->
  (forall u, answers (net E (List.length (requests w) + 2 * List.length pre) u)
                     (json_of_playlist_page p)) ->
  forallb has_videoId (entries p) = true ->
  (forall u, rejects (net E (S (List.length (requests w) + 2 * List.length pre)) u)) ->
  let run := get_videos_list E playlist_id max_results api_key get_play_list_url
               get_videos_url (List.length pre + S extra) w in
  fst run = Ok (flat_map page_records pre)
  /\ exit_status (fst run) = Some 0
  /\ api_request_allow (snd run) = false
  /\ requests (snd run)
     = (requests w ++ walk_requests "" pre
        ++ [list_url (token_after "" pre); statistics_request p])%list.
Proof.
  intros Hopen Hnet Hok Hcur Hlist Hids Hcode run.
  assert (Hrun : run
                 = (Ok (flat_map page_records pre),
                    after_rejection E (statistics_request p)
                      (after_request E (list_url (token_after "" pre))
                         (walk_world "" 0 pre w)))).
  { subst run. unfold get_videos_list. fold loop.
    rewrite (loop_through_pages pre (S extra) "" [] 0 w Hopen Hnet Hok Hcur).
    unfold loop. cbn [videos_loop]. fold body.
    assert (Hlen : List.length (requests (walk_world "" 0 pre w))
                   = (List.length (requests w) + 2 * List.length pre)%nat).
    { rewrite after_pages_requests, length_app, requests_of_pages_length.
      reflexivity. }
    rewrite <- Hlen in Hlist, Hcode.
    rewrite (body_statistics_rejected _ _ _ _ _ p
               (eq_trans (after_pages_allow pre "" 0 w) Hopen)
               (Hlist _) Hids (Hcode _)).
    reflexivity. }
  rewrite Hrun. cbn [fst snd exit_status]. repeat split.
  unfold after_rejection, after_request. cbn [requests].
  rewrite after_pages_requests, <- !app_assoc. reflexivity.
Qed.

(** C2 (what the code does): a walk over a finite sequence of pages
    handed out to a client that follows the cursors.  The pages before
    the last carry a cursor and are gone through; the last page,
    [final], is the first that carries no cursor or that the loop does
    not get through.  Whatever fuel is left:
    - when [final] is well formed and carries no cursor, the loop
      returns the records of all the pages, having made for each page
      one listing request, with the cursor of the page before, followed
      by one statistics request for the ids of the page, and nothing
      else: two requests a page, the gate open;
    - when an entry of [final] has no [videoId], the loop ends with
      [TypeError] after the listing request of [final]: that page gets
      no statistics request, and the count of requests is odd;
    - when [final] gets more statistics items than it has entries, the
      loop ends with [IndexError] after both requests of [final],
      whether or not [final] carries a cursor. *)
Theorem pagination_terminates (pre : list Page) (final : Page) (extra : nat)
    (w : World) :
  api_request_allow w = true ->
  follows_cursors E playlist_id max_results api_key get_play_list_url
    get_videos_url (List.length (requests w)) None pre ->
  forallb page_ok pre = true ->
  forallb has_cursor pre = true ->
  answers (net E (List.length (requests w) + 2 * List.length pre)
             (expected_listing playlist_id max_results api_key get_play_list_url
                (cursor_after None pre)))
          (json_of_playlist_page final) ->
  let run := get_videos_list E playlist_id max_results api_key get_play_list_url
               get_videos_url (List.length pre + S extra) w in
  (page_ok final = true ->
   has_cursor final = false ->
   answers (net E (S (List.length (requests w) + 2 * List.length pre))
              (expected_statistics max_results api_key get_videos_url final))
           (json_of_statistics_page final) ->
     fst run = Ok (flat_map page_records (pre ++ [final]))
     /\ requests (snd run)
        = (requests w
           ++ expected_requests playlist_id max_results api_key
                get_play_list_url get_videos_url None (pre ++ [final]))%list
     /\ List.length (requests (snd run))
        = (List.length (requests w) + 2 * List.length (pre ++ [final]))%nat
     /\ api_request_allow (snd run) = true)
  /\ (forallb has_videoId (entries final) = false ->
        fst run = Exc TypeError
        /\ requests (snd run)
           = (requests w
              ++ expected_requests playlist_id max_results api_key
                   get_play_list_url get_videos_url None pre
              ++ [expected_listing playlist_id max_results api_key
                    get_play_list_url (cursor_after None pre)])%list
        /\ List.length (requests (snd run))
           = S (List.length (requests w) + 2 * List.length pre))
  /\ (forallb has_videoId (entries final) = true ->
      (List.length (entries final) < List.length (pg_statistics final))%nat ->
      answers (net E (S (List.length (requests w) + 2 * List.length pre))
                 (expected_statistics max_results api_key get_videos_url final))
              (json_of_statistics_page final) ->
        fst run = Exc IndexError
        /\ requests (snd run)
           = (requests w
              ++ expected_requests playlist_id max_results api_key
                   get_play_list_url get_videos_url None (pre ++ [final]))%list).
Proof.
  intros Hopen Hnet Hok Hcur Hlist run.
  assert (Hwalk : run
                  = body (loop extra) (page_token_of (cursor_after None pre))
                      (flat_map page_records pre) (total_after 0 pre)
                      (walk_world "" 0 pre w)).
  { subst run. unfold get_videos_list. fold loop.
    exact (loop_follows_cursors pre (S extra) None [] 0 w Hopen Hnet Hok Hcur). }
  assert (Hlen : List.length (requests (walk_world "" 0 pre w))
                 = (List.length (requests w) + 2 * List.length pre)%nat).
  { rewrite after_pages_requests, length_app, requests_of_pages_length.
    reflexivity. }
  assert (Hopen' : api_request_allow (walk_world "" 0 pre w) = true)
    by (rewrite after_pages_allow; exact Hopen).
  assert (Hlog : requests (walk_world "" 0 pre w)
                 = (requests w
                    ++ expected_requests playlist_id max_results api_key
                         get_play_list_url get_videos_url None pre)%list).
  { rewrite after_pages_requests, <- (walk_requests_expected pre None).
    reflexivity. }
  assert (Hall : expected_requests playlist_id max_results api_key
                   get_play_list_url get_videos_url None (pre ++ [final])
                 = (expected_requests playlist_id max_results api_key
                      get_play_list_url get_videos_url None pre
                    ++ [expected_listing playlist_id max_results api_key
                          get_play_list_url (cursor_after None pre);
                        expected_statistics max_results api_key get_videos_url
                          final])%list).
  { rewrite <- !(walk_requests_expected _ None), requests_of_pages_app.
    rewrite token_after_cursor. unfold walk_requests at 2.
    cbn [requests_of_pages].
    rewrite playlist_url_expected, statistics_url_expected. reflexivity. }
  rewrite <- Hlen in Hlist.
  rewrite <- (playlist_url_expected (cursor_after None pre)) in Hlist.
  split; [| split].
  - intros Hfin Hlast Hstats.
    rewrite <- Hlen, <- (statistics_url_expected final) in Hstats.
    rewrite Hwalk.
    rewrite (body_page_ok _ _ _ _ _ final Hopen' Hlist Hstats Hfin).
    unfold has_cursor in Hlast.
    destruct (pg_nextPageToken final) as [c |]; [discriminate Hlast |].
    cbn [fst snd]. rewrite flat_map_app. cbn [flat_map].
    rewrite app_nil_r, after_page_requests, after_page_allow, Hlog, Hall.
    rewrite playlist_url_expected, statistics_url_expected, <- app_assoc.
    repeat split; [| exact Hopen'].
    rewrite !length_app, <- (walk_requests_expected pre None),
      requests_of_pages_length.
    cbn [List.length]. lia.
  - intros Hids.
    rewrite Hwalk.
    rewrite (body_missing_id _ _ _ _ _ final Hopen' Hlist Hids).
    cbn [fst snd after_request requests].
    rewrite Hlog, playlist_url_expected, <- app_assoc.
    repeat split.
    rewrite !length_app, <- (walk_requests_expected _ None),
      requests_of_pages_length.
    cbn [List.length]. lia.
  - intros Hids Hover Hstats.
    rewrite <- Hlen, <- (statistics_url_expected final) in Hstats.
    rewrite Hwalk.
    rewrite (body_overflow _ _ _ _ _ final Hopen' Hlist Hstats Hids Hover).
    cbn [fst snd after_request requests].
    rewrite Hlog, Hall, playlist_url_expected, statistics_url_expected,
      <- !app_assoc.
    repeat split.
Qed.

(** C4 (what the code does): a page with a playlist entry that has no
    [videoId] makes the join of the ids raise [TypeError]; the run ends
    there, after the listing request and before any statistics
    request for that page. *)
Theorem missing_video_id_raises (pre : list Page) (p : Page) (extra : nat)
    (w : World) :
  api_request_allow w = true ->
  serves E (List.length (requests w)) pre ->
  forallb page_ok pre = true ->
  forallb has_cursor pre = true ->
  (forall u, answers (net E (List.length (requests w) + 2 * List.length pre) u)
                     (json_of_playlist_page p)) ->
  forallb has_videoId (entries p) = false ->
  let run := get_videos_list E playlist_id max_results api_key get_play_list_url
               get_videos_url (List.length pre + S extra) w in
  fst run = Exc TypeError
  /\ exit_status (fst run) = Some 1
  /\ requests (snd run)
     = (requests w ++ walk_requests "" pre
        ++ [list_url (token_after "" pre)])%list.
Proof.
  intros Hopen Hnet Hok Hcur Hlist Hids run.
  subst run. unfold get_videos_list. fold loop.
  rewrite (loop_through_pages pre (S extra) "" [] 0 w Hopen Hnet Hok Hcur).
  unfold loop. cbn [videos_loop]. fold body.
  assert (Hlen : List.length (requests (walk_world "" 0 pre w))
                 = (List.length (requests w) + 2 * List.length pre)%nat).
  { rewrite after_pages_requests, length_app, requests_of_pages_length.
    reflexivity. }
  rewrite <- Hlen in Hlist.
  rewrite (body_missing_id _ _ _ _ _ p
             (eq_trans (after_pages_allow pre "" 0 w) Hopen) (Hlist _) Hids).
  cbn [fst snd exit_status]. repeat split.
  unfold after_request. cbn [requests].
  rewrite after_pages_requests, <- !app_assoc. reflexivity.
Qed.

(** C7: the list returned is the concatenation, in fetch order, of the
    records of each page, and within a page the records follow the
    order of the page's entries: titles and links of the output are the
    titles and links of the entries, page after page, nothing moved. *)
Theorem output_in_page_then_item_order (pre : list Page) (final : Page)
    (extra : nat) (w : World) :
  api_request_allow w = true ->
  serves E (List.length (requests w)) (pre ++ [final]) ->
  forallb page_ok (pre ++ [final]) = true ->
  forallb has_cursor pre = true ->
  has_cursor final = false ->
  exists videos,
    fst (get_videos_list E playlist_id max_results api_key get_play_list_url
           get_videos_url (List.length pre + S extra) w) = Ok videos
    /\ videos = flat_map page_records (pre ++ [final])
    /\ map vr_title videos
       = flat_map (fun p => firstn (List.length (pg_statistics p))
                              (map (fun it => opt_json (pi_title it)) (entries p)))
           (pre ++ [final])
    /\ map vr_link videos
       = flat_map (fun p => firstn (List.length (pg_statistics p))
                              (map (fun it => youtube_link
                                              ++ py_str (opt_json (pi_videoId it)))
                                   (entries p)))
           (pre ++ [final]).
Proof.
  intros Hopen Hnet Hok Hcur Hlast.
  exists (flat_map page_records (pre ++ [final])).
  unfold get_videos_list. fold loop.
  rewrite (loop_finishes pre final extra "" [] 0 w Hopen Hnet Hok Hcur Hlast).
  cbn [fst app]. repeat split.
  - apply flat_map_field. reflexivity.
  - apply flat_map_field. reflexivity.
Qed.

(** C10: in a turn of the loop the records appended are as many as the
    items of the statistics response.  With no more statistics items
    than entries, the records are built from the leading entries and
    the trailing entries are left out without a word; with more, the
    turn indexes [title_buffer] past its end and raises [IndexError]. *)
Theorem records_follow_statistics_count
    (continue : string -> list VideoRecord -> Z -> M (list VideoRecord))
    (page_token : string) (acc : list VideoRecord) (total : Z) (w : World)
    (p : Page) :
  api_request_allow w = true ->
  answers (net E (List.length (requests w)) (list_url page_token))
          (json_of_playlist_page p) ->
  answers (net E (S (List.length (requests w))) (statistics_request p))
          (json_of_statistics_page p) ->
  forallb has_videoId (entries p) = true ->
  ((List.length (pg_statistics p) <= List.length (entries p))%nat ->
     exists appended,
       List.length appended = List.length (pg_statistics p)
       /\ appended
          = map (fun pair => record_of (fst pair) (snd pair))
              (combine (firstn (List.length (pg_statistics p)) (entries p))
                       (pg_statistics p))
       /\ body continue page_token acc total w
          = match pg_nextPageToken p with
            | Some c =>
                continue (next_token_url_part ++ c) (acc ++ appended)%list
                  (total + Z.of_nat (List.length (entries p)))
                  (page_world page_token p total w)
            | None => (Ok (acc ++ appended)%list, page_world page_token p total w)
            end)
  /\ ((List.length (entries p) < List.length (pg_statistics p))%nat ->
        fst (body continue page_token acc total w) = Exc IndexError).
Proof.
  intros Hopen Hlist Hstats Hids. split; intros Hlen.
  - exists (page_records p). split; [| split].
    + unfold page_records. rewrite length_map, length_combine. lia.
    + unfold page_records. f_equal. apply combine_firstn_r.
    + apply body_page_ok; try assumption.
      unfold page_ok. rewrite Hids. apply Nat.leb_le in Hlen. rewrite Hlen.
      reflexivity.
  - rewrite (body_overflow continue page_token acc total w p
               Hopen Hlist Hstats Hids Hlen).
    reflexivity.
Qed.

End Loop.

(** ** Witnesses of the statements about the loop *)

Lemma answers_ok_response (failures : list TransportError) (j : json) :
  answers (Answered failures (ok_response j)) j.
Proof.
  exists (ok_response j). split; [exists failures; reflexivity |].
  split; reflexivity.
Qed.

Lemma rejects_error_response (failures : list TransportError) (code : Z) :
  code <> 200 -> rejects (Answered failures (error_response code)).
Proof.
  intros Hcode. exists (error_response code).
  split; [exists failures; reflexivity | exact Hcode].
Qed.

Lemma nth_responses_of_pages (ps : list Page) (rest : list Response) (last : Response) :
  forall i p, nth_error ps i = Some p ->
    nth (2 * i) (responses_of_pages ps ++ rest) last
      = ok_response (json_of_playlist_page p)
    /\ nth (2 * i + 1) (responses_of_pages ps ++ rest) last
      = ok_response (json_of_statistics_page p).
Proof.
  induction ps as [| q ps IH]; intros [| i] p Hp; try discriminate Hp.
  - injection Hp as ->. split; reflexivity.
  - cbn [nth_error] in Hp.
    replace (2 * S i)%nat with (S (S (2 * i))) by lia.
    cbn [responses_of_pages flat_map app Nat.add nth].
    exact (IH i p Hp).
Qed.

Lemma script_serves (ps : list Page) (rest : list Response) (last : Response) :
  serves (script_env (responses_of_pages ps ++ rest) last) 0 ps.
Proof.
  intros i p Hp u.
  destruct (nth_responses_of_pages ps rest last i p Hp) as [Hlist Hstats].
  unfold script_env, script_net. cbn [net Nat.add].
  rewrite Hlist, Hstats. split; apply answers_ok_response.
Qed.

(** Page one is walked, the statistics request of page two is rejected:
    the records of page one come back. *)
Lemma statistics_rejection_truncates_witness :
  fst (get_videos_list rejected_statistics_env (JStr "UU") 50 "k"
         sample_playlist_url sample_videos_url 2 initial_world)
  = Ok (page_records page_one).
Proof.
  destruct (statistics_rejection_truncates rejected_statistics_env (JStr "UU") 50 "k"
              sample_playlist_url sample_videos_url [page_one] page_two 0
              initial_world) as (Hrun & _).
  - reflexivity.
  - apply (script_serves [page_one]).
  - reflexivity.
  - reflexivity.
  - intros u. apply answers_ok_response.
  - reflexivity.
  - intros u. apply rejects_error_response. discriminate.
  - exact Hrun.
Defined.

Lemma cursor_env_follows (second : Page) :
  follows_cursors (cursor_env second) (JStr "UU") 50 "k" sample_playlist_url
    sample_videos_url 0 None [page_one].
Proof.
  cbn [follows_cursors]. repeat split; apply answers_ok_response.
Qed.

(** Page one, then page two under the cursor of page one: two pages,
    four requests, three records.  Page three in the place of page two:
    [TypeError] after three requests. *)
Lemma pagination_terminates_witness :
  (fst (get_videos_list (cursor_env page_two) (JStr "UU") 50 "k"
          sample_playlist_url sample_videos_url 2 initial_world)
   = Ok (flat_map page_records [page_one; page_two])
   /\ List.length
        (requests (snd (get_videos_list (cursor_env page_two) (JStr "UU") 50 "k"
                          sample_playlist_url sample_videos_url 2
                          initial_world))) = 4%nat)
  /\ (fst (get_videos_list (cursor_env page_three) (JStr "UU") 50 "k"
             sample_playlist_url sample_videos_url 2 initial_world)
      = Exc TypeError
      /\ List.length
           (requests (snd (get_videos_list (cursor_env page_three) (JStr "UU")
                             50 "k" sample_playlist_url sample_videos_url 2
                             initial_world))) = 3%nat).
Proof.
  split.
  - destruct (pagination_terminates (cursor_env page_two) (JStr "UU") 50 "k"
                sample_playlist_url sample_videos_url [page_one] page_two 0
                initial_world eq_refl (cursor_env_follows page_two)
                eq_refl eq_refl (answers_ok_response [] _))
      as (Hdone & _ & _).
    destruct (Hdone eq_refl eq_refl (answers_ok_response [] _))
      as (Hrun & _ & Hcount & _).
    split; [exact Hrun | exact Hcount].
  - destruct (pagination_terminates (cursor_env page_three) (JStr "UU") 50 "k"
                sample_playlist_url sample_videos_url [page_one] page_three 0
                initial_world eq_refl (cursor_env_follows page_three)
                eq_refl eq_refl (answers_ok_response [] _))
      as (_ & Hfault & _).
    destruct (Hfault eq_refl) as (Hrun & _ & Hcount).
    split; [exact Hrun | exact Hcount].
Defined.

(** Page three, served after page one, has an entry without a video id. *)
Lemma missing_video_id_raises_witness :
  fst (get_videos_list missing_id_env (JStr "UU") 50 "k"
         sample_playlist_url sample_videos_url 2 initial_world)
  = Exc TypeError.
Proof.
  destruct (missing_video_id_raises missing_id_env (JStr "UU") 50 "k"
              sample_playlist_url sample_videos_url [page_one] page_three 0
              initial_world) as (Hrun & _).
  - reflexivity.
  - apply (script_serves [page_one]).
  - reflexivity.
  - reflexivity.
  - intros u. apply answers_ok_response.
  - reflexivity.
  - exact Hrun.
Defined.

(** The titles of the two sample pages come out in page-then-item order. *)
Lemma output_in_page_then_item_order_witness :
  exists videos,
    fst (get_videos_list two_pages_env (JStr "UU") 50 "k"
           sample_playlist_url sample_videos_url 2 initial_world) = Ok videos
    /\ map vr_title videos = [JStr "a"; JStr "b"; JStr "c"].
Proof.
  destruct (output_in_page_then_item_order two_pages_env (JStr "UU") 50 "k"
              sample_playlist_url sample_videos_url [page_one] page_two 0
              initial_world) as (videos & Hrun & _ & Htitles & _).
  - reflexivity.
  - apply (script_serves [page_one; page_two] []).
  - reflexivity.
  - reflexivity.
  - reflexivity.
  - exists videos. split; [exact Hrun | exact Htitles].
Defined.

(** Page four: two entries, one statistics item, one record. *)
Lemma records_follow_statistics_count_witness :
  exists appended,
    List.length appended = 1%nat
    /\ videos_body (script_env (responses_of_pages [page_four]) (error_response 403))
         (JStr "UU") 50 "k" sample_playlist_url sample_videos_url
         (fun _ _ _ => ret []) "" [] 0 initial_world
       = (Ok ([] ++ appended)%list,
          after_page (script_env (responses_of_pages [page_four]) (error_response 403))
            (JStr "UU") 50 "k" sample_playlist_url sample_videos_url
            "" page_four 0 initial_world).
Proof.
  destruct (records_follow_statistics_count
              (script_env (responses_of_pages [page_four]) (error_response 403))
              (JStr "UU") 50 "k" sample_playlist_url sample_videos_url
              (fun _ _ _ => ret []) "" [] 0 initial_world page_four)
    as (Hfewer & _).
  - reflexivity.
  - apply answers_ok_response.
  - apply answers_ok_response.
  - reflexivity.
  - destruct Hfewer as (appended & Hlen & _ & Hrun); [cbn; lia |].
    exists appended. split; [exact Hlen | exact Hrun].
Defined.

(** ** The publish time *)

(** Characters other than the two markers pass through unchanged. *)
Lemma normalize_passes (s rest : string) :
  contains_char "T" s = false ->
  contains_char "Z" s = false ->
  normalize_publish_time (s ++ rest) = s ++ normalize_publish_time rest.
Proof.
  unfold normalize_publish_time.
  induction s as [| a s IH]; intros HT HZ; [reflexivity |].
  cbn [contains_char] in HT, HZ.
  apply orb_false_elim in HT. destruct HT as [HaT HsT].
  apply orb_false_elim in HZ. destruct HZ as [HaZ HsZ].
  cbn [append py_replace]. rewrite HaT. cbn [py_replace]. rewrite HaZ.
  rewrite (IH HsT HsZ). reflexivity.
Qed.

Lemma normalize_timestamp (date time : string) :
  contains_char "T" date = false -> contains_char "Z" date = false ->
  contains_char "T" time = false -> contains_char "Z" time = false ->
  normalize_publish_time (date ++ "T" ++ time ++ "Z") = date ++ " " ++ time.
Proof.
  intros HdT HdZ HtT HtZ.
  rewrite (normalize_passes date _ HdT HdZ). f_equal.
  change ("T" ++ time ++ "Z") with (String "T" (time ++ "Z")).
  change (normalize_publish_time (String "T" (time ++ "Z")))
    with (String " " (normalize_publish_time (time ++ "Z"))).
  rewrite (normalize_passes time _ HtT HtZ).
  change (normalize_publish_time "Z") with "".
  rewrite append_empty_r. reflexivity.
Qed.

(** C8: the publish time of a record is the entry's [publishedAt] with
    the date/time separator turned into a space and the zone marker
    dropped, and it is [None], not a string, when the entry has no
    [publishedAt]. *)
Theorem publish_time_normalized :
  normalize_publish_time "2021-05-01T12:00:00Z" = "2021-05-01 12:00:00"
  /\ (forall date time,
        contains_char "T" date = false -> contains_char "Z" date = false ->
        contains_char "T" time = false -> contains_char "Z" time = false ->
        normalize_publish_time (date ++ "T" ++ time ++ "Z") = date ++ " " ++ time)
  /\ (forall (it : PlaylistItem) (st : Statistics) (total : Z),
        is_entry it = true ->
        exists buffers record,
          parse_item (json_of_item it) (empty_buffers total) = Ok buffers
          /\ publish_time_buffer buffers = [publish_time_of it]
          /\ zip_video buffers 0 (json_of_statistics st) = Ok record
          /\ vr_publish_time record = publish_time_of it
          /\ (pi_publishedAt it = None -> vr_publish_time record = JNull)).
Proof.
  split; [reflexivity |]. split; [exact normalize_timestamp |].
  intros it st total Hentry.
  exists (push_entry (empty_buffers total) it), (record_of it st).
  assert (Hholds : holds (push_entry (empty_buffers total) it) [it]).
  { apply (holds_push (empty_buffers total) [] it). repeat split; reflexivity. }
  split; [| split; [| split; [| split]]].
  - rewrite parse_item_encoded, Hentry. reflexivity.
  - unfold publish_time_of. cbn [push_entry publish_time_buffer empty_buffers app].
    destruct (pi_publishedAt it); reflexivity.
  - rewrite (zip_video_encoded _ [it] 0 st Hholds). reflexivity.
  - unfold publish_time_of. cbn [record_of vr_publish_time].
    destruct (pi_publishedAt it); reflexivity.
  - intros Hnone. cbn [record_of vr_publish_time]. rewrite Hnone. reflexivity.
Qed.

(** The sample timestamp by its parts, and an entry without
    [publishedAt]. *)
Lemma publish_time_normalized_witness :
  normalize_publish_time ("2021-05-01" ++ "T" ++ "12:00:00" ++ "Z")
  = "2021-05-01" ++ " " ++ "12:00:00"
  /\ exists buffers record,
       parse_item (json_of_item {| pi_kind := "youtube#playlistItem";
                                   pi_title := Some "e";
                                   pi_description := None;
                                   pi_publishedAt := None;
                                   pi_videoId := Some "v5" |})
         (empty_buffers 0) = Ok buffers
       /\ zip_video buffers 0 (json_of_statistics (sample_statistics "7")) = Ok record
       /\ vr_publish_time record = JNull.
Proof.
  destruct publish_time_normalized as (_ & Hshape & Hitem). split.
  - apply Hshape; reflexivity.
  - destruct (Hitem {| pi_kind := "youtube#playlistItem";
                       pi_title := Some "e";
                       pi_description := None;
                       pi_publishedAt := None;
                       pi_videoId := Some "v5" |}
                    (sample_statistics "7") 0 eq_refl)
      as (buffers & record & Hparse & _ & Hzip & _ & Hnull).
    exists buffers, record. repeat split; [exact Hparse | exact Hzip |].
    apply Hnull. reflexivity.
Defined.

(** ** The page size *)

(** C9: a page size outside (0, 50] is replaced by the default 50 and a
    warning is printed; a page size inside the range is left as it is
    and nothing is printed. *)
Theorem correct_args_clamps (E : Env) (args : Args) (z : Z) (w : World) :
  py_int E (maxr args) = Ok z ->
  ((z <= 0 \/ 50 < z) ->
     correct_args E args w = (Ok (with_default_maxr args), after_print maxr_warning w)
     /\ py_int E (maxr (with_default_maxr args)) = Ok 50)
  /\ (0 < z <= 50 -> correct_args E args w = (Ok args, w)).
Proof.
  intros Hint. unfold correct_args.
  rewrite (bind_lift_ok _ _ _ _ Hint). unfold default_max_results.
  split.
  - intros Hout.
    assert (Htest : (z <=? 0) || (50 <? z) = true).
    { apply orb_true_iff. destruct Hout as [H | H];
        [left; apply Z.leb_le | right; apply Z.ltb_lt]; exact H. }
    rewrite Htest. split; reflexivity.
  - intros [Hlow Hhigh].
    assert (Htest : (z <=? 0) || (50 <? z) = false).
    { apply orb_false_iff. split; [apply Z.leb_gt | apply Z.ltb_ge]; lia. }
    rewrite Htest. reflexivity.
Qed.

(** 200 is replaced by 50, 25 is kept. *)
Lemma correct_args_clamps_witness :
  correct_args two_pages_env
    {| url := "https://www.youtube.com/c/x"; key := "k"; out := "o";
       maxr := PyStr "200" |} initial_world
  = (Ok {| url := "https://www.youtube.com/c/x"; key := "k"; out := "o";
           maxr := PyInt 50 |},
     after_print maxr_warning initial_world)
  /\ correct_args two_pages_env
       {| url := "https://www.youtube.com/c/x"; key := "k"; out := "o";
          maxr := PyStr "25" |} initial_world
     = (Ok {| url := "https://www.youtube.com/c/x"; key := "k"; out := "o";
              maxr := PyStr "25" |},
        initial_world).
Proof.
  split.
  - apply (correct_args_clamps two_pages_env
             {| url := "https://www.youtube.com/c/x"; key := "k"; out := "o";
                maxr := PyStr "200" |} 200 initial_world eq_refl).
    right. lia.
  - apply (correct_args_clamps two_pages_env
             {| url := "https://www.youtube.com/c/x"; key := "k"; out := "o";
                maxr := PyStr "25" |} 25 initial_world eq_refl).
    lia.
Defined.

Example correct_args_zero :
  fst (correct_args two_pages_env
         {| url := "u"; key := "k"; out := "o"; maxr := PyInt 0 |} initial_world)
  = Ok {| url := "u"; key := "k"; out := "o"; maxr := PyInt 50 |}.
Proof. reflexivity. Qed.

Example correct_args_negative :
  fst (correct_args two_pages_env
         {| url := "u"; key := "k"; out := "o"; maxr := PyStr "-5" |} initial_world)
  = Ok {| url := "u"; key := "k"; out := "o"; maxr := PyInt 50 |}.
Proof. reflexivity. Qed.

(** ** The playlist resolver *)

(** C5 (what the code does): when the channel lookup answers with an
    empty [items] array, [fetch_channel_playlist_id] subscripts it with
    0 and dies of the uncaught [IndexError], not of a [sys.exit] with a
    message; when [items] is not empty the result is the uploads
    playlist of [items[0]]. *)
Theorem empty_items_is_an_index_fault (E : Env) (channel_url : string)
    (max_results : Z) (api_key : string) (w : World) (page : Response)
    (href : string) (j : json) :
  api_request_allow w = true ->
  answered_by (net E (List.length (requests w)) channel_url) page ->
  canonical_href E (text page) = Some href ->
  (forall u, answers (net E (S (List.length (requests w))) u) j) ->
  let run := fetch_channel_playlist_id E channel_url max_results api_key w in
  (py_getitem j "items" = Ok (JList []) ->
     fst run = Exc IndexError /\ forall msg, fst run <> Exc (SystemExit msg))
  /\ (forall first rest playlist,
        py_getitem j "items" = Ok (JList (first :: rest)) ->
        uploads_of first = Ok playlist ->
        fst run = Ok playlist).
Proof.
  intros Hopen Hpage Hhref Hnet run.
  assert (Hrun : run
                 = lift (let? items := py_getitem j "items" in
                         let? first := py_getitem0 items in
                         uploads_of first)
                     (after_request E
                        (channels_url (py_split_last "/" href "") max_results api_key)
                        (after_request E channel_url w))).
  { subst run. unfold fetch_channel_playlist_id, get_channel_id.
    unfold bind at 1. unfold bind at 1.
    rewrite (stubborn_request_answered E channel_url w page Hpage), Hhref.
    unfold ret at 1.
    destruct (Hnet (channels_url (py_split_last "/" href "") max_results api_key))
      as (r & Hby & Hcode & Hjson).
    rewrite <- (requests_after_request E channel_url w) in Hby.
    rewrite (bind_ok _ _ _ _ _
               (api_get_request_open_200 E _ true
                  (after_request E channel_url w) r Hopen Hby Hcode)).
    rewrite (response_json_answers _ _ _ _ Hjson). reflexivity. }
  rewrite Hrun. unfold lift. cbn [fst]. split.
  - intros Hitems. rewrite Hitems. cbn. split; [reflexivity | discriminate].
  - intros first rest playlist Hitems Huploads.
    rewrite Hitems. cbn [obind py_getitem0]. exact Huploads.
Qed.

(** The lookup answers with an empty [items]. *)
Lemma empty_items_is_an_index_fault_witness :
  fst (fetch_channel_playlist_id empty_channel_env
         "https://www.youtube.com/c/x" 50 "k" initial_world)
  = Exc IndexError.
Proof.
  destruct (empty_items_is_an_index_fault empty_channel_env
              "https://www.youtube.com/c/x" 50 "k" initial_world
              (ok_response JNull) ""
              (JDict [("items", JList [])])) as (Hempty & _).
  - reflexivity.
  - exists []. reflexivity.
  - reflexivity.
  - intros u. apply answers_ok_response.
  - exact (proj1 (Hempty eq_refl)).
Defined.

(** ** Validation of the output name *)







Example forbidden_name_run :
  main two_pages_env 1 slash_args initial_world
  = (Ok tt,
     {| api_request_allow := true;
        requests := ["https://www.youtube.com/c/x"; key_probe_url "k"];
        stdout := [nl ++ "Arguments validation..."; file_name_error];
        files := [] |}).
Proof. vm_compute. reflexivity. Qed.

(** ** A whole run

    Three videos on two pages, no rejection: the document written has
    the three records in page-then-item order. *)

Example whole_run_document :
  files (snd (main whole_run_env 5 whole_run_args initial_world))
  = [("out.json",
      Whole (JDict [("channel_title", JStr "Channel");
                    ("videos_number", JNum 3);
                    ("videos",
                     JList (map json_of_video
                              (flat_map page_records [page_one; page_two])))]))].
Proof. vm_compute. reflexivity. Qed.

Example whole_run_requests :
  requests (snd (main whole_run_env 5 whole_run_args initial_world))
  = ["https://www.youtube.com/c/x";
     key_probe_url "k";
     "https://www.youtube.com/c/x";
     channels_url "UCabc" 50 "k";
     "https://www.googleapis.com/youtube/v3/playlistItems?key=k&playlistId=UUabc&part=snippet,id,contentDetails&maxResults=50";
     "https://www.googleapis.com/youtube/v3/playlistItems?key=k&playlistId=UUabc&part=snippet,id,contentDetails&maxResults=50";
     "https://www.googleapis.com/youtube/v3/videos?key=k&maxResults=50&part=statistics&id=v1,v2";
     "https://www.googleapis.com/youtube/v3/playlistItems?key=k&playlistId=UUabc&part=snippet,id,contentDetails&maxResults=50&pageToken=CAUQAA";
     "https://www.googleapis.com/youtube/v3/videos?key=k&maxResults=50&part=statistics&id=v3"].
Proof. vm_compute. reflexivity. Qed.

Example statistics_overflow_run :
  fst (get_videos_list
         (script_env (responses_of_pages [page_five]) (error_response 403))
         (JStr "UU") 50 "k" sample_playlist_url sample_videos_url 5 initial_world)
  = Exc IndexError.
Proof. vm_compute. reflexivity. Qed.

(** The whole run on a disk where [json.dump] raises: the run ends with
    the exception and the file is left partial.  Where [open] raises,
    there is no file. *)
Example interrupted_dump_run :
  let run := main (whole_run_env_with_dump (DumpFails UnicodeEncodeError)) 5
               whole_run_args initial_world in
  fst run = Exc UnicodeEncodeError
  /\ files (snd run) = [("out.json", Partial)].
Proof. vm_compute. split; reflexivity. Qed.

Example failed_open_run :
  let run := main (whole_run_env_with_dump (OpenFails OSError)) 5
               whole_run_args initial_world in
  fst run = Exc OSError /\ files (snd run) = [].
Proof. vm_compute. split; reflexivity. Qed.

(** ** Frames of the requests and of the loop *)

Lemma frame_refl (w : World) : frame 0 w w.
Proof.
  repeat split.
  - exists []. rewrite app_nil_r. split; [reflexivity | apply le_n].
  - exists []. rewrite app_nil_r. reflexivity.
  - intros H. exact H.
Qed.

Lemma frame_weaken (n p : nat) (w w' : World) :
  (n <= p)%nat -> frame n w w' -> frame p w w'.
Proof.
  intros Hle ((more & Hreq & Hlen) & Hout & Hfiles & Hgate).
  repeat split; try assumption.
  exists more. split; [exact Hreq | lia].
Qed.

Lemma frame_trans (n m : nat) (w w1 w2 : World) :
  frame n w w1 -> frame m w1 w2 -> frame (n + m) w w2.
Proof.
  intros ((more1 & Hreq1 & Hlen1) & (lines1 & Hout1) & Hfiles1 & Hgate1)
         ((more2 & Hreq2 & Hlen2) & (lines2 & Hout2) & Hfiles2 & Hgate2).
  repeat split.
  - exists (more1 ++ more2)%list. split.
    + rewrite Hreq2, Hreq1, app_assoc. reflexivity.
    + rewrite length_app. lia.
  - exists (lines1 ++ lines2)%list. rewrite Hout2, Hout1, app_assoc. reflexivity.
  - rewrite Hfiles2. exact Hfiles1.
  - intros H. apply Hgate2, Hgate1, H.
Qed.

Lemma costs_ret {A} (a : A) : costs 0 (ret a).
Proof. intros w. apply frame_refl. Qed.

Lemma costs_raise {A} (e : pyexn) : costs 0 (raise (A := A) e).
Proof. intros w. apply frame_refl. Qed.

Lemma costs_lift {A} (o : Outcome A) : costs 0 (lift o).
Proof. intros w. apply frame_refl. Qed.

Lemma costs_print (line : string) : costs 0 (print line).
Proof.
  intros w. cbn [print snd]. repeat split; cbn.
  - exists []. rewrite app_nil_r. split; [reflexivity | apply le_n].
  - exists [line]. reflexivity.
  - intros H. exact H.
Qed.

Lemma costs_weaken {A} (n p : nat) (m : M A) :
  (n <= p)%nat -> costs n m -> costs p m.
Proof. intros Hle H w. apply (frame_weaken n p); [exact Hle | apply H]. Qed.

Lemma costs_bind {A B} (n k : nat) (m : M A) (f : A -> M B) :
  costs n m -> (forall a, costs k (f a)) -> costs (n + k) (bind m f).
Proof.
  intros Hm Hf w. unfold bind. specialize (Hm w).
  destruct (m w) as [[a | e |] w1]; cbn [snd] in *.
  - apply (frame_trans n k w w1); [exact Hm | apply Hf].
  - apply (frame_weaken n); [lia | exact Hm].
  - apply (frame_weaken n); [lia | exact Hm].
Qed.

Lemma costs_bind0 {A B} (p : nat) (m : M A) (f : A -> M B) :
  costs 0 m -> (forall a, costs p (f a)) -> costs p (bind m f).
Proof. intros Hm Hf. apply (costs_bind 0 p); assumption. Qed.

Lemma costs_bind1 {A B} (p : nat) (m : M A) (f : A -> M B) :
  costs 1 m -> (forall a, costs p (f a)) -> costs (S p) (bind m f).
Proof. intros Hm Hf. apply (costs_bind 1 p); assumption. Qed.

Lemma frame_after_request (E : Env) (u : string) (w : World) :
  frame 1 w (after_request E u w).
Proof.
  unfold after_request. repeat split; cbn.
  - exists [u]. split; [reflexivity | apply le_n].
  - eexists. reflexivity.
  - intros H. exact H.
Qed.

Lemma costs_stubborn_request (E : Env) (u : string) : costs 1 (stubborn_request E u).
Proof.
  intros w. destruct (net E (List.length (requests w)) u) as [failures r |] eqn:Hnet.
  - rewrite (stubborn_request_answered E u w r (ex_intro _ failures Hnet)).
    apply frame_after_request.
  - rewrite (stubborn_request_unanswered E u w Hnet).
    apply (frame_weaken 0); [lia | apply frame_refl].
Qed.

Lemma frame_after_rejection (E : Env) (u : string) (w : World) :
  frame 1 w (after_rejection E u w).
Proof.
  unfold after_rejection. repeat split; cbn.
  - exists [u]. split; [reflexivity | apply le_n].
  - eexists. rewrite <- app_assoc. reflexivity.
Qed.

Lemma costs_api_get_request (E : Env) (u : string) (exit_if_not : bool) :
  costs 1 (api_get_request E u exit_if_not).
Proof.
  intros w. destruct (api_request_allow w) eqn:Hgate.
  - destruct (net E (List.length (requests w)) u) as [failures r |] eqn:Hnet.
    + destruct (Z.eq_dec (status_code r) 200) as [Hcode | Hcode].
      * rewrite (api_get_request_open_200 E u exit_if_not w r Hgate
                   (ex_intro _ failures Hnet) Hcode).
        apply frame_after_request.
      * rewrite (api_get_request_open_rejected E u exit_if_not w Hgate
                   (ex_intro _ r (conj (ex_intro _ failures Hnet) Hcode))).
        apply frame_after_rejection.
    + rewrite (api_get_request_unanswered E u exit_if_not w Hgate Hnet).
      apply (frame_weaken 0); [lia | apply frame_refl].
  - rewrite (api_get_request_closed E u exit_if_not w Hgate). cbn [snd].
    repeat split; cbn.
    + exists []. rewrite app_nil_r. split; [reflexivity | apply le_S, le_n].
    + eexists. reflexivity.
Qed.

Lemma costs_response_json (r : ApiResult) : costs 0 (response_json r).
Proof.
  destruct r as [r | |]; cbn [response_json];
    [destruct (json_body r) |..]; intros w; apply frame_refl.
Qed.

Lemma costs_videos_body (E : Env) (playlist_id : json) (max_results : Z)
    (api_key get_play_list_url get_videos_url : string) (c : nat)
    (continue : string -> list VideoRecord -> Z -> M (list VideoRecord))
    (page_token : string) (acc : list VideoRecord) (total : Z) :
  (forall t a n, costs c (continue t a n)) ->
  costs (S (S c))
    (videos_body E playlist_id max_results api_key get_play_list_url
       get_videos_url continue page_token acc total).
Proof.
  intros Hcontinue. unfold videos_body.
  apply costs_bind1; [apply costs_api_get_request |]. intros response.
  destruct (is_False response);
    [apply (costs_weaken 0); [lia | apply costs_ret] |].
  apply costs_bind0; [apply costs_response_json |]. intros json_response.
  apply costs_bind0; [apply costs_lift |]. intros buffers.
  apply costs_bind0; [apply costs_lift |]. intros videos_id_str.
  apply costs_bind1; [apply costs_api_get_request |]. intros statistics_response.
  destruct (is_False statistics_response);
    [apply (costs_weaken 0); [lia | apply costs_ret] |].
  apply costs_bind0; [apply costs_response_json |]. intros statistics_json.
  apply costs_bind0; [apply costs_lift |]. intros videos_list'.
  apply costs_bind0; [apply costs_print |]. intros _.
  apply costs_bind0; [apply costs_lift |]. intros has_next.
  destruct has_next.
  - apply costs_bind0; [apply costs_lift |]. intros page_token'.
    apply Hcontinue.
  - apply (costs_weaken 0); [lia | apply costs_ret].
Qed.

Lemma costs_videos_loop (E : Env) (playlist_id : json) (max_results : Z)
    (api_key get_play_list_url get_videos_url : string) (fuel : nat) :
  forall page_token acc total,
    costs (2 * fuel)
      (videos_loop E playlist_id max_results api_key get_play_list_url
         get_videos_url fuel page_token acc total).
Proof.
  induction fuel as [| fuel IH]; intros page_token acc total.
  - intros w. apply frame_refl.
  - replace (2 * S fuel)%nat with (S (S (2 * fuel))) by lia.
    cbn [videos_loop]. apply costs_videos_body. exact IH.
Qed.

(** X1: with the gate closed [api_get_request] sends nothing: the log
    is unchanged, the gate stays closed, the error line is printed, and
    the caller gets [False] (or the run exits, when asked to). *)
Theorem closed_gate_sends_nothing (E : Env) (u : string) (exit_if_not : bool)
    (w : World) :
  api_request_allow w = false ->
  let run := api_get_request E u exit_if_not w in
  requests (snd run) = requests w
  /\ api_request_allow (snd run) = false
  /\ stdout (snd run) = (stdout w ++ [api_error_message])%list
  /\ fst run = (if exit_if_not then Exc (SystemExit "exit") else Ok PyFalse).
Proof.
  intros Hclosed run. subst run.
  rewrite (api_get_request_closed E u exit_if_not w Hclosed).
  repeat split.
Qed.

Lemma closed_gate_sends_nothing_witness :
  requests (snd (api_get_request two_pages_env "u" false
                   (after_rejection two_pages_env "t" initial_world)))
  = ["t"].
Proof.
  destruct (closed_gate_sends_nothing two_pages_env "u" false
              (after_rejection two_pages_env "t" initial_world) eq_refl)
    as (Hrequests & _).
  exact Hrequests.
Defined.

(** X2: whatever the remote side answers, a run of [get_videos_list]
    over [fuel] turns only appends to the request log, at most two
    requests a turn, only appends to the output, writes no file, and
    never reopens a closed gate. *)
Theorem get_videos_list_frame (E : Env) (playlist_id : json) (max_results : Z)
    (api_key get_play_list_url get_videos_url : string) (fuel : nat) (w : World) :
  let w' := snd (get_videos_list E playlist_id max_results api_key
                   get_play_list_url get_videos_url fuel w) in
  (exists more, requests w' = (requests w ++ more)%list
                /\ (List.length more <= 2 * fuel)%nat)
  /\ (exists lines, stdout w' = (stdout w ++ lines)%list)
  /\ files w' = files w
  /\ (api_request_allow w = false -> api_request_allow w' = false).
Proof.
  exact (costs_videos_loop E playlist_id max_results api_key get_play_list_url
           get_videos_url fuel "" [] 0 w).
Qed.

(** X3: entered with the gate closed, [get_videos_list] returns the
    empty list at once, without a request. *)
Theorem closed_gate_returns_empty (E : Env) (playlist_id : json) (max_results : Z)
    (api_key get_play_list_url get_videos_url : string) (fuel : nat) (w : World) :
  api_request_allow w = false ->
  let run := get_videos_list E playlist_id max_results api_key get_play_list_url
               get_videos_url (S fuel) w in
  fst run = Ok [] /\ requests (snd run) = requests w.
Proof.
  intros Hclosed run. subst run.
  unfold get_videos_list. cbn [videos_loop]. unfold videos_body.
  rewrite (bind_ok _ _ _ _ _ (api_get_request_closed E _ false w Hclosed)).
  split; reflexivity.
Qed.

Lemma closed_gate_returns_empty_witness :
  fst (get_videos_list two_pages_env (JStr "UU") 50 "k" sample_playlist_url
         sample_videos_url 1 (after_rejection two_pages_env "t" initial_world))
  = Ok [].
Proof.
  destruct (closed_gate_returns_empty two_pages_env (JStr "UU") 50 "k"
              sample_playlist_url sample_videos_url 0
              (after_rejection two_pages_env "t" initial_world) eq_refl)
    as (Hrun & _).
  exact Hrun.
Defined.

(** X4: when the listing request of page k is rejected, the loop stops
    there: it returns the records of pages 1..k-1, the gate is closed,
    and no statistics request is made for page k. *)
Theorem listing_rejection_truncates (E : Env) (playlist_id : json)
    (max_results : Z) (api_key get_play_list_url get_videos_url : string)
    (pre : list Page) (extra : nat) (w : World) :
  api_request_allow w = true ->
  serves E (List.length (requests w)) pre ->
  forallb page_ok pre = true ->
  forallb has_cursor pre = true ->
  (forall u, rejects (net E (List.length (requests w) + 2 * List.length pre) u)) ->
  let run := get_videos_list E playlist_id max_results api_key get_play_list_url
               get_videos_url (List.length pre + S extra) w in
  fst run = Ok (flat_map page_records pre)
  /\ api_request_allow (snd run) = false
  /\ requests (snd run)
     = (requests w
        ++ requests_of_pages playlist_id max_results api_key get_play_list_url
             get_videos_url "" pre
        ++ [playlist_url playlist_id max_results api_key get_play_list_url
              (token_after "" pre)])%list.
Proof.
  intros Hopen Hnet Hok Hcur Hcode run. subst run.
  unfold get_videos_list.
  rewrite (loop_through_pages E playlist_id max_results api_key get_play_list_url
             get_videos_url pre (S extra) "" [] 0 w Hopen Hnet Hok Hcur).
  cbn [videos_loop]. unfold videos_body.
  assert (Hlen : List.length
                   (requests (after_pages E playlist_id max_results api_key
                                get_play_list_url get_videos_url "" 0 pre w))
                 = (List.length (requests w) + 2 * List.length pre)%nat).
  { rewrite after_pages_requests, length_app, requests_of_pages_length.
    reflexivity. }
  rewrite <- Hlen in Hcode.
  rewrite (bind_ok _ _ _ _ _
             (api_get_request_open_rejected E _ false _
                (eq_trans (after_pages_allow E playlist_id max_results api_key
                             get_play_list_url get_videos_url pre "" 0 w) Hopen)
                (Hcode _))).
  cbn [is_False ret fst snd]. repeat split.
  unfold after_rejection. cbn [requests].
  rewrite after_pages_requests, <- app_assoc. reflexivity.
Qed.

Lemma listing_rejection_truncates_witness :
  fst (get_videos_list rejected_listing_env (JStr "UU") 50 "k"
         sample_playlist_url sample_videos_url 2 initial_world)
  = Ok (page_records page_one).
Proof.
  destruct (listing_rejection_truncates rejected_listing_env (JStr "UU") 50 "k"
              sample_playlist_url sample_videos_url [page_one] 0 initial_world)
    as (Hrun & _).
  - reflexivity.
  - apply (script_serves [page_one] []).
  - reflexivity.
  - reflexivity.
  - intros u. apply rejects_error_response. discriminate.
  - exact Hrun.
Defined.

(** ** The buffers on any payload *)

Ltac step_outcome H :=
  match type of H with
  | obind ?o _ = Ok _ =>
      let Ho := fresh "Ho" in
      destruct o eqn:Ho; cbn [obind] in H; [| discriminate H | discriminate H]
  end.

(** An item either leaves the buffers as they are or adds one element
    to each. *)
Lemma parse_item_shape (item : json) (b b' : Buffers) :
  parse_item item b = Ok b' ->
  b' = b
  \/ exists title description video_id publish_time,
       b' = {| title_buffer := title_buffer b ++ [title];
               description_buffer := description_buffer b ++ [description];
               video_id_buffer := video_id_buffer b ++ [video_id];
               publish_time_buffer := publish_time_buffer b ++ [publish_time];
               total_counter := total_counter b + 1 |}.
Proof.
  unfold parse_item. intros H.
  step_outcome H.
  destruct (is_str "youtube#playlistItem" a).
  - do 7 step_outcome H. injection H as <-. right. eauto.
  - injection H as <-. left. reflexivity.
Qed.

(** X5: on any payload, if the items of a page are parsed without an
    exception the four buffers still have equal lengths; they and
    [total_counter] have grown by the same number, at most the number
    of items. *)
Theorem buffers_stay_aligned (items : list json) (b b' : Buffers) (n : nat) :
  aligned b n ->
  parse_items items b = Ok b' ->
  exists k, (k <= List.length items)%nat
            /\ aligned b' (n + k)
            /\ total_counter b' = total_counter b + Z.of_nat k.
Proof.
  revert b n. induction items as [| item items IH]; intros b n Hb Hparse.
  - cbn in Hparse. injection Hparse as <-. exists 0%nat.
    rewrite Nat.add_0_r. repeat split; try apply Hb; cbn; lia.
  - cbn [parse_items] in Hparse. step_outcome Hparse.
    destruct (parse_item_shape item b a Ho) as [-> | (t & d & v & p & ->)].
    + destruct (IH b n Hb Hparse) as (k & Hk & Hal & Hcount).
      exists k. cbn [List.length]. repeat split; try apply Hal; try lia.
    + assert (Hb1 : aligned
                      {| title_buffer := title_buffer b ++ [t];
                         description_buffer := description_buffer b ++ [d];
                         video_id_buffer := video_id_buffer b ++ [v];
                         publish_time_buffer := publish_time_buffer b ++ [p];
                         total_counter := total_counter b + 1 |} (S n)).
      { destruct Hb as (H1 & H2 & H3 & H4). unfold aligned. cbn.
        rewrite !length_app, H1, H2, H3, H4. cbn. repeat split; lia. }
      destruct (IH _ (S n) Hb1 Hparse) as (k & Hk & Hal & Hcount).
      exists (S k). cbn [List.length total_counter] in *.
      replace (n + S k)%nat with (S n + k)%nat by lia.
      repeat split; try apply Hal; lia.
Qed.

Lemma buffers_stay_aligned_witness :
  exists k, (k <= 2)%nat
            /\ aligned (fold_left push_entry [sample_item "a" "v1"] (empty_buffers 0))
                 (0 + k).
Proof.
  destruct (buffers_stay_aligned
              [json_of_item (sample_item "a" "v1"); JDict [("kind", JStr "other")]]
              (empty_buffers 0)
              (fold_left push_entry [sample_item "a" "v1"] (empty_buffers 0))
              0) as (k & Hk & Hal & _).
  - repeat split.
  - reflexivity.
  - exists k. split; [exact Hk | exact Hal].
Defined.

(** A record is read off position [i] of the buffers. *)
Lemma zip_video_shape (b : Buffers) (i : nat) (video : json) (r : VideoRecord) :
  zip_video b i video = Ok r ->
  nth_error (title_buffer b) i = Some (vr_title r)
  /\ nth_error (description_buffer b) i = Some (vr_description r)
  /\ nth_error (publish_time_buffer b) i = Some (vr_publish_time r)
  /\ exists video_id, nth_error (video_id_buffer b) i = Some video_id
                      /\ vr_link r = youtube_link ++ py_str video_id.
Proof.
  unfold zip_video. intros H. do 8 step_outcome H. injection H as <-.
  unfold py_index in *.
  destruct (nth_error (title_buffer b) i); [| discriminate].
  destruct (nth_error (description_buffer b) i); [| discriminate].
  destruct (nth_error (publish_time_buffer b) i); [| discriminate].
  destruct (nth_error (video_id_buffer b) i); [| discriminate].
  repeat match goal with H : Ok _ = Ok _ |- _ => injection H as -> end.
  cbn. repeat split. eauto.
Qed.

(** X6: on any payload, a statistics loop that ends without an
    exception has kept every record it started with, in place, and has
    appended one record for each statistics item; the j-th of them is
    read off position j of the buffers, which therefore reach at least
    as far as the statistics items do. *)
Theorem zip_statistics_appends (b : Buffers) (videos : list json) :
  forall (i : nat) (acc out : list VideoRecord),
    zip_statistics b i videos acc = Ok out ->
    exists new,
      out = (acc ++ new)%list
      /\ List.length new = List.length videos
      /\ (videos <> [] ->
          (i + List.length videos <= List.length (title_buffer b))%nat)
      /\ forall j r, nth_error new j = Some r ->
           nth_error (title_buffer b) (i + j) = Some (vr_title r)
           /\ nth_error (description_buffer b) (i + j) = Some (vr_description r)
           /\ nth_error (publish_time_buffer b) (i + j) = Some (vr_publish_time r)
           /\ exists video_id,
                nth_error (video_id_buffer b) (i + j) = Some video_id
                /\ vr_link r = youtube_link ++ py_str video_id.
Proof.
  induction videos as [| video videos IH]; intros i acc out H.
  - cbn in H. injection H as <-. exists []. rewrite app_nil_r.
    repeat split.
    + intros Hne. contradiction Hne. reflexivity.
    + destruct j; discriminate.
    + destruct j; discriminate.
    + destruct j; discriminate.
    + destruct j; discriminate.
  - cbn [zip_statistics] in H. step_outcome H.
    destruct (IH (S i) _ out H) as (new & Hout & Hlen & Hreach & Hpos).
    pose proof (zip_video_shape b i video a Ho) as Hshape.
    exists (a :: new). split; [| split; [| split]].
    + rewrite Hout, <- app_assoc. reflexivity.
    + cbn [List.length]. rewrite Hlen. reflexivity.
    + intros _. cbn [List.length]. destruct videos as [| video' videos].
      * destruct Hshape as (Ht & _).
        assert (i < List.length (title_buffer b))%nat
          by (apply nth_error_Some; rewrite Ht; discriminate).
        cbn. lia.
      * assert (Hne : video' :: videos <> []) by discriminate.
        specialize (Hreach Hne). cbn [List.length] in *. lia.
    + intros [| j] r Hr.
      * injection Hr as <-. rewrite Nat.add_0_r. exact Hshape.
      * cbn [nth_error] in Hr.
        replace (i + S j)%nat with (S i + j)%nat by lia.
        exact (Hpos j r Hr).
Qed.

Lemma zip_statistics_appends_witness :
  exists new,
    page_records page_four = ([] ++ new)%list /\ List.length new = 1%nat.
Proof.
  destruct (zip_statistics_appends
              (fold_left push_entry (entries page_four) (empty_buffers 0))
              (map json_of_statistics (pg_statistics page_four))
              0 [] (page_records page_four) eq_refl)
    as (new & Hout & Hlen & _).
  exists new. split; [exact Hout | exact Hlen].
Defined.

(** ** The channel id, the playlist id and the summary *)

Lemma contains_char_app (c : ascii) (a b : string) :
  contains_char c (a ++ b) = contains_char c a || contains_char c b.
Proof.
  induction a as [| x a IH]; cbn; [reflexivity |].
  rewrite IH, orb_assoc. reflexivity.
Qed.

(** [s.split(c)[-1]] is free of [c], and what stands before it in [s]
    is empty or ends with [c]. *)
Lemma py_split_last_spec (c : ascii) (s : string) :
  forall cur,
    contains_char c cur = false ->
    contains_char c (py_split_last c s cur) = false
    /\ exists pre,
         cur ++ s = pre ++ py_split_last c s cur
         /\ (pre = "" \/ exists pre', pre = pre' ++ String c "").
Proof.
  induction s as [| a s IH]; intros cur Hcur.
  - cbn [py_split_last]. split; [exact Hcur |].
    exists "". split; [apply append_empty_r | left; reflexivity].
  - cbn [py_split_last]. destruct (Ascii.eqb_spec a c) as [-> | Hne].
    + destruct (IH "" eq_refl) as (Hfree & pre0 & Hsplit & Hend).
      split; [exact Hfree |].
      exists (cur ++ String c pre0). split.
      * rewrite append_assoc. cbn [append]. rewrite <- Hsplit. reflexivity.
      * right. destruct Hend as [-> | (pre' & ->)].
        -- exists cur. reflexivity.
        -- exists (cur ++ String c pre'). rewrite append_assoc. reflexivity.
    + assert (Hcur' : contains_char c (cur ++ String a "") = false).
      { rewrite contains_char_app, Hcur. cbn.
        destruct (Ascii.eqb_spec a c); [contradiction | reflexivity]. }
      destruct (IH _ Hcur') as (Hfree & pre & Hsplit & Hend).
      split; [exact Hfree |].
      exists pre. split; [| exact Hend].
      rewrite <- Hsplit, append_assoc. reflexivity.
Qed.

Lemma get_channel_id_value (E : Env) (channel_url : string) (w : World)
    (page : Response) :
  answered_by (net E (List.length (requests w)) channel_url) page ->
  get_channel_id E channel_url w
  = (match canonical_href E (text page) with
     | Some href => Ok (py_split_last "/" href "")
     | None => Exc (SystemExit parse_failure)
     end,
     after_request E channel_url w).
Proof.
  intros Hpage. unfold get_channel_id, bind.
  rewrite (stubborn_request_answered E channel_url w page Hpage).
  destruct (canonical_href E _); reflexivity.
Qed.

Lemma get_channel_id_unanswered (E : Env) (channel_url : string) (w : World) :
  net E (List.length (requests w)) channel_url = Unanswered ->
  get_channel_id E channel_url w = (OutOfFuel, w).
Proof.
  intros Hnet. unfold get_channel_id, bind.
  rewrite (stubborn_request_unanswered E channel_url w Hnet). reflexivity.
Qed.

(** X7: [get_channel_id] sends one request, outside the gate.  When
    the request is answered and the canonical link is found in the
    page, the id it returns is the last path segment of the link: it
    holds no slash, and what precedes it in the link is empty or ends
    with a slash.  When the lookup fails, the run exits with the parse
    message.  When the request is never answered the call does not
    return, and the world is as it was. *)
Theorem channel_id_is_last_segment (E : Env) (channel_url : string) (w : World) :
  let run := get_channel_id E channel_url w in
  match net E (List.length (requests w)) channel_url with
  | Answered _ page =>
      snd run = after_request E channel_url w
      /\ match canonical_href E (text page) with
         | Some href =>
             exists channel_id pre,
               fst run = Ok channel_id
               /\ contains_char "/" channel_id = false
               /\ href = pre ++ channel_id
               /\ (pre = "" \/ exists pre', pre = pre' ++ "/")
         | None => fst run = Exc (SystemExit parse_failure)
         end
  | Unanswered => run = (OutOfFuel, w)
  end.
Proof.
  intros run. subst run.
  destruct (net E (List.length (requests w)) channel_url)
    as [failures page |] eqn:Hnet.
  - rewrite (get_channel_id_value E channel_url w page (ex_intro _ failures Hnet)).
    cbn [fst snd].
    split; [reflexivity |].
    destruct (canonical_href E _) as [href |]; [| reflexivity].
    destruct (py_split_last_spec "/" href "" eq_refl) as (Hfree & pre & Hsplit & Hend).
    exists (py_split_last "/" href ""), pre.
    repeat split; assumption.
  - apply get_channel_id_unanswered, Hnet.
Qed.

Lemma fetch_channel_playlist_id_answered (E : Env) (channel_url : string)
    (max_results : Z) (api_key : string) (w : World) (page : Response)
    (href : string) (j : json) :
  api_request_allow w = true ->
  answered_by (net E (List.length (requests w)) channel_url) page ->
  canonical_href E (text page) = Some href ->
  answers (net E (S (List.length (requests w)))
                  (channels_url (py_split_last "/" href "") max_results api_key))
          j ->
  fetch_channel_playlist_id E channel_url max_results api_key w
  = lift (let? items := py_getitem j "items" in
          let? first := py_getitem0 items in
          uploads_of first)
      (after_request E
         (channels_url (py_split_last "/" href "") max_results api_key)
         (after_request E channel_url w)).
Proof.
  intros Hopen Hpage Hhref (r & Hby & Hcode & Hjson).
  unfold fetch_channel_playlist_id.
  unfold bind at 1.
  rewrite (get_channel_id_value E channel_url w page Hpage), Hhref.
  rewrite <- (requests_after_request E channel_url w) in Hby.
  rewrite (bind_ok _ _ _ _ _
             (api_get_request_open_200 E _ true
                (after_request E channel_url w) r Hopen Hby Hcode)).
  rewrite (response_json_answers _ _ _ _ Hjson). reflexivity.
Qed.

(** X8: the ways the playlist resolver ends a run early.  When the page
    request is answered but the page has no canonical link, the run
    exits with the parse message after that request, the gate still
    open; with a link but a rejected lookup the run exits through the
    gate, which is closed, after two requests.  When the page request is
    never answered the resolver does not return and the world is as it
    was. *)
Theorem playlist_resolver_fails_fast (E : Env) (channel_url : string)
    (max_results : Z) (api_key : string) (w : World) :
  api_request_allow w = true ->
  let run := fetch_channel_playlist_id E channel_url max_results api_key w in
  match net E (List.length (requests w)) channel_url with
  | Answered _ page =>
      match canonical_href E (text page) with
      | None =>
          run = (Exc (SystemExit parse_failure), after_request E channel_url w)
      | Some href =>
          rejects (net E (S (List.length (requests w)))
                    (channels_url (py_split_last "/" href "") max_results api_key)) ->
          run = (Exc (SystemExit "exit"),
                 after_rejection E
                   (channels_url (py_split_last "/" href "") max_results api_key)
                   (after_request E channel_url w))
      end
  | Unanswered => run = (OutOfFuel, w)
  end.
Proof.
  intros Hopen run. subst run.
  destruct (net E (List.length (requests w)) channel_url)
    as [failures page |] eqn:Hnet.
  - pose proof (get_channel_id_value E channel_url w page
                  (ex_intro _ failures Hnet)) as Hid.
    destruct (canonical_href E (text page)) as [href |] eqn:Hhref.
    + intros Hcode.
      unfold fetch_channel_playlist_id. unfold bind at 1.
      rewrite Hid.
      rewrite <- (requests_after_request E channel_url w) in Hcode.
      rewrite (bind_exc _ _ _ _ _
                 (api_get_request_open_rejected E _ true
                    (after_request E channel_url w) Hopen Hcode)).
      reflexivity.
    + unfold fetch_channel_playlist_id. unfold bind at 1.
      rewrite Hid. reflexivity.
  - unfold fetch_channel_playlist_id. unfold bind at 1.
    rewrite (get_channel_id_unanswered E channel_url w Hnet). reflexivity.
Qed.

Lemma playlist_resolver_fails_fast_witness :
  fetch_channel_playlist_id rejected_lookup_env "https://www.youtube.com/c/x"
    50 "k" initial_world
  = (Exc (SystemExit "exit"),
     after_rejection rejected_lookup_env (channels_url "UCabc" 50 "k")
       (after_request rejected_lookup_env "https://www.youtube.com/c/x"
          initial_world))
  /\ fetch_channel_playlist_id no_canonical_env "https://www.youtube.com/c/x"
       50 "k" initial_world
     = (Exc (SystemExit parse_failure),
        after_request no_canonical_env "https://www.youtube.com/c/x"
          initial_world).
Proof.
  split.
  - apply (playlist_resolver_fails_fast rejected_lookup_env
             "https://www.youtube.com/c/x" 50 "k" initial_world eq_refl).
    apply rejects_error_response. discriminate.
  - exact (playlist_resolver_fails_fast no_canonical_env
             "https://www.youtube.com/c/x" 50 "k" initial_world eq_refl).
Defined.

Lemma fetch_channel_data_answered (E : Env) (playlist_id : json) (max_results : Z)
    (api_key get_play_list_url : string) (w : World) (j : json) :
  api_request_allow w = true ->
  answers (net E (List.length (requests w))
                  (summary_url playlist_id max_results api_key get_play_list_url))
          j ->
  fetch_channel_data E playlist_id max_results api_key get_play_list_url w
  = (let? channel_title := summary_title j in
     let? videos_number := summary_count j in
     Ok (channel_title, videos_number),
     after_request E
       (summary_url playlist_id max_results api_key get_play_list_url) w).
Proof.
  intros Hopen (r & Hby & Hcode & Hjson).
  unfold fetch_channel_data. fold (summary_url playlist_id max_results api_key
                                     get_play_list_url).
  rewrite (bind_ok _ _ _ _ _ (api_get_request_open_200 E _ true w r Hopen Hby Hcode)).
  rewrite (response_json_answers _ _ _ _ Hjson).
  fold (summary_title j). fold (summary_count j).
  unfold bind, lift.
  destruct (summary_title j); [| reflexivity | reflexivity].
  destruct (summary_count j); reflexivity.
Qed.

(** X9: the channel summary of an answered request.  An empty [items]
    array gives the title [None], without subscripting the array; a
    non-empty one gives [items[0]["snippet"]["channelTitle"]], or the
    [KeyError] of a missing key.  The count is
    [pageInfo.totalResults] as received.  One request was sent and the
    gate is still open. *)
Theorem channel_summary (E : Env) (playlist_id : json) (max_results : Z)
    (api_key get_play_list_url : string) (w : World) (j : json)
    (items : list json) (number : json) :
  api_request_allow w = true ->
  answers (net E (List.length (requests w))
                  (summary_url playlist_id max_results api_key get_play_list_url))
          j ->
  py_getitem j "items" = Ok (JList items) ->
  summary_count j = Ok number ->
  let run := fetch_channel_data E playlist_id max_results api_key
               get_play_list_url w in
  fst run
  = match items with
    | [] => Ok (JNull, number)
    | first :: _ =>
        let? snippet := py_getitem first "snippet" in
        let? channel_title := py_getitem snippet "channelTitle" in
        Ok (channel_title, number)
    end
  /\ requests (snd run)
     = (requests w
        ++ [summary_url playlist_id max_results api_key get_play_list_url])%list
  /\ api_request_allow (snd run) = true.
Proof.
  intros Hopen Hnet Hitems Hcount run. subst run.
  rewrite (fetch_channel_data_answered E playlist_id max_results api_key
             get_play_list_url w j Hopen Hnet).
  cbn [fst snd after_request requests api_request_allow].
  repeat split; [| exact Hopen].
  unfold summary_title. rewrite Hitems, Hcount. cbn [obind py_len].
  destruct items as [| first rest]; [reflexivity |].
  replace (negb (Z.of_nat (List.length (first :: rest)) =? 0)) with true
    by (symmetry; apply negb_true_iff, Z.eqb_neq; cbn [List.length]; lia).
  cbn [py_getitem0 obind].
  destruct (py_getitem first "snippet") as [snippet | |]; cbn [obind];
    [| reflexivity | reflexivity].
  destruct (py_getitem snippet "channelTitle"); reflexivity.
Qed.

Lemma channel_summary_witness :
  fst (fetch_channel_data (script_env [empty_summary_response] (error_response 403))
         (JStr "UUabc") 50 "k" playlist_items_url initial_world)
  = Ok (JNull, JNum 0).
Proof.
  destruct (channel_summary (script_env [empty_summary_response] (error_response 403))
              (JStr "UUabc") 50 "k" playlist_items_url initial_world
              (JDict [("items", JList []);
                      ("pageInfo", JDict [("totalResults", JNum 0)])])
              [] (JNum 0)) as (Hrun & _).
  - reflexivity.
  - apply answers_ok_response.
  - reflexivity.
  - reflexivity.
  - exact Hrun.
Defined.

(** X10: a rejected summary request is fatal: the gate closes, the
    error line is printed and the run exits with status 1. *)
Theorem summary_rejection_is_fatal (E : Env) (playlist_id : json) (max_results : Z)
    (api_key get_play_list_url : string) (w : World) :
  api_request_allow w = true ->
  rejects (net E (List.length (requests w))
            (summary_url playlist_id max_results api_key get_play_list_url)) ->
  let run := fetch_channel_data E playlist_id max_results api_key
               get_play_list_url w in
  fst run = Exc (SystemExit "exit")
  /\ exit_status (fst run) = Some 1
  /\ snd run = after_rejection E
                 (summary_url playlist_id max_results api_key get_play_list_url) w.
Proof.
  intros Hopen Hcode run. subst run.
  unfold fetch_channel_data. fold (summary_url playlist_id max_results api_key
                                     get_play_list_url).
  rewrite (bind_exc _ _ _ _ _
             (api_get_request_open_rejected E _ true w Hopen Hcode)).
  repeat split.
Qed.

Lemma summary_rejection_is_fatal_witness :
  fst (fetch_channel_data (script_env [] (error_response 403))
         (JStr "UUabc") 50 "k" playlist_items_url initial_world)
  = Exc (SystemExit "exit").
Proof.
  destruct (summary_rejection_is_fatal (script_env [] (error_response 403))
              (JStr "UUabc") 50 "k" playlist_items_url initial_world)
    as (Hrun & _).
  - reflexivity.
  - apply rejects_error_response. discriminate.
  - exact Hrun.
Defined.

(** ** Arguments and validation *)

Lemma filter_length_zero {A} (f : A -> bool) (l : list A) :
  (List.length (filter f l) =? 0)%nat = true
  <-> forall x, In x l -> f x = false.
Proof.
  induction l as [| a l IH]; cbn [filter].
  - split; [intros _ x [] | reflexivity].
  - destruct (f a) eqn:Hfa.
    + split; [discriminate |].
      intros H. rewrite (H a (or_introl eq_refl)) in Hfa. discriminate.
    + rewrite IH. split.
      * intros H x [<- | Hx]; [exact Hfa | exact (H x Hx)].
      * intros H x Hx. apply H. right. exact Hx.
Qed.

Lemma os_can_save_spec (name : string) :
  os_can_save name = true
  <-> forall c, In c forbidden_chars -> contains_char c name = false.
Proof. unfold os_can_save. apply filter_length_zero. Qed.

(** X11: [os_can_save] accepts a name exactly when none of the nine
    characters occurs in it; so the empty name is accepted, and a name
    put together from two parts is accepted exactly when both parts
    are. *)
Theorem os_can_save_iff (name : string) :
  (os_can_save name = true
   <-> forall c, In c forbidden_chars -> contains_char c name = false)
  /\ os_can_save "" = true
  /\ forall rest, os_can_save (name ++ rest) = os_can_save name && os_can_save rest.
Proof.
  split; [apply os_can_save_spec |]. split; [reflexivity |].
  intros rest.
  destruct (os_can_save (name ++ rest)) eqn:Hboth.
  - rewrite os_can_save_spec in Hboth. symmetry. apply andb_true_iff.
    split; apply os_can_save_spec; intros c Hc;
      specialize (Hboth c Hc); rewrite contains_char_app in Hboth;
      apply orb_false_elim in Hboth; apply Hboth.
  - symmetry. apply not_true_is_false. intros Hparts.
    apply andb_true_iff in Hparts. destruct Hparts as [Hname Hrest].
    assert (Hall : os_can_save (name ++ rest) = true).
    { apply os_can_save_spec. intros c Hc. rewrite contains_char_app.
      rewrite (proj1 (os_can_save_spec name) Hname c Hc).
      exact (proj1 (os_can_save_spec rest) Hrest c Hc). }
    rewrite Hall in Hboth. discriminate.
Qed.

Lemma os_can_save_iff_witness :
  os_can_save ("ytb_channel" ++ "_data") = true
  /\ contains_char "/" "a/b" = true.
Proof.
  split.
  - rewrite (proj2 (proj2 (os_can_save_iff "ytb_channel")) "_data"). reflexivity.
  - reflexivity.
Defined.

Lemma validate_args_verdict (E : Env) (args : Args) (w : World)
    (url_resp api_resp : Response) :
  answered_by (net E (List.length (requests w)) (url args)) url_resp ->
  answered_by (net E (S (List.length (requests w))) (key_probe_url (key args)))
    api_resp ->
  snd (validate_args E args w) = after_probes E args w
  /\ exists error_m,
       fst (validate_args E args w) = Ok error_m
       /\ (error_m = ""
           <-> status_code url_resp = 200
               /\ status_code api_resp = 200
               /\ os_can_save (out args) = true).
Proof.
  intros Hurl Hapi. unfold validate_args.
  rewrite <- (requests_after_request E (url args) w) in Hapi.
  rewrite (bind_ok _ _ _ _ _ (stubborn_request_answered E _ w url_resp Hurl)).
  rewrite (bind_ok _ _ _ _ _ (stubborn_request_answered E _ _ api_resp Hapi)).
  unfold ret, after_probes. cbn [fst snd].
  split; [reflexivity |]. eexists. split; [reflexivity |].
  destruct (Z.eqb_spec (status_code url_resp) 404) as [Hu404 | Hu404];
  destruct (Z.eqb_spec (status_code url_resp) 200) as [Hu200 | Hu200];
  destruct (Z.eqb_spec (status_code api_resp) 400) as [Ha400 | Ha400];
  destruct (Z.eqb_spec (status_code api_resp) 200) as [Ha200 | Ha200];
  destruct (os_can_save (out args));
  cbn [negb andb append];
  (split; [intros Hm; try discriminate Hm; repeat split; congruence
          | intros (H1 & H2 & H3); try reflexivity; congruence]).
Qed.

(** A probe that is never answered: [validate_args] does not return. *)
Lemma validate_args_unanswered (E : Env) (args : Args) (w : World) :
  net E (List.length (requests w)) (url args) = Unanswered
  \/ net E (S (List.length (requests w))) (key_probe_url (key args)) = Unanswered ->
  fst (validate_args E args w) = OutOfFuel
  /\ api_request_allow (snd (validate_args E args w)) = api_request_allow w
  /\ files (snd (validate_args E args w)) = files w.
Proof.
  intros Hprobe. unfold validate_args.
  destruct (net E (List.length (requests w)) (url args))
    as [failures url_resp |] eqn:Hurl.
  - destruct Hprobe as [Hprobe | Hprobe]; [discriminate Hprobe |].
    rewrite (bind_ok _ _ _ _ _
               (stubborn_request_answered E _ w url_resp
                  (ex_intro _ failures Hurl))).
    rewrite <- (requests_after_request E (url args) w) in Hprobe.
    rewrite (bind_stuck _ _ _ _ (stubborn_request_unanswered E _ _ Hprobe)).
    repeat split.
  - rewrite (bind_stuck _ _ _ _ (stubborn_request_unanswered E _ _ Hurl)).
    repeat split.
Qed.

(** X12: [validate_args] sends its two probes straight through the
    transport: the gate is neither asked nor changed and no file is
    written, whatever the statuses.  When both probes are answered it
    returns, and the message it returns is empty exactly when both
    answers have status 200 and the output name is acceptable.  When a
    probe is never answered it does not return. *)
Theorem validation_verdict (E : Env) (args : Args) (w : World) :
  let run := validate_args E args w in
  api_request_allow (snd run) = api_request_allow w
  /\ files (snd run) = files w
  /\ match net E (List.length (requests w)) (url args),
           net E (S (List.length (requests w))) (key_probe_url (key args)) with
     | Answered _ url_resp, Answered _ api_resp =>
         requests (snd run)
         = (requests w ++ [url args; key_probe_url (key args)])%list
         /\ exists error_m,
              fst run = Ok error_m
              /\ (error_m = ""
                  <-> status_code url_resp = 200
                      /\ status_code api_resp = 200
                      /\ os_can_save (out args) = true)
     | _, _ => fst run = OutOfFuel
     end.
Proof.
  intros run. subst run.
  destruct (net E (List.length (requests w)) (url args))
    as [failures1 url_resp |] eqn:Hurl;
    [destruct (net E (S (List.length (requests w))) (key_probe_url (key args)))
       as [failures2 api_resp |] eqn:Hapi |].
  - destruct (validate_args_verdict E args w url_resp api_resp
                (ex_intro _ failures1 Hurl) (ex_intro _ failures2 Hapi))
      as (Hworld & Hverdict).
    rewrite Hworld. unfold after_probes, after_request.
    cbn [api_request_allow files requests].
    rewrite <- app_assoc. repeat split. exact Hverdict.
  - destruct (validate_args_unanswered E args w (or_intror Hapi))
      as (Hrun & Hgate & Hfiles).
    repeat split; assumption.
  - destruct (validate_args_unanswered E args w (or_introl Hurl))
      as (Hrun & Hgate & Hfiles).
    repeat split; assumption.
Qed.

Lemma correct_args_value (E : Env) (args : Args) (z : Z) (w : World) :
  py_int E (maxr args) = Ok z ->
  correct_args E args w
  = (Ok (corrected_args args z),
     if (z <=? 0) || (default_max_results <? z)
     then after_print maxr_warning w else w).
Proof.
  intros Hint. unfold correct_args, corrected_args.
  rewrite (bind_lift_ok _ _ _ _ Hint).
  destruct ((z <=? 0) || (default_max_results <? z)); reflexivity.
Qed.

Lemma corrected_args_fields (E : Env) (args : Args) (z : Z) :
  py_int E (maxr args) = Ok z ->
  url (corrected_args args z) = url args
  /\ key (corrected_args args z) = key args
  /\ out (corrected_args args z) = out args
  /\ py_int E (maxr (corrected_args args z)) = Ok (effective_max_results z).
Proof.
  intros Hint. unfold corrected_args, effective_max_results.
  destruct ((z <=? 0) || (default_max_results <? z)); repeat split; assumption.
Qed.

Lemma effective_max_results_range (z : Z) :
  0 < effective_max_results z <= 50.
Proof.
  unfold effective_max_results, default_max_results.
  destruct (Z.leb_spec z 0); destruct (Z.ltb_spec 50 z); cbn; lia.
Qed.

(** X13: whatever [correct_args] returns has a page size that reads as
    an integer of 1..50, the other arguments are untouched, and a
    second pass over the result changes nothing and prints nothing. *)
Theorem correct_args_settles (E : Env) (args args' : Args) (w w' : World) :
  correct_args E args w = (Ok args', w') ->
  (exists z', py_int E (maxr args') = Ok z' /\ 0 < z' <= 50)
  /\ url args' = url args /\ key args' = key args /\ out args' = out args
  /\ correct_args E args' w' = (Ok args', w').
Proof.
  intros Hrun.
  destruct (py_int E (maxr args)) as [z | e |] eqn:Hint.
  - rewrite (correct_args_value E args z w Hint) in Hrun.
    injection Hrun as <- <-.
    destruct (corrected_args_fields E args z Hint) as (Hurl & Hkey & Hout & Hmaxr).
    pose proof (effective_max_results_range z) as Hrange.
    split; [exists (effective_max_results z); split; assumption |].
    repeat split; try assumption.
    rewrite (correct_args_value E _ _ _ Hmaxr).
    unfold corrected_args, default_max_results in *.
    replace ((effective_max_results z <=? 0) || (50 <? effective_max_results z))
      with false
      by (symmetry; apply orb_false_iff; split;
          [apply Z.leb_gt | apply Z.ltb_ge]; lia).
    reflexivity.
  - unfold correct_args in Hrun. rewrite (bind_lift_exc _ _ _ _ Hint) in Hrun.
    discriminate Hrun.
  - unfold correct_args, bind, lift in Hrun. rewrite Hint in Hrun.
    discriminate Hrun.
Qed.

Lemma correct_args_settles_witness :
  correct_args two_pages_env (with_default_maxr whole_run_args)
    (after_print maxr_warning initial_world)
  = (Ok (with_default_maxr whole_run_args), after_print maxr_warning initial_world).
Proof.
  destruct (correct_args_settles two_pages_env
              {| url := "https://www.youtube.com/c/x"; key := "k"; out := "out";
                 maxr := PyStr "200" |}
              (with_default_maxr whole_run_args)
              initial_world (after_print maxr_warning initial_world) eq_refl)
    as (_ & _ & _ & _ & Hagain).
  exact Hagain.
Defined.

Lemma get_args_value (E : Env) (argv : Args) (z : Z) (w : World) :
  py_int E (maxr argv) = Ok z ->
  get_args E argv w = (Ok (corrected_args argv z), args_world z w).
Proof.
  intros Hint. unfold get_args. unfold bind at 1. cbn [print].
  fold arguments_header. fold (after_print arguments_header w).
  rewrite (correct_args_value E argv z _ Hint). unfold args_world.
  destruct ((z <=? 0) || (default_max_results <? z)); reflexivity.
Qed.

Lemma args_world_frame (z : Z) (w : World) :
  requests (args_world z w) = requests w
  /\ files (args_world z w) = files w
  /\ api_request_allow (args_world z w) = api_request_allow w.
Proof.
  unfold args_world.
  destruct ((z <=? 0) || (default_max_results <? z)); repeat split.
Qed.

(** X14: a page size that does not read as an integer ends the run
    with the exception of [int], status 1, right after the header line:
    nothing has been requested and nothing written. *)
Theorem unreadable_page_size_is_fatal (E : Env) (fuel : nat) (argv : Args)
    (e : pyexn) (w : World) :
  py_int E (maxr argv) = Exc e ->
  let run := main E fuel argv w in
  fst run = Exc e
  /\ exit_status (fst run) = Some 1
  /\ snd run = after_print arguments_header w.
Proof.
  intros Hint run.
  assert (Hargs : get_args E argv w = (Exc e, after_print arguments_header w)).
  { unfold get_args. unfold bind at 1. cbn [print].
    unfold correct_args. rewrite (bind_lift_exc _ _ _ _ Hint). reflexivity. }
  assert (Hrun : run = (Exc e, after_print arguments_header w)).
  { subst run. unfold main. rewrite (bind_exc _ _ _ _ _ Hargs). reflexivity. }
  rewrite Hrun. split; [reflexivity | split; reflexivity].
Qed.

Lemma unreadable_page_size_is_fatal_witness :
  main two_pages_env 1
    {| url := "https://www.youtube.com/c/x"; key := "k"; out := "out";
       maxr := PyStr "many" |} initial_world
  = (Exc ValueError, after_print arguments_header initial_world).
Proof.
  destruct (unreadable_page_size_is_fatal two_pages_env 1
              {| url := "https://www.youtube.com/c/x"; key := "k"; out := "out";
                 maxr := PyStr "many" |} ValueError initial_world eq_refl)
    as (Hrun & _ & Hworld).
  rewrite <- Hrun, <- Hworld. apply surjective_pairing.
Defined.

(** ** The whole run *)



Lemma runs_within_weaken (E : Env) (n p : nat) (name : string) (m : M unit) :
  (n <= p)%nat -> runs_within E n name m -> runs_within E p name m.
Proof.
  intros Hle H w. destruct (H w) as ((more & Hreq & Hlen) & Hfiles).
  split; [exists more; split; [exact Hreq | lia] | exact Hfiles].
Qed.

Lemma runs_within_costs (E : Env) (n : nat) (name : string) (m : M unit) :
  costs n m -> runs_within E n name m.
Proof.
  intros H w. destruct (H w) as (Hreq & _ & Hfiles & _).
  split; [exact Hreq | left; exact Hfiles].
Qed.

Lemma runs_within_bind {A} (E : Env) (n k : nat) (name : string) (m : M A)
    (f : A -> M unit) :
  costs n m -> (forall a, runs_within E k name (f a)) ->
  runs_within E (n + k) name (bind m f).
Proof.
  intros Hm Hf w. unfold bind.
  destruct (Hm w) as ((more & Hreq & Hlen) & _ & Hfiles & _).
  destruct (m w) as [[a | e |] w1]; cbn [snd fst] in *.
  - destruct (Hf a w1) as ((more' & Hreq' & Hlen') & Hwrite). split.
    + exists (more ++ more')%list. split.
      * rewrite Hreq', Hreq, app_assoc. reflexivity.
      * rewrite length_app. lia.
    + rewrite <- Hfiles. exact Hwrite.
  - split; [exists more; split; [exact Hreq | lia] | left; exact Hfiles].
  - split; [exists more; split; [exact Hreq | lia] | left; exact Hfiles].
Qed.

Lemma runs_within_write_file (E : Env) (name : string) (doc : json) :
  runs_within E 0 name (write_file E name doc).
Proof.
  intros w. unfold write_file.
  destruct (dump E name doc) as [| e | e] eqn:Hdump;
    cbn [fst snd add_file requests files]; split;
    try (exists []; rewrite app_nil_r; split; [reflexivity | apply le_n]).
  - right. left. exists doc. repeat split. exact Hdump.
  - left. reflexivity.
  - right. right. exists doc, e. repeat split. exact Hdump.
Qed.

Lemma costs_get_channel_id (E : Env) (channel_url : string) :
  costs 1 (get_channel_id E channel_url).
Proof.
  intros w.
  destruct (net E (List.length (requests w)) channel_url)
    as [failures page |] eqn:Hnet.
  - rewrite (get_channel_id_value E channel_url w page (ex_intro _ failures Hnet)).
    apply frame_after_request.
  - rewrite (get_channel_id_unanswered E channel_url w Hnet).
    apply (frame_weaken 0); [lia | apply frame_refl].
Qed.

Lemma costs_fetch_channel_playlist_id (E : Env) (channel_url : string)
    (max_results : Z) (api_key : string) :
  costs 2 (fetch_channel_playlist_id E channel_url max_results api_key).
Proof.
  unfold fetch_channel_playlist_id.
  apply costs_bind1; [apply costs_get_channel_id |]. intros channel_id.
  apply costs_bind1; [apply costs_api_get_request |]. intros response.
  apply costs_bind0; [apply costs_response_json |]. intros j.
  apply costs_lift.
Qed.

Lemma costs_fetch_channel_data (E : Env) (playlist_id : json) (max_results : Z)
    (api_key get_play_list_url : string) :
  costs 1 (fetch_channel_data E playlist_id max_results api_key get_play_list_url).
Proof.
  unfold fetch_channel_data.
  apply costs_bind1; [apply costs_api_get_request |]. intros response.
  apply costs_bind0; [apply costs_response_json |]. intros j.
  apply costs_bind0; [apply costs_lift |]. intros channel_title.
  apply costs_bind0; [apply costs_lift |]. intros videos_number.
  apply costs_ret.
Qed.

Lemma costs_validate_args (E : Env) (args : Args) : costs 2 (validate_args E args).
Proof.
  unfold validate_args.
  apply costs_bind1; [apply costs_stubborn_request |]. intros url_resp.
  apply costs_bind1; [apply costs_stubborn_request |]. intros api_resp.
  apply costs_ret.
Qed.

Lemma costs_get_args (E : Env) (argv : Args) : costs 0 (get_args E argv).
Proof.
  unfold get_args, correct_args.
  apply costs_bind0; [apply costs_print |]. intros _.
  apply costs_bind0; [apply costs_lift |]. intros n.
  destruct ((n <=? 0) || (default_max_results <? n)); [| apply costs_ret].
  apply costs_bind0; [apply costs_print |]. intros _. apply costs_ret.
Qed.

(** What [main] does once it has its arguments. *)
Lemma runs_within_after_args (E : Env) (fuel : nat) (argv args : Args) :
  out args = out argv ->
  runs_within E (5 + 2 * fuel) (out argv ++ ".json")
    (validation_error <- validate_args E args ;;
     if negb (String.eqb validation_error "") then
       print validation_error ;;; ret tt
     else
       max_results <- lift (py_int E (maxr args)) ;;
       print (nl ++ "Fetching channel id & playlist id...") ;;;
       playlist_id <- fetch_channel_playlist_id E (url args) max_results (key args) ;;
       print "Fetching channel data..." ;;;
       data <- fetch_channel_data E playlist_id max_results (key args)
                 "https://www.googleapis.com/youtube/v3/playlistItems?" ;;
       videos_list <- get_videos_list E playlist_id max_results (key args)
                        "https://www.googleapis.com/youtube/v3/playlistItems?"
                        "https://www.googleapis.com/youtube/v3/videos?" fuel ;;
       print (nl ++ "Saving json file...") ;;;
       write_file E (out args ++ ".json")
         (JDict [("channel_title", fst data);
                 ("videos_number", snd data);
                 ("videos", JList (map json_of_video videos_list))])).
Proof.
  intros Hout. rewrite Hout.
  apply (runs_within_bind E 2 (3 + 2 * fuel)); [apply costs_validate_args |].
  intros validation_error.
  destruct (negb (String.eqb validation_error "")).
  - apply runs_within_costs. apply (costs_weaken 0); [lia |].
    apply costs_bind0; [apply costs_print |]. intros _. apply costs_ret.
  - apply (runs_within_bind E 0); [apply costs_lift |]. intros max_results.
    apply (runs_within_bind E 0); [apply costs_print |]. intros _.
    apply (runs_within_bind E 2 (1 + 2 * fuel));
      [apply costs_fetch_channel_playlist_id |]. intros playlist_id.
    apply (runs_within_bind E 0); [apply costs_print |]. intros _.
    apply (runs_within_bind E 1 (2 * fuel)); [apply costs_fetch_channel_data |].
    intros data.
    apply (runs_within_weaken E (2 * fuel + 0)); [lia |].
    apply (runs_within_bind E (2 * fuel) 0);
      [unfold get_videos_list; apply costs_videos_loop |].
    intros videos_list.
    apply (runs_within_bind E 0); [apply costs_print |]. intros _.
    apply runs_within_write_file.
Qed.

(** X16: whatever the arguments, whatever the remote side answers and
    however the dump goes, a run of [main] sends at most five requests
    besides the two a turn of the loop, and it touches at most one file,
    the one named after [args.out], and that only at the final dump.
    Either the files are as they were; or [main] has returned and the
    file holds a whole document, the dump having succeeded; or the run
    has ended with the exception of a dump that failed after the file
    was opened, and the file is partial.  So a whole document is
    written only by a run that returns normally, and a partial one is
    left only by a dump that raises. *)
Theorem main_writes_only_on_return (E : Env) (fuel : nat) (argv : Args) (w : World) :
  let run := main E fuel argv w in
  (exists more, requests (snd run) = (requests w ++ more)%list
                /\ (List.length more <= 5 + 2 * fuel)%nat)
  /\ (files (snd run) = files w
      \/ (exists doc,
            fst run = Ok tt
            /\ dump E (out argv ++ ".json") doc = Dumped
            /\ files (snd run)
               = (files w ++ [((out argv ++ ".json")%string, Whole doc)])%list)
      \/ (exists doc e,
            fst run = Exc e
            /\ dump E (out argv ++ ".json") doc = DumpFails e
            /\ files (snd run)
               = (files w ++ [((out argv ++ ".json")%string, Partial)])%list)).
Proof.
  intros run. subst run. unfold main.
  destruct (py_int E (maxr argv)) as [z | e |] eqn:Hint.
  - destruct (corrected_args_fields E argv z Hint) as (_ & _ & Hout & _).
    destruct (args_world_frame z w) as (Hreq & Hfiles & _).
    rewrite (bind_ok _ _ _ _ _ (get_args_value E argv z w Hint)).
    rewrite <- Hreq, <- Hfiles.
    exact (runs_within_after_args E fuel argv (corrected_args argv z) Hout
             (args_world z w)).
  - assert (Hargs : get_args E argv w = (Exc e, after_print arguments_header w)).
    { unfold get_args. unfold bind at 1. cbn [print].
      unfold correct_args. rewrite (bind_lift_exc _ _ _ _ Hint). reflexivity. }
    rewrite (bind_exc _ _ _ _ _ Hargs). cbn [fst snd after_print requests files].
    split; [| left; reflexivity].
    exists []. rewrite app_nil_r. split; [reflexivity | cbn; lia].
  - unfold py_int in Hint. destruct (maxr argv) as [n | s]; [discriminate |].
    destruct (int_of_str E s); discriminate.
Qed.

Lemma bind_print {B} (line : string) (k : unit -> M B) (w : World) :
  bind (print line) k w = k tt (after_print line w).
Proof. reflexivity. Qed.

Lemma validate_args_passes (E : Env) (args : Args) (w : World) :
  accepts (net E (List.length (requests w)) (url args)) ->
  accepts (net E (S (List.length (requests w))) (key_probe_url (key args))) ->
  os_can_save (out args) = true ->
  validate_args E args w = (Ok "", after_probes E args w).
Proof.
  intros (url_resp & Hby1 & Hurl) (api_resp & Hby2 & Hkey) Hname.
  destruct (validate_args_verdict E args w url_resp api_resp Hby1 Hby2)
    as (Hworld & message & Hvalue & Hverdict).
  rewrite (surjective_pairing (validate_args E args w)), Hvalue, Hworld.
  rewrite (proj2 Hverdict (conj Hurl (conj Hkey Hname))). reflexivity.
Qed.

Lemma accepts_ok_status (failures : list TransportError) (r : Response) :
  status_code r = 200 -> accepts (Answered failures r).
Proof.
  intros Hcode. exists r. split; [exists failures; reflexivity | exact Hcode].
Qed.

Lemma requests_after_probes (E : Env) (args : Args) (w : World) :
  List.length (requests (after_probes E args w)) = S (S (List.length (requests w))).
Proof.
  unfold after_probes. rewrite !requests_after_request. reflexivity.
Qed.

Lemma after_probes_same (E : Env) (a b : Args) (w : World) :
  url a = url b -> key a = key b -> after_probes E a w = after_probes E b w.
Proof. intros Hurl Hkey. unfold after_probes. rewrite Hurl, Hkey. reflexivity. Qed.

(** X17: how a run that passes validation and resolves the channel
    ends: whatever list [get_videos_list] returns, complete or cut
    short by a rejection, [main] goes on to dump it under the summary's
    title and count into the file named after [args.out].  When the
    dump succeeds the file holds that document and [main] returns; when
    [open] raises, the run ends with that exception and no file; when
    [json.dump] raises, the run ends with that exception and the file
    is left partial. *)
Theorem main_writes_what_was_collected (E : Env) (fuel : nat) (argv : Args)
    (z : Z) (page : Response) (href : string) (j1 first : json)
    (rest : list json) (playlist j2 title number : json)
    (videos : list VideoRecord) (w w6 : World) :
  api_request_allow w = true ->
  py_int E (maxr argv) = Ok z ->
  os_can_save (out argv) = true ->
  accepts (net E (List.length (requests w)) (url argv)) ->
  accepts (net E (S (List.length (requests w))) (key_probe_url (key argv))) ->
  answered_by (net E (S (S (List.length (requests w)))) (url argv)) page ->
  canonical_href E (text page) = Some href ->
  answers (net E (S (S (S (List.length (requests w)))))
                  (channels_url (py_split_last "/" href "")
                     (effective_max_results z) (key argv)))
          j1 ->
  py_getitem j1 "items" = Ok (JList (first :: rest)) ->
  uploads_of first = Ok playlist ->
  answers (net E (S (S (S (S (List.length (requests w))))))
                  (summary_url playlist (effective_max_results z) (key argv)
                     playlist_items_url))
          j2 ->
  summary_title j2 = Ok title ->
  summary_count j2 = Ok number ->
  get_videos_list E playlist (effective_max_results z) (key argv)
    playlist_items_url videos_url fuel (setup_world E argv z href playlist w)
  = (Ok videos, w6) ->
  main E fuel argv w
  = match dump E (out argv ++ ".json") (channel_document title number videos) with
    | Dumped =>
        (Ok tt,
         add_file (out argv ++ ".json")
           (Whole (channel_document title number videos))
           (after_print saving_line w6))
    | OpenFails e => (Exc e, after_print saving_line w6)
    | DumpFails e =>
        (Exc e, add_file (out argv ++ ".json") Partial (after_print saving_line w6))
    end
  /\ requests (setup_world E argv z href playlist w)
     = (requests w
        ++ [url argv; key_probe_url (key argv); url argv;
            channels_url (py_split_last "/" href "") (effective_max_results z)
              (key argv);
            summary_url playlist (effective_max_results z) (key argv)
              playlist_items_url])%list.
Proof.
  intros Hopen Hint Hname Hprobe1 Hprobe2 Hpage Hhref Hlookup Hitems Huploads
         Hsummary Htitle Hcount Hvideos.
  destruct (corrected_args_fields E argv z Hint) as (Hurl & Hkey & Hout & Hmaxr).
  destruct (args_world_frame z w) as (Hreq & Hfiles & Hgate).
  unfold setup_world in *.
  set (w2 := after_print fetching_ids_line (after_probes E argv (args_world z w)))
    in *.
  set (w3 := after_print fetching_data_line
               (after_request E
                  (channels_url (py_split_last "/" href "")
                     (effective_max_results z) (key argv))
                  (after_request E (url argv) w2))) in *.
  assert (Hlen2 : List.length (requests w2) = S (S (List.length (requests w)))).
  { unfold w2. cbn [after_print requests]. rewrite requests_after_probes, Hreq.
    reflexivity. }
  assert (Hlen3 : List.length (requests w3)
                  = S (S (S (S (List.length (requests w)))))).
  { unfold w3. cbn [after_print requests].
    rewrite !requests_after_request, Hlen2. reflexivity. }
  assert (Hopen2 : api_request_allow w2 = true).
  { unfold w2. cbn. rewrite Hgate. exact Hopen. }
  split.
  - unfold main.
    rewrite (bind_ok _ _ _ _ _ (get_args_value E argv z w Hint)).
    assert (Hvalid : validate_args E (corrected_args argv z) (args_world z w)
                     = (Ok "", after_probes E argv (args_world z w))).
    { rewrite <- (after_probes_same E _ _ _ Hurl Hkey).
      apply validate_args_passes; rewrite ?Hreq, ?Hurl, ?Hkey, ?Hout; assumption. }
    rewrite (bind_ok _ _ _ _ _ Hvalid). cbn [String.eqb negb].
    rewrite (bind_lift_ok _ _ _ _ Hmaxr), bind_print.
    rewrite Hurl, Hkey, Hout. fold fetching_ids_line. fold w2.
    assert (Hplaylist : fetch_channel_playlist_id E (url argv)
                          (effective_max_results z) (key argv) w2
                        = (Ok playlist,
                           after_request E
                             (channels_url (py_split_last "/" href "")
                                (effective_max_results z) (key argv))
                             (after_request E (url argv) w2))).
    { rewrite (fetch_channel_playlist_id_answered E (url argv)
                 (effective_max_results z) (key argv) w2 page href j1 Hopen2).
      - unfold lift. rewrite Hitems. cbn [obind py_getitem0]. rewrite Huploads.
        reflexivity.
      - rewrite Hlen2. exact Hpage.
      - exact Hhref.
      - rewrite Hlen2. exact Hlookup. }
    rewrite (bind_ok _ _ _ _ _ Hplaylist), bind_print.
    fold fetching_data_line. fold w3. fold playlist_items_url videos_url.
    assert (Hdata : fetch_channel_data E playlist (effective_max_results z)
                      (key argv) playlist_items_url w3
                    = (Ok (title, number),
                       after_request E
                         (summary_url playlist (effective_max_results z)
                            (key argv) playlist_items_url) w3)).
    { rewrite (fetch_channel_data_answered E playlist (effective_max_results z)
                 (key argv) playlist_items_url w3 j2).
      - rewrite Htitle, Hcount. reflexivity.
      - unfold w3. cbn. exact Hopen2.
      - rewrite Hlen3. exact Hsummary. }
    rewrite (bind_ok _ _ _ _ _ Hdata).
    rewrite (bind_ok _ _ _ _ _ Hvideos), bind_print.
    fold saving_line. cbn [fst snd]. fold (channel_document title number videos).
    unfold write_file.
    destruct (dump E (out argv ++ ".json") (channel_document title number videos));
      reflexivity.
  - unfold w3, w2, after_probes, after_request, after_print. cbn [requests].
    rewrite Hreq, <- !app_assoc. reflexivity.
Qed.

Lemma main_writes_what_was_collected_witness :
  files (snd (main whole_run_env 5 whole_run_args initial_world))
  = [("out.json",
      Whole (channel_document (JStr "Channel") (JNum 3)
               (flat_map page_records [page_one; page_two])))].
Proof.
  destruct (main_writes_what_was_collected whole_run_env 5 whole_run_args 50
              channel_page_response
              "https://www.youtube.com/channel/UCabc"
              (JDict [("items",
                       JList [JDict [("contentDetails",
                                      JDict [("relatedPlaylists",
                                              JDict [("uploads", JStr "UUabc")])])]])])
              (JDict [("contentDetails",
                       JDict [("relatedPlaylists",
                               JDict [("uploads", JStr "UUabc")])])])
              []
              (JStr "UUabc")
              (JDict [("items",
                       JList [JDict [("snippet",
                                      JDict [("channelTitle", JStr "Channel")])]]);
                      ("pageInfo", JDict [("totalResults", JNum 3)])])
              (JStr "Channel") (JNum 3)
              (flat_map page_records [page_one; page_two])
              initial_world
              (snd (get_videos_list whole_run_env (JStr "UUabc") 50 "k"
                      playlist_items_url videos_url 5
                      (setup_world whole_run_env whole_run_args 50
                         "https://www.youtube.com/channel/UCabc" (JStr "UUabc")
                         initial_world))))
    as (Hmain & _);
    [first [reflexivity
           | apply accepts_ok_status; reflexivity
           | exact (ex_intro _ [] eq_refl)
           | apply answers_ok_response] ..
    | rewrite Hmain; reflexivity].
Defined.

(** ** More on the loop *)

(** X18: a page with more statistics items than entries aborts the
    whole walk with [IndexError]: the records of the pages before it
    are not returned, although the gate is still open. *)
Theorem statistics_overflow_aborts_walk (E : Env) (playlist_id : json)
    (max_results : Z) (api_key get_play_list_url get_videos_url : string)
    (pre : list Page) (p : Page) (extra : nat) (w : World) :
  api_request_allow w = true ->
  serves E (List.length (requests w)) (pre ++ [p]) ->
  forallb page_ok pre = true ->
  forallb has_cursor pre = true ->
  forallb has_videoId (entries p) = true ->
  (List.length (entries p) < List.length (pg_statistics p))%nat ->
  let run := get_videos_list E playlist_id max_results api_key get_play_list_url
               get_videos_url (List.length pre + S extra) w in
  fst run = Exc IndexError
  /\ exit_status (fst run) = Some 1
  /\ api_request_allow (snd run) = true
  /\ requests (snd run)
     = (requests w
        ++ requests_of_pages playlist_id max_results api_key get_play_list_url
             get_videos_url "" (pre ++ [p]))%list.
Proof.
  intros Hopen Hnet Hok Hcur Hids Hlen run.
  destruct (serves_app E _ _ _ Hnet) as [Hnet_pre Hnet_p].
  assert (Hlog : List.length
                   (requests (after_pages E playlist_id max_results api_key
                                get_play_list_url get_videos_url "" 0 pre w))
                 = (List.length (requests w) + 2 * List.length pre)%nat).
  { rewrite after_pages_requests, length_app, requests_of_pages_length.
    reflexivity. }
  rewrite <- Hlog in Hnet_p.
  assert (Hrun : run
                 = (Exc IndexError,
                    after_request E
                      (page_statistics_url max_results api_key get_videos_url p)
                      (after_request E
                         (playlist_url playlist_id max_results api_key
                            get_play_list_url (token_after "" pre))
                         (after_pages E playlist_id max_results api_key
                            get_play_list_url get_videos_url "" 0 pre w)))).
  { subst run. unfold get_videos_list.
    rewrite (loop_through_pages E playlist_id max_results api_key
               get_play_list_url get_videos_url pre (S extra) "" [] 0 w
               Hopen Hnet_pre Hok Hcur).
    cbn [videos_loop].
    apply body_overflow.
    - rewrite after_pages_allow. exact Hopen.
    - apply (serves_head E _ _ _ Hnet_p).
    - apply (serves_head E _ _ _ Hnet_p).
    - exact Hids.
    - exact Hlen. }
  rewrite Hrun. cbn [fst snd exit_status after_request api_request_allow requests].
  rewrite after_pages_allow, after_pages_requests, requests_of_pages_app.
  cbn [requests_of_pages]. rewrite <- !app_assoc.
  repeat split. exact Hopen.
Qed.

Lemma statistics_overflow_aborts_walk_witness :
  fst (get_videos_list overflow_env (JStr "UU") 50 "k" sample_playlist_url
         sample_videos_url 2 initial_world)
  = Exc IndexError.
Proof.
  destruct (statistics_overflow_aborts_walk overflow_env (JStr "UU") 50 "k"
              sample_playlist_url sample_videos_url [page_one] page_five 0
              initial_world) as (Hrun & _).
  - reflexivity.
  - apply (script_serves [page_one; page_five] []).
  - reflexivity.
  - reflexivity.
  - reflexivity.
  - cbn. lia.
  - exact Hrun.
Defined.

Lemma total_after_sum (ps : list Page) (total : Z) :
  total_after total ps = total + Z.of_nat (List.length (flat_map entries ps)).
Proof.
  revert total. induction ps as [| p ps IH]; intros total.
  - cbn. lia.
  - cbn [total_after flat_map]. rewrite IH, length_app. lia.
Qed.

Lemma page_records_count (ps : list Page) :
  forallb page_ok ps = true ->
  List.length (flat_map page_records ps)
  = List.length (flat_map pg_statistics ps).
Proof.
  induction ps as [| p ps IH]; intros Hok; [reflexivity |].
  cbn [forallb] in Hok. apply andb_prop in Hok. destruct Hok as [Hp Hps].
  unfold page_ok in Hp. apply andb_prop in Hp. destruct Hp as [_ Hlen].
  apply Nat.leb_le in Hlen.
  cbn [flat_map]. rewrite !length_app, (IH Hps).
  unfold page_records. rewrite length_map, length_combine. lia.
Qed.

(** X19: after a walk without fault the last line printed reports the
    number of playlist entries met on all pages, while the list
    returned has one record for each statistics item: the two numbers
    differ as soon as a statistics answer is short. *)
Theorem parsed_line_counts_entries (E : Env) (playlist_id : json)
    (max_results : Z) (api_key get_play_list_url get_videos_url : string)
    (pre : list Page) (final : Page) (extra : nat) (w : World) :
  api_request_allow w = true ->
  serves E (List.length (requests w)) (pre ++ [final]) ->
  forallb page_ok (pre ++ [final]) = true ->
  forallb has_cursor pre = true ->
  has_cursor final = false ->
  let run := get_videos_list E playlist_id max_results api_key get_play_list_url
               get_videos_url (List.length pre + S extra) w in
  last (stdout (snd run)) ""
  = parsed_line (Z.of_nat (List.length (flat_map entries (pre ++ [final]))))
  /\ exists videos,
       fst run = Ok videos
       /\ List.length videos
          = List.length (flat_map pg_statistics (pre ++ [final])).
Proof.
  intros Hopen Hnet Hok Hcur Hlast run. subst run.
  unfold get_videos_list.
  rewrite (loop_finishes E playlist_id max_results api_key get_play_list_url
             get_videos_url pre final extra "" [] 0 w Hopen Hnet Hok Hcur Hlast).
  cbn [fst snd app]. split.
  - rewrite after_pages_app. cbn [after_pages]. unfold after_page.
    cbn [stdout]. rewrite last_last, total_after_sum.
    rewrite flat_map_app, length_app. cbn [flat_map]. rewrite app_nil_r.
    rewrite Nat2Z.inj_add, Z.add_0_l. reflexivity.
  - eexists. split; [reflexivity |]. apply page_records_count. exact Hok.
Qed.

Lemma parsed_line_counts_entries_witness :
  last (stdout (snd (get_videos_list
                       (script_env (responses_of_pages [page_four])
                          (error_response 403))
                       (JStr "UU") 50 "k" sample_playlist_url sample_videos_url 1
                       initial_world))) ""
  = "Parsed 2 videos".
Proof.
  destruct (parsed_line_counts_entries
              (script_env (responses_of_pages [page_four]) (error_response 403))
              (JStr "UU") 50 "k" sample_playlist_url sample_videos_url
              [] page_four 0 initial_world) as (Hline & _).
  - reflexivity.
  - apply (script_serves [page_four] []).
  - reflexivity.
  - reflexivity.
  - reflexivity.
  - exact Hline.
Defined.

(** ** More on the values *)

Lemma py_replace_removes (c : ascii) (by_ s : string) :
  contains_char c by_ = false ->
  contains_char c (py_replace c by_ s) = false.
Proof.
  intros Hby. induction s as [| a s IH]; [reflexivity |].
  cbn [py_replace]. destruct (Ascii.eqb a c) eqn:Hac.
  - rewrite contains_char_app, Hby, IH. reflexivity.
  - cbn [contains_char]. rewrite Hac, IH. reflexivity.
Qed.

Lemma py_replace_keeps_out (c d : ascii) (by_ s : string) :
  contains_char d by_ = false ->
  contains_char d s = false ->
  contains_char d (py_replace c by_ s) = false.
Proof.
  intros Hby. induction s as [| a s IH]; intros Hs; [reflexivity |].
  cbn [contains_char] in Hs. apply orb_false_elim in Hs. destruct Hs as [Had Hs].
  cbn [py_replace]. destruct (Ascii.eqb a c).
  - rewrite contains_char_app, Hby, (IH Hs). reflexivity.
  - cbn [contains_char]. rewrite Had, (IH Hs). reflexivity.
Qed.

Lemma py_replace_absent (c : ascii) (by_ s : string) :
  contains_char c s = false -> py_replace c by_ s = s.
Proof.
  induction s as [| a s IH]; intros Hs; [reflexivity |].
  cbn [contains_char] in Hs. apply orb_false_elim in Hs. destruct Hs as [Hac Hs].
  cbn [py_replace]. rewrite Hac, (IH Hs). reflexivity.
Qed.

(** X20: whatever string [publishedAt] holds, the publish time made of
    it contains neither T nor Z, and normalizing it once more changes
    nothing. *)
Theorem normalized_time_has_no_markers (s : string) :
  contains_char "T" (normalize_publish_time s) = false
  /\ contains_char "Z" (normalize_publish_time s) = false
  /\ normalize_publish_time (normalize_publish_time s) = normalize_publish_time s.
Proof.
  assert (HT : contains_char "T" (normalize_publish_time s) = false).
  { unfold normalize_publish_time.
    apply py_replace_keeps_out; [reflexivity |].
    apply py_replace_removes. reflexivity. }
  assert (HZ : contains_char "Z" (normalize_publish_time s) = false).
  { unfold normalize_publish_time. apply py_replace_removes. reflexivity. }
  repeat split; try assumption.
  unfold normalize_publish_time at 1.
  rewrite (py_replace_absent "T" " " _ HT). apply py_replace_absent. exact HZ.
Qed.

(** X21: what [api_get_request] can hand back.  A response comes back
    only with status 200, from a gate that was open and stays open;
    [False] comes back only from a soft call and leaves the gate
    closed; the only exception is the exit of a fail-fast call, gate
    closed; the function never falls off its end with [None]; and it
    fails to return only when the gate is open and the request is never
    answered. *)
Theorem gate_outcomes (E : Env) (u : string) (exit_if_not : bool) (w : World) :
  let run := api_get_request E u exit_if_not w in
  match fst run with
  | Ok (Resp r) =>
      status_code r = 200
      /\ api_request_allow w = true
      /\ api_request_allow (snd run) = true
      /\ requests (snd run) = (requests w ++ [u])%list
  | Ok PyFalse => exit_if_not = false /\ api_request_allow (snd run) = false
  | Ok PyNone => False
  | Exc e =>
      e = SystemExit "exit" /\ exit_if_not = true
      /\ api_request_allow (snd run) = false
  | OutOfFuel =>
      api_request_allow w = true
      /\ net E (List.length (requests w)) u = Unanswered
  end.
Proof.
  intros run. subst run. destruct (api_request_allow w) eqn:Hgate.
  - destruct (net E (List.length (requests w)) u) as [failures r |] eqn:Hnet.
    + destruct (Z.eq_dec (status_code r) 200) as [Hcode | Hcode].
      * rewrite (api_get_request_open_200 E u exit_if_not w r Hgate
                   (ex_intro _ failures Hnet) Hcode).
        cbn [fst snd after_request api_request_allow requests].
        repeat split; assumption.
      * rewrite (api_get_request_open_rejected E u exit_if_not w Hgate
                   (ex_intro _ r (conj (ex_intro _ failures Hnet) Hcode))).
        destruct exit_if_not; cbn; repeat split.
    + rewrite (api_get_request_unanswered E u exit_if_not w Hgate Hnet).
      cbn [fst]. split; reflexivity.
  - rewrite (api_get_request_closed E u exit_if_not w Hgate).
    destruct exit_if_not; cbn; repeat split.
Qed.
